(** * The tool-calling agent loop of mcp-assistant

    A shallow embedding of [src/plan_exec_agent/step_executor.py]
    ([StepExecutor]) and [mcp_assistant/host.py] ([MCPHost]), together with
    the properties of the agent loop, the tool dispatcher and the
    call-result cache.

    Layout:
    - [Py]: the fragment of Python values, exceptions and [str] methods the
      two files rely on;
    - [PyJson]: the [json] module ([loads], [dumps]) as far as the code
      uses it;
    - [Agent]: messages, content blocks and the trace of observable events;
    - [StepExecutor]: the tool catalog and the bounded agent loop;
    - [MCPHost]: the dispatcher, its handlers and the unbounded agent loop;
    - [Examples]: concrete collaborators on which the definitions run;
    - [Vocabulary]: the notions in which the properties are stated;
    - the properties, one section per topic. *)

From Stdlib Require Import ZArith String Ascii List DecimalString Lia Bool.
From stdpp Require Import base gmap strings list option.

Set Warnings "-register-all".

(** * Python values, exceptions and [str] methods *)

Module Py.

(** The exceptions that the modelled code can raise or let through.
    [External] stands for a failure inside a collaborator (a provider or
    a backend); the agent code never catches it. [Diverged] is no Python
    exception: it marks a run of an unbounded [while] loop that did not
    end within the fuel given to its model. *)
Inductive exn : Type :=
| KeyError (key : string)
| TypeError (msg : string)
| AttributeError (msg : string)
| JSONDecodeError
| UninitializedSession
| External (msg : string)
| Diverged.

(** A Python call either returns a value or raises. *)
Inductive result (A : Type) : Type :=
| Ok (a : A)
| Raise (e : exn).
Arguments Ok {A} a.
Arguments Raise {A} e.

Definition is_ok {A} (r : result A) : bool :=
  match r with Ok _ => true | Raise _ => false end.

(** The double quote character, and the one-character string holding it. *)
Definition dquote : ascii := ascii_of_nat 34.
Definition dq : string := String dquote EmptyString.

(** The line feed, Python's ["\n"]. *)
Definition nl : string := String (ascii_of_nat 10) EmptyString.

(** [bool(s)] for a [str]: the empty string is falsy. *)
Definition str_bool (s : string) : bool :=
  match s with EmptyString => false | String _ _ => true end.

(** [s.startswith(p)]. *)
Definition startswith (s p : string) : bool := String.prefix p s.

(** [sub in s] for two [str]: substring test. *)
Fixpoint str_contains (sub s : string) : bool :=
  String.prefix sub s ||
  match s with
  | EmptyString => false
  | String _ rest => str_contains sub rest
  end.

(** [s.split(sep)] for a one-character separator: never returns the empty
    list, and keeps empty fields. *)
Fixpoint split (sep : ascii) (s : string) : list string :=
  match s with
  | EmptyString => [EmptyString]
  | String c rest =>
      if Ascii.eqb c sep then EmptyString :: split sep rest
      else match split sep rest with
           | h :: t => String c h :: t
           | [] => [String c EmptyString]
           end
  end.

(** [sep.join(parts)]. *)
Fixpoint join (sep : string) (parts : list string) : string :=
  match parts with
  | [] => EmptyString
  | [p] => p
  | p :: rest => p +:+ sep +:+ join sep rest
  end.

(** [str(e)] for an exception, as far as the modelled code prints it. *)
Definition exn_str (e : exn) : string :=
  match e with
  | KeyError key => "'" +:+ key +:+ "'"
  | TypeError msg => msg
  | AttributeError msg => msg
  | JSONDecodeError => "JSONDecodeError"
  | UninitializedSession => EmptyString
  | External msg => msg
  | Diverged => EmptyString
  end.

(** [str(n)] for an [int]. *)
Definition int_str (z : Z) : string := NilZero.string_of_int (Z.to_int z).

(** The built-ins whose results depend on IEEE doubles or on the Unicode
    database; they are kept abstract. [float_of_str] is [float(s)],
    [float_bool] is [bool(x)], [float_repr] is [repr(x)], [float_json] is
    the text [json.dumps] writes for a float, [str_repr] is [repr(s)] of a
    [str]. *)
Class Builtins : Type := {
  pyfloat : Type;
  float_of_str : string -> pyfloat;
  float_bool : pyfloat -> bool;
  float_repr : pyfloat -> string;
  float_json : pyfloat -> string;
  str_repr : string -> string
}.

End Py.

Export Py.

(** * The [json] module *)

Module PyJson.

Section Json.
Context `{PB : Builtins}.

(** What [json.loads] can return. A [dict] keeps its insertion order, as
    Python's does; a [str] is held as its UTF-8 bytes. *)
Inductive json : Type :=
| JNull
| JBool (b : bool)
| JInt (z : Z)
| JFloat (f : pyfloat)
| JStr (s : string)
| JList (items : list json)
| JDict (pairs : list (string * json)).

(** ** Dictionaries in insertion order *)

Fixpoint dict_get {V} (d : list (string * V)) (k : string) : option V :=
  match d with
  | [] => None
  | (k', v) :: rest => if String.eqb k' k then Some v else dict_get rest k
  end.

(** [d[k] = v]: an existing key keeps its position and takes the new
    value, a new key goes last. *)
Fixpoint dict_set {V} (d : list (string * V)) (k : string) (v : V)
  : list (string * V) :=
  match d with
  | [] => [(k, v)]
  | (k', v') :: rest =>
      if String.eqb k' k then (k', v) :: rest
      else (k', v') :: dict_set rest k v
  end.

(** ** Truthiness: [bool(x)] *)

Definition truthy (v : json) : bool :=
  match v with
  | JNull => false
  | JBool b => b
  | JInt z => negb (Z.eqb z 0)
  | JFloat f => float_bool f
  | JStr s => str_bool s
  | JList items => match items with [] => false | _ => true end
  | JDict pairs => match pairs with [] => false | _ => true end
  end.

(** ** Code points and UTF-8 *)

Definition byte (n : N) : ascii := ascii_of_N n.
Definition code (c : ascii) : N := N_of_ascii c.

Definition utf8_encode (n : N) : string :=
  if (n <? 128)%N then String (byte n) EmptyString
  else if (n <? 2048)%N then
    String (byte (192 + n / 64)) (String (byte (128 + n mod 64)) EmptyString)
  else if (n <? 65536)%N then
    String (byte (224 + n / 4096))
      (String (byte (128 + (n / 64) mod 64))
         (String (byte (128 + n mod 64)) EmptyString))
  else
    String (byte (240 + n / 262144))
      (String (byte (128 + (n / 4096) mod 64))
         (String (byte (128 + (n / 64) mod 64))
            (String (byte (128 + n mod 64)) EmptyString))).

(** The code points of a UTF-8 byte string; a byte that starts no
    well-formed sequence is taken as the code point of the same value. *)
Fixpoint utf8_decode (s : string) : list N :=
  match s with
  | EmptyString => []
  | String b0 r0 =>
      let n0 := code b0 in
      if (n0 <? 192)%N then n0 :: utf8_decode r0
      else match r0 with
           | EmptyString => [n0]
           | String b1 r1 =>
               let n1 := (code b1 mod 64)%N in
               if (n0 <? 224)%N then
                 ((n0 - 192) * 64 + n1)%N :: utf8_decode r1
               else match r1 with
                    | EmptyString => n0 :: utf8_decode r0
                    | String b2 r2 =>
                        let n2 := (code b2 mod 64)%N in
                        if (n0 <? 240)%N then
                          ((n0 - 224) * 4096 + n1 * 64 + n2)%N
                            :: utf8_decode r2
                        else match r2 with
                             | EmptyString => n0 :: utf8_decode r0
                             | String b3 r3 =>
                                 let n3 := (code b3 mod 64)%N in
                                 ((n0 - 240) * 262144 + n1 * 4096
                                  + n2 * 64 + n3)%N :: utf8_decode r3
                             end
                    end
           end
  end.

Definition is_high_surrogate (n : N) : bool :=
  (55296 <=? n)%N && (n <=? 56319)%N.
Definition is_low_surrogate (n : N) : bool :=
  (56320 <=? n)%N && (n <=? 57343)%N.
Definition join_surrogates (hi lo : N) : N :=
  (65536 + (hi - 55296) * 1024 + (lo - 56320))%N.

(** ** Digits *)

Definition is_digit (c : ascii) : bool :=
  (48 <=? code c)%N && (code c <=? 57)%N.

Definition hex_value (c : ascii) : option N :=
  let n := code c in
  if (48 <=? n)%N && (n <=? 57)%N then Some (n - 48)%N
  else if (97 <=? n)%N && (n <=? 102)%N then Some (n - 87)%N
  else if (65 <=? n)%N && (n <=? 70)%N then Some (n - 55)%N
  else None.

Definition hex_digit (n : N) : ascii :=
  if (n <? 10)%N then byte (48 + n) else byte (87 + n).

(** The longest prefix of digits, and what follows it. *)
Fixpoint span_digits (s : string) : string * string :=
  match s with
  | EmptyString => (EmptyString, EmptyString)
  | String c rest =>
      if is_digit c then
        let '(ds, tl) := span_digits rest in (String c ds, tl)
      else (EmptyString, s)
  end.

Fixpoint digits_value (acc : Z) (ds : string) : Z :=
  match ds with
  | EmptyString => acc
  | String c rest => digits_value (10 * acc + Z.of_N (code c - 48)%N)%Z rest
  end.

(** ** Number literals

    A number is an optional minus sign, an integer part (a single zero, or
    digits that do not start with a zero), an optional fraction (a dot and
    at least one digit) and an optional exponent (e or E, an optional sign
    and at least one digit). A literal with neither a fraction nor an
    exponent is an [int], any other one a [float] built by [float] from
    the text. *)

Definition valid_int_part (ds : string) : bool :=
  match ds with
  | EmptyString => false
  | String c EmptyString => true
  | String c _ => negb (Ascii.eqb c "0")
  end.

(** The fraction, when there is one: [None] when a dot is followed by no
    digit. *)
Definition scan_frac (s : string) : option (bool * string) :=
  match s with
  | String "." r =>
      let '(fs, tl) := span_digits r in
      if str_bool fs then Some (true, tl) else None
  | _ => Some (false, s)
  end.

Definition scan_exp (s : string) : option (bool * string) :=
  match s with
  | String c r =>
      if Ascii.eqb c "e" || Ascii.eqb c "E" then
        let body :=
          match r with
          | String "+" r' => r'
          | String "-" r' => r'
          | _ => r
          end in
        let '(es, tl) := span_digits body in
        if str_bool es then Some (true, tl) else None
      else Some (false, s)
  | EmptyString => Some (false, s)
  end.

Definition parse_number (a : string) : option json :=
  let '(neg, body) :=
    match a with
    | String "-" r => (true, r)
    | _ => (false, a)
    end in
  let '(ip, r1) := span_digits body in
  if negb (valid_int_part ip) then None
  else
    match scan_frac r1 with
    | None => None
    | Some (has_frac, r2) =>
        match scan_exp r2 with
        | None => None
        | Some (has_exp, r3) =>
            if str_bool r3 then None
            else if has_frac || has_exp then Some (JFloat (float_of_str a))
            else
              let n := digits_value 0 ip in
              Some (JInt (if neg then (- n)%Z else n))
        end
    end.

(** A maximal run of characters that are neither white space nor
    punctuation is one of the constants or a number. *)
Definition parse_atom (a : string) : option json :=
  if String.eqb a "null" then Some JNull
  else if String.eqb a "true" then Some (JBool true)
  else if String.eqb a "false" then Some (JBool false)
  else if String.eqb a "NaN" then Some (JFloat (float_of_str "nan"))
  else if String.eqb a "Infinity" then Some (JFloat (float_of_str "inf"))
  else if String.eqb a "-Infinity" then Some (JFloat (float_of_str "-inf"))
  else parse_number a.

(** ** Lexer

    One pass over the characters. Inside a string, [pend] holds a high
    surrogate read from a [\uXXXX] escape that may still be joined with a
    low surrogate from the next escape. *)

Inductive token : Type :=
| TLBrace | TRBrace | TLBracket | TRBracket | TComma | TColon
| TStr (s : string)
| TAtom (a : string).

Inductive lex_state : Type :=
| LIdle
| LAtom (acc : string)
| LStr (acc : string) (pend : option N)
| LEsc (acc : string) (pend : option N)
| LUni (acc : string) (pend : option N) (digits : list N).

Definition is_space (c : ascii) : bool :=
  let n := code c in
  (n =? 32)%N || (n =? 9)%N || (n =? 10)%N || (n =? 13)%N.

Definition punct (c : ascii) : option token :=
  if Ascii.eqb c "{" then Some TLBrace
  else if Ascii.eqb c "}" then Some TRBrace
  else if Ascii.eqb c "[" then Some TLBracket
  else if Ascii.eqb c "]" then Some TRBracket
  else if Ascii.eqb c "," then Some TComma
  else if Ascii.eqb c ":" then Some TColon
  else None.

Definition is_punct (c : ascii) : bool :=
  match punct c with Some _ => true | None => false end.

(** A pending high surrogate that was not joined stays in the string on
    its own. *)
Definition flush (acc : string) (pend : option N) : string :=
  match pend with
  | None => acc
  | Some hi => acc +:+ utf8_encode hi
  end.

Definition simple_escape (c : ascii) : option ascii :=
  if Ascii.eqb c dquote then Some dquote
  else if Ascii.eqb c "\" then Some "\"%char
  else if Ascii.eqb c "/" then Some "/"%char
  else if Ascii.eqb c "b" then Some (byte 8)
  else if Ascii.eqb c "f" then Some (byte 12)
  else if Ascii.eqb c "n" then Some (byte 10)
  else if Ascii.eqb c "r" then Some (byte 13)
  else if Ascii.eqb c "t" then Some (byte 9)
  else None.

Definition hex4 (ds : list N) : N :=
  fold_left (fun acc d => (16 * acc + d)%N) ds 0%N.

(** The state after a complete [\uXXXX] escape of value [uni]. *)
Definition after_escape (acc : string) (pend : option N) (uni : N)
  : lex_state :=
  match pend with
  | Some hi =>
      if is_low_surrogate uni then
        LStr (acc +:+ utf8_encode (join_surrogates hi uni)) None
      else if is_high_surrogate uni then
        LStr (acc +:+ utf8_encode hi) (Some uni)
      else LStr (acc +:+ utf8_encode hi +:+ utf8_encode uni) None
  | None =>
      if is_high_surrogate uni then LStr acc (Some uni)
      else LStr (acc +:+ utf8_encode uni) None
  end.

Definition snoc (acc : string) (c : ascii) : string :=
  acc +:+ String c EmptyString.

(** One character: the next state and the tokens it completes, or [None]
    on a character that no JSON text has at this place. *)
Definition lex_idle (c : ascii) : lex_state * list token :=
  if is_space c then (LIdle, [])
  else match punct c with
       | Some t => (LIdle, [t])
       | None =>
           if Ascii.eqb c dquote then (LStr EmptyString None, [])
           else (LAtom (String c EmptyString), [])
       end.

Definition lex_step (st : lex_state) (c : ascii)
  : option (lex_state * list token) :=
  match st with
  | LIdle => Some (lex_idle c)
  | LAtom acc =>
      if is_space c || is_punct c || Ascii.eqb c dquote then
        let '(st', ts) := lex_idle c in Some (st', TAtom acc :: ts)
      else Some (LAtom (snoc acc c), [])
  | LStr acc pend =>
      if Ascii.eqb c dquote then Some (LIdle, [TStr (flush acc pend)])
      else if Ascii.eqb c "\" then Some (LEsc acc pend, [])
      else if (code c <? 32)%N then None
      else Some (LStr (snoc (flush acc pend) c) None, [])
  | LEsc acc pend =>
      if Ascii.eqb c "u" then Some (LUni acc pend [], [])
      else match simple_escape c with
           | Some e => Some (LStr (snoc (flush acc pend) e) None, [])
           | None => None
           end
  | LUni acc pend ds =>
      match hex_value c with
      | None => None
      | Some d =>
          let ds' := ds ++ [d] in
          if (length ds' =? 4)%nat then
            Some (after_escape acc pend (hex4 ds'), [])
          else Some (LUni acc pend ds', [])
      end
  end.

Fixpoint lex (st : lex_state) (s : string) : option (list token) :=
  match s with
  | EmptyString =>
      match st with
      | LIdle => Some []
      | LAtom acc => Some [TAtom acc]
      | _ => None
      end
  | String c rest =>
      match lex_step st c with
      | None => None
      | Some (st', ts) =>
          match lex st' rest with
          | None => None
          | Some more => Some (ts ++ more)
          end
      end
  end.

(** ** Parser

    One pass over the tokens with an explicit stack of the containers
    that are still open. *)

Inductive frame : Type :=
| FArr (items : list json)
| FObj (pairs : list (string * json)) (key : option string).

Inductive expect : Type :=
| EValue      (* a value *)
| EArrFirst   (* a value or the end of the array *)
| EObjFirst   (* a key or the end of the object *)
| EObjKey     (* a key *)
| EColon      (* the colon after a key *)
| EAfter      (* a comma or the end of the container *)
| EDone (v : json).

(** A value is complete: it is the document, the next item of the open
    array, or the value of the pending key. A key that occurs twice keeps
    its last value, as in [dict(pairs)]. *)
Definition complete (stack : list frame) (v : json)
  : option (list frame * expect) :=
  match stack with
  | [] => Some ([], EDone v)
  | FArr items :: st => Some (FArr (items ++ [v]) :: st, EAfter)
  | FObj pairs (Some k) :: st =>
      Some (FObj (dict_set pairs k v) None :: st, EAfter)
  | FObj _ None :: _ => None
  end.

Definition close_array (stack : list frame) : option (list frame * expect) :=
  match stack with
  | FArr items :: st => complete st (JList items)
  | _ => None
  end.

Definition close_object (stack : list frame)
  : option (list frame * expect) :=
  match stack with
  | FObj pairs _ :: st => complete st (JDict pairs)
  | _ => None
  end.

Definition set_key (stack : list frame) (k : string)
  : option (list frame * expect) :=
  match stack with
  | FObj pairs _ :: st => Some (FObj pairs (Some k) :: st, EColon)
  | _ => None
  end.

Definition start_value (stack : list frame) (t : token)
  : option (list frame * expect) :=
  match t with
  | TStr s => complete stack (JStr s)
  | TAtom a =>
      match parse_atom a with
      | Some v => complete stack v
      | None => None
      end
  | TLBracket => Some (FArr [] :: stack, EArrFirst)
  | TLBrace => Some (FObj [] None :: stack, EObjFirst)
  | _ => None
  end.

Definition parse_step (stack : list frame) (e : expect) (t : token)
  : option (list frame * expect) :=
  match e with
  | EValue => start_value stack t
  | EArrFirst =>
      match t with
      | TRBracket => close_array stack
      | _ => start_value stack t
      end
  | EObjFirst =>
      match t with
      | TRBrace => close_object stack
      | TStr k => set_key stack k
      | _ => None
      end
  | EObjKey =>
      match t with
      | TStr k => set_key stack k
      | _ => None
      end
  | EColon =>
      match t with
      | TColon => Some (stack, EValue)
      | _ => None
      end
  | EAfter =>
      match t with
      | TComma =>
          match stack with
          | FArr _ :: _ => Some (stack, EValue)
          | FObj _ _ :: _ => Some (stack, EObjKey)
          | [] => None
          end
      | TRBracket => close_array stack
      | TRBrace => close_object stack
      | _ => None
      end
  | EDone _ => None
  end.

Fixpoint parse (stack : list frame) (e : expect) (ts : list token)
  : option json :=
  match ts with
  | [] => match e with EDone v => Some v | _ => None end
  | t :: rest =>
      match parse_step stack e t with
      | Some (stack', e') => parse stack' e' rest
      | None => None
      end
  end.

(** [json.loads(s)] for a [str]: the value, or [JSONDecodeError]. *)
Definition loads (s : string) : result json :=
  match lex LIdle s with
  | None => Raise JSONDecodeError
  | Some ts =>
      match parse [] EValue ts with
      | Some v => Ok v
      | None => Raise JSONDecodeError
      end
  end.

(** ** Serialisation: [json.dumps] with its default arguments *)

Definition hex4_text (n : N) : string :=
  String (hex_digit ((n / 4096) mod 16))
    (String (hex_digit ((n / 256) mod 16))
       (String (hex_digit ((n / 16) mod 16))
          (String (hex_digit (n mod 16)) EmptyString))).

Definition escape_code (n : N) : string :=
  if (n =? 34)%N then "\" +:+ dq
  else if (n =? 92)%N then "\\"
  else if (n =? 10)%N then "\n"
  else if (n =? 13)%N then "\r"
  else if (n =? 9)%N then "\t"
  else if (n =? 8)%N then "\b"
  else if (n =? 12)%N then "\f"
  else if (32 <=? n)%N && (n <=? 126)%N then String (byte n) EmptyString
  else if (n <? 65536)%N then "\u" +:+ hex4_text n
  else
    let v := (n - 65536)%N in
    "\u" +:+ hex4_text (55296 + (v / 1024) mod 1024)
    +:+ "\u" +:+ hex4_text (56320 + v mod 1024).

Definition encode_str (s : string) : string :=
  dq +:+ String.concat EmptyString (map escape_code (utf8_decode s)) +:+ dq.

Fixpoint dumps (v : json) : string :=
  match v with
  | JNull => "null"
  | JBool true => "true"
  | JBool false => "false"
  | JInt z => int_str z
  | JFloat f => float_json f
  | JStr s => encode_str s
  | JList items => "[" +:+ join ", " (map dumps items) +:+ "]"
  | JDict pairs =>
      "{" +:+
      join ", "
        (map (fun kv => encode_str (fst kv) +:+ ": " +:+ dumps (snd kv))
           pairs)
      +:+ "}"
  end.

(** ** [repr] and [str] of a decoded value, as an f-string shows it *)

Fixpoint py_repr (v : json) : string :=
  match v with
  | JNull => "None"
  | JBool true => "True"
  | JBool false => "False"
  | JInt z => int_str z
  | JFloat f => float_repr f
  | JStr s => str_repr s
  | JList items => "[" +:+ join ", " (map py_repr items) +:+ "]"
  | JDict pairs =>
      "{" +:+
      join ", "
        (map (fun kv => str_repr (fst kv) +:+ ": " +:+ py_repr (snd kv))
           pairs)
      +:+ "}"
  end.

Definition py_str (v : json) : string :=
  match v with
  | JStr s => s
  | _ => py_repr v
  end.

End Json.

Arguments json {PB}.

End PyJson.

Export PyJson.

(** * Messages, content blocks and observable events *)

Module Agent.

Section Model.
Context `{PB : Builtins}.

(** A content block of a model response. [input] is the decoded argument
    object of the call, [id] the call id chosen by the provider. A block
    whose type is neither [text] nor [tool_use] is skipped by both
    loops. *)
Inductive Block : Type :=
| Text (text : string)
| ToolUse (name : string) (input : json) (id : string)
| OtherBlock (type : string).

(** The items of [CallToolResult.content] (mcp.types). *)
Inductive McpContent : Type :=
| TextContent (text : string)
| ImageContent (data mimeType : string)
| EmbeddedResource (uri : string).

(** What a tool call leaves as its result: [None], a [str], or the
    content list of a backend reply. *)
Inductive ResultContent : Type :=
| RNone
| RStr (s : string)
| RMcp (items : list McpContent).

Definition result_bool (r : ResultContent) : bool :=
  match r with
  | RNone => false
  | RStr s => str_bool s
  | RMcp items => match items with [] => false | _ => true end
  end.

Inductive Role : Type := user | assistant.

(** The items of a message whose content is a list: blocks of a response
    echoed back, or the result of a tool call. *)
Inductive MsgBlock : Type :=
| Echo (b : Block)
| ToolResult (tool_use_id : string) (content : ResultContent).

Inductive MsgContent : Type :=
| Plain (text : string)
| Blocks (items : list MsgBlock).

Record Message : Type := mkMessage {
  role : Role;
  content : MsgContent
}.

(** What an observer of a run can see besides its result: the calls to
    the model with the history they were given, the tool calls handed to
    the dispatcher, and the lines printed. *)
Inductive Event : Type :=
| ModelCall (messages : list Message)
| Dispatch (tool_name tool_id : string)
| Printed (line : string).

Definition is_model_call (e : Event) : bool :=
  match e with ModelCall _ => true | _ => false end.
Definition is_dispatch (e : Event) : bool :=
  match e with Dispatch _ _ => true | _ => false end.
Definition is_printed (e : Event) : bool :=
  match e with Printed _ => true | _ => false end.

Definition model_calls (t : list Event) : nat :=
  length (List.filter is_model_call t).
Definition dispatches (t : list Event) : nat :=
  length (List.filter is_dispatch t).

(** ** Computations

    The collaborators (provider, backends, registry) are functions of an
    opaque world [W] that they may change; a computation threads the world
    and the trace, and may raise. *)

Record Env (W : Type) : Type := mkEnv {
  world : W;
  trace : list Event
}.
Arguments mkEnv {W} world trace.
Arguments world {W} e.
Arguments trace {W} e.

Definition M (W A : Type) : Type := Env W -> result (A * Env W).

Definition ret {W A} (a : A) : M W A := fun e => Ok (a, e).

Definition raise {W A} (x : exn) : M W A := fun _ => Raise x.

Definition bind {W A B} (c : M W A) (k : A -> M W B) : M W B :=
  fun e =>
    match c e with
    | Ok (a, e') => k a e'
    | Raise x => Raise x
    end.

(** A call to a collaborator. *)
Definition external {W A} (f : W -> result (A * W)) : M W A :=
  fun e =>
    match f (world e) with
    | Ok (a, w') => Ok (a, mkEnv w' (trace e))
    | Raise x => Raise x
    end.

Definition emit {W} (ev : Event) : M W unit :=
  fun e => Ok (tt, mkEnv (world e) (trace e ++ [ev])).

(** [print(line)]. *)
Definition print {W} (line : string) : M W unit := emit (Printed line).

(** A pure call that may raise. *)
Definition lift {W A} (r : result A) : M W A :=
  fun e =>
    match r with
    | Ok a => Ok (a, e)
    | Raise x => Raise x
    end.

End Model.

Arguments Block {PB}.
Arguments MsgBlock {PB}.
Arguments MsgContent {PB}.
Arguments Message {PB}.
Arguments Event {PB}.
Arguments Env {PB} W.
Arguments mkEnv {PB W} world trace.
Arguments world {PB W} e.
Arguments trace {PB W} e.
Arguments M {PB} W A.

Declare Scope agent_scope.
Delimit Scope agent_scope with agent.

Notation "'let*' x ':=' c 'in' k" := (bind c (fun x => k))
  (at level 10, x name, c at level 100, k at level 200) : agent_scope.
Notation "'let*' ' pat ':=' c 'in' k" :=
  (bind c (fun x => let 'pat := x in k))
  (at level 10, pat pattern, c at level 100, k at level 200) : agent_scope.
Notation "c ';;' k" := (bind c (fun _ => k))
  (at level 100, k at level 200, right associativity) : agent_scope.

End Agent.

Export Agent.

(** * [StepExecutor]: plan_exec_agent/step_executor.py *)

Module StepExecutor.

(** Modelled from the spec: [ModelProvider] is declared in
    [arcade_utils.py]; the spec gives it as the enumeration of the two
    providers, so the [else] branches that raise [ValueError] for any
    other provider have no input. *)
Inductive ModelProvider : Type := ANTHROPIC | OPENAI.

Section Executor.
Context `{PB : Builtins}.

Local Open Scope agent_scope.

(** A tool descriptor is the dictionary handed to the provider. *)
Abbreviation ToolDescriptor := json.

(** ** The three control tools *)

Definition _get_reference_tool (provider : ModelProvider) : ToolDescriptor :=
  let description :=
    JStr "Reference the output of a previously called tool from any of the prior steps." in
  let schema :=
    JDict [
      ("type", JStr "object");
      ("properties", JDict [
         ("tool_id", JDict [
            ("type", JStr "string");
            ("description", JStr "The ID of the previously called tool. This is NOT the name of the tool, it is the ID of the tool call. ")
          ])
       ]);
      ("required", JList [JStr "tool_id"])
    ] in
  match provider with
  | ANTHROPIC =>
      JDict [
        ("name", JStr "reference_tool_output");
        ("description", description);
        ("input_schema", schema)
      ]
  | OPENAI =>
      JDict [
        ("type", JStr "function");
        ("function", JDict [
           ("name", JStr "reference_tool_output");
           ("description", description);
           ("parameters", schema)
         ])
      ]
  end.

Definition _get_previous_step_tool (provider : ModelProvider)
  : ToolDescriptor :=
  let description :=
    JStr "Get the result from a previous step in the plan. Use this when you need to reference what was accomplished in an earlier step. This is the output from the execution agent, not from a tool call." in
  let schema :=
    JDict [
      ("type", JStr "object");
      ("properties", JDict [
         ("step_number", JDict [
            ("type", JStr "integer");
            ("description", JStr "The step number (1-based) to get the result from. For example, use 1 for the first step, 2 for the second step, etc.");
            ("minimum", JInt 1)
          ])
       ]);
      ("required", JList [JStr "step_number"])
    ] in
  match provider with
  | ANTHROPIC =>
      JDict [
        ("name", JStr "get_previous_step_result");
        ("description", description);
        ("input_schema", schema)
      ]
  | OPENAI =>
      JDict [
        ("type", JStr "function");
        ("function", JDict [
           ("name", JStr "get_previous_step_result");
           ("description", description);
           ("parameters", schema)
         ])
      ]
  end.

Definition _get_insufficient_context_tool (provider : ModelProvider)
  : ToolDescriptor :=
  let description :=
    JStr "Signal that this step cannot be completed due to insufficient context or missing required information. Use this when you determine that you do not have enough information to proceed successfully with the current step. If in doubt, use this tool." in
  let schema :=
    JDict [
      ("type", JStr "object");
      ("properties", JDict [
         ("reason", JDict [
            ("type", JStr "string");
            ("description", JStr "Explanation of what specific information or context is missing that prevents completing this step.")
          ])
       ]);
      ("required", JList [JStr "reason"])
    ] in
  match provider with
  | ANTHROPIC =>
      JDict [
        ("name", JStr "signal_insufficient_context");
        ("description", description);
        ("input_schema", schema)
      ]
  | OPENAI =>
      JDict [
        ("type", JStr "function");
        ("function", JDict [
           ("name", JStr "signal_insufficient_context");
           ("description", description);
           ("parameters", schema)
         ])
      ]
  end.

(** The name a descriptor advertises, read the way each provider's wire
    shape holds it. *)
Definition descriptor_name (provider : ModelProvider) (d : ToolDescriptor)
  : option string :=
  let name_of (o : json) :=
    match o with
    | JDict pairs =>
        match dict_get pairs "name" with
        | Some (JStr n) => Some n
        | _ => None
        end
    | _ => None
    end in
  match provider with
  | ANTHROPIC => name_of d
  | OPENAI =>
      match d with
      | JDict pairs =>
          match dict_get pairs "function" with
          | Some f => name_of f
          | None => None
          end
      | _ => None
      end
  end.

(** ** Session state and responses *)

(** Modelled from the spec: [State] is a [TypedDict] declared in
    [agent_types.py]. The keys are the ones this file reads or writes; a
    key may be absent. [tool_results] maps a call id to the tool name and
    the result of the call. *)
Record State : Type := mkState {
  current_plan : option (list string);
  tools : option (list ToolDescriptor);
  tool_results : option (gmap string (string * string))
}.

(** An item of [message.tool_calls] of the function-call shape;
    [arguments] is JSON text. *)
Record ToolCall : Type := mkToolCall {
  call_id : string;
  function_name : string;
  function_arguments : string
}.

(** The two response shapes: a content list, or [choices[0].message]
    with an optional text and the tool calls. *)
Inductive Response : Type :=
| AnthropicResponse (content : list Block)
| OpenAIResponse (content : option string) (tool_calls : list ToolCall).

(** The fields of [self] that the methods below read. *)
Record Self : Type := mkSelf {
  enabled_toolkits : option (list string);
  system_prompt : string;
  user_context : string
}.

(** What is passed as [langfuse_data]: the session id and the user id. *)
Definition LangfuseData : Type := option string * string.

(** ** Collaborators

    [create_message] is [LLMMessageCreator.create_message] and
    [get_toolkits_from_arcade] the registry call of [arcade_utils.py];
    both are outside this repository's core.

    Modelled from the spec: [ToolProcessor.process_tool_call]
    ([tool_processor.py]) is the dispatcher of section 4.3; it returns the
    updated history and the result of the call, or [None]. Like its
    counterpart in [host.py] it may add fragments to [final_text], given
    here as the third component; it reads the session state and leaves
    the writes to the result cache to the loop. *)
Class Collaborators (W : Type) : Type := {
  create_message :
    ModelProvider -> list Message -> list ToolDescriptor -> string ->
    LangfuseData -> W -> result (Response * W);
  process_tool_call :
    string -> json -> string -> Block -> list Block -> list Message ->
    State -> list string -> string -> ModelProvider -> LangfuseData ->
    W -> result ((list Message * option string * list string) * W);
  get_toolkits_from_arcade :
    ModelProvider -> option (list string) -> W ->
    result (list ToolDescriptor * W)
}.

(** ** The constructors that [__init__] calls

    [os.getenv] reads the environment of the process. [Arcade],
    [Anthropic] and [OpenAI] are the constructors of the client
    libraries. Modelled from their use in [__init__]: [ToolProcessor]
    ([tool_processor.py]) and [LLMMessageCreator] ([llm_utils.py]) are
    classes of this repository. Each constructor may raise, and may act
    on the world; the objects that they build are kept abstract. *)
Class Constructors (W : Type) : Type := {
  ArcadeClient : Type;
  ToolProcessorObject : Type;
  AnthropicClient : Type;
  OpenAIClient : Type;
  MessageCreator : Type;
  getenv : string -> W -> option string;
  Arcade : option string -> W -> result (ArcadeClient * W);
  ToolProcessor : ArcadeClient -> W -> result (ToolProcessorObject * W);
  Anthropic : option string -> W -> result (AnthropicClient * W);
  OpenAI : option string -> W -> result (OpenAIClient * W);
  LLMMessageCreator :
    option AnthropicClient -> option OpenAIClient -> W ->
    result (MessageCreator * W)
}.

Context {W : Type} `{CO : Collaborators W}.

(** ** [__init__] *)

(** The indentation that the lines of the f-string carry in the source. *)
Definition INDENT : string := "            ".

(** The f-string that joins the default system prompt and the user
    context. *)
Definition prompt_with_user_context (default_system_prompt : string)
    (user_context : string) : string :=
  nl +:+ INDENT +:+ default_system_prompt +:+ nl
  +:+ INDENT +:+ nl
  +:+ INDENT +:+ "USER CONTEXT:" +:+ nl
  +:+ INDENT +:+ user_context +:+ nl
  +:+ INDENT.

Definition NO_TOOLKITS_WARNING : string :=
  "WARNING: No toolkits enabled when initializing StepExecutor".

Context {CN : Constructors W}.

(** What [__init__] leaves in [self]: the fields that the methods read,
    and the three objects that it has built. *)
Record Attributes : Type := mkAttributes {
  fields : Self;
  arcade_client : ArcadeClient;
  tool_processor : ToolProcessorObject;
  message_creator : MessageCreator
}.

(** [os.getenv(key)]. *)
Definition os_getenv (key : string) : M W (option string) :=
  external (fun w => Ok (getenv key w, w)).

(** The truth value of what [os.getenv] returns. *)
Definition key_bool (key : option string) : bool :=
  match key with
  | Some k => str_bool k
  | None => false
  end.

(** [make(api_key=os.getenv(key)) if os.getenv(key) else None]: the
    condition is evaluated first. *)
Definition client_if_key {A : Type} (key : string)
    (make : option string -> W -> result (A * W)) : M W (option A) :=
  let* condition := os_getenv key in
  if key_bool condition
  then
    let* api_key := os_getenv key in
    let* client := external (make api_key) in
    ret (Some client)
  else ret None.

Definition __init__ (default_system_prompt user_context : option string)
    (enabled_toolkits : option (list string)) : M W Attributes :=
  let* api_key := os_getenv "ARCADE_API_KEY" in
  let* arcade_client := external (Arcade api_key) in
  let* tool_processor := external (ToolProcessor arcade_client) in
  match enabled_toolkits with
  | Some (_ :: _) => ret tt
  | _ => print NO_TOOLKITS_WARNING
  end ;;
  let* anthropic_client := client_if_key "ANTHROPIC_API_KEY" Anthropic in
  let* openai_client := client_if_key "OPENAI_API_KEY" OpenAI in
  let* message_creator :=
    external (LLMMessageCreator anthropic_client openai_client) in
  let default_system_prompt :=
    match default_system_prompt, user_context with
    | Some p, Some u =>
        if str_bool p && str_bool u
        then Some (prompt_with_user_context p u)
        else default_system_prompt
    | _, _ => default_system_prompt
    end in
  let system_prompt :=
    match default_system_prompt with
    | Some p => if str_bool p then p else "You are a helpful assistant."
    | None => "You are a helpful assistant."
    end in
  let user_context :=
    match user_context with
    | Some u => if str_bool u then u else EmptyString
    | None => EmptyString
    end in
  ret (mkAttributes
         (mkSelf enabled_toolkits system_prompt user_context)
         arcade_client tool_processor message_creator).

(** ** [get_all_tools] *)

Definition get_all_tools (self : Self) (provider : ModelProvider)
  : M W (list ToolDescriptor) :=
  let reference_tool := _get_reference_tool provider in
  let previous_step_tool := _get_previous_step_tool provider in
  let insufficient_context_tool := _get_insufficient_context_tool provider in
  let* arcade_tools :=
    external (get_toolkits_from_arcade provider (enabled_toolkits self)) in
  ret ([reference_tool; previous_step_tool; insufficient_context_tool]
         ++ arcade_tools).

(** ** The agent loop *)

Definition SENTINEL : string := "STEP_FAILED_INSUFFICIENT_CONTEXT".

(** [result_content and result_content.startswith(SENTINEL)]. *)
Definition is_insufficient (result_content : option string) : bool :=
  match result_content with
  | Some r => str_bool r && startswith r SENTINEL
  | None => false
  end.

(** The condition that guards the write to the result cache. *)
Definition memoized (tool_name : string) (result_content : option string)
  : option string :=
  match result_content with
  | Some r =>
      if str_bool r
         && negb (String.eqb tool_name "get_previous_step_result")
         && negb (String.eqb tool_name "reference_tool_output")
      then Some r else None
  | None => None
  end.

(** [state["tool_results"][tool_id] = (tool_name, result_content)]. *)
Definition store_result (state : State) (tool_id tool_name r : string)
  : result State :=
  match tool_results state with
  | None => Raise (KeyError "tool_results")
  | Some cache =>
      Ok (mkState (current_plan state) (tools state)
            (Some (<[tool_id := (tool_name, r)]> cache)))
  end.

(** The response contents of one round, in the content-list shape. *)
Fixpoint normalise_tool_calls (tcs : list ToolCall) : result (list Block) :=
  match tcs with
  | [] => Ok []
  | tc :: rest =>
      match loads (function_arguments tc) with
      | Raise x => Raise x
      | Ok input =>
          match normalise_tool_calls rest with
          | Raise x => Raise x
          | Ok blocks =>
              Ok (ToolUse (function_name tc) input (call_id tc) :: blocks)
          end
      end
  end.

Definition response_contents (provider : ModelProvider) (response : Response)
  : result (list Block) :=
  match provider, response with
  | ANTHROPIC, AnthropicResponse content => Ok content
  | OPENAI, OpenAIResponse content tool_calls =>
      let texts :=
        match content with
        | Some t => if str_bool t then [Text t] else []
        | None => []
        end in
      match normalise_tool_calls tool_calls with
      | Raise x => Raise x
      | Ok calls => Ok (texts ++ calls)
      end
  | ANTHROPIC, OpenAIResponse _ _ =>
      Raise (AttributeError "content")
  | OPENAI, AnthropicResponse _ =>
      Raise (AttributeError "choices")
  end.

(** The variables of the loop that a round can change. *)
Record Vars : Type := mkVars {
  messages : list Message;
  response : Response;
  final_text : list string;
  state : State
}.

(** How the [for] loop over the contents of a round ends: by the [return]
    on the sentinel, by the [break] after a tool call, or at the end of
    the contents without any tool call. *)
Inductive Scan : Type :=
| Returned (final_text : list string) (state : State)
| Broke (v : Vars)
| NoToolCalls (final_text : list string).

Section Loop.
Variables (provider : ModelProvider) (user_id : string)
          (langfuse_session_id : option string)
          (available_tools : list ToolDescriptor)
          (current_system_prompt : string).

Definition langfuse_data : LangfuseData := (langfuse_session_id, user_id).

Definition call_model (msgs : list Message) : M W Response :=
  emit (ModelCall msgs) ;;
  external (create_message provider msgs available_tools
              current_system_prompt langfuse_data).

(** The body of the [tool_use] branch. *)
Definition tool_use_branch (content : Block) (tool_name : string)
    (tool_args : json) (tool_id : string)
    (assistant_message_content : list Block) (v : Vars) : M W Scan :=
  emit (Dispatch tool_name tool_id) ;;
  let* '(updated_messages, result_content, appended) :=
    external (process_tool_call tool_name tool_args tool_id content
                assistant_message_content (messages v) (state v)
                (final_text v) user_id provider langfuse_data) in
  let final_text := final_text v ++ appended in
  if is_insufficient result_content then
    ret (Returned (final_text ++ [default EmptyString result_content])
           (state v))
  else
    let* state' :=
      match memoized tool_name result_content with
      | Some r => lift (store_result (state v) tool_id tool_name r)
      | None => ret (state v)
      end in
    let* response' := call_model updated_messages in
    ret (Broke (mkVars updated_messages response' final_text state')).

(** [for content in response_contents: ...]. *)
Fixpoint scan (contents : list Block) (assistant_message_content : list Block)
    (v : Vars) : M W Scan :=
  match contents with
  | [] => ret (NoToolCalls (final_text v))
  | content :: rest =>
      match content with
      | Text text =>
          scan rest (assistant_message_content ++ [content])
            (mkVars (messages v) (response v) (final_text v ++ [text])
               (state v))
      | ToolUse tool_name tool_args tool_id =>
          tool_use_branch content tool_name tool_args tool_id
            assistant_message_content v
      | OtherBlock _ => scan rest assistant_message_content v
      end
  end.

Definition max_iterations_warning (max_iterations : Z) : string :=
  "WARNING:Max iterations reached: " +:+ int_str max_iterations +:+ "."
  +:+ nl +:+ "Exiting loop.".

(** [while True and i < max_iterations: ...]. The loop runs at most
    [max_iterations] rounds, so [fuel] rounds are enough as soon as
    [max_iterations - i <= fuel]. The result is the output buffer, the
    session state as the run leaves it, and the round counter. *)
Fixpoint while_loop (fuel : nat) (max_iterations i : Z) (v : Vars)
  : M W (list string * State * Z) :=
  if negb (i <? max_iterations)%Z then ret (final_text v, state v, i)
  else
    match fuel with
    | O => raise Diverged
    | S fuel' =>
        let* contents := lift (response_contents provider (response v)) in
        let* outcome := scan contents [] v in
        match outcome with
        | Returned final_text state' => ret (final_text, state', i)
        | NoToolCalls final_text => ret (final_text, state v, i)
        | Broke v' =>
            let i := (i + 1)%Z in
            (if (i =? max_iterations)%Z
             then print (max_iterations_warning max_iterations)
             else ret tt) ;;
            while_loop fuel' max_iterations i v'
        end
    end.

End Loop.

(** [system_prompt if system_prompt is not None else self.system_prompt]. *)
Definition prompt_or_default (self : Self) (given : option string) : string :=
  default (system_prompt self) given.

(** [process_input_with_agent_loop]. The calls to the telemetry library
    are left out: they do not touch the variables of the loop. *)
Definition process_input_with_agent_loop (self : Self)
    (input_action : string) (provider : ModelProvider) (user_id : string)
    (system_prompt : option string) (langfuse_session_id : option string)
    (state : option State) (max_iterations : Z)
  : M W (list string * State * Z) :=
  let current_system_prompt := prompt_or_default self system_prompt in
  let input_action :=
    if str_bool (user_context self)
    then input_action +:+ nl +:+ nl +:+ "USER CONTEXT:" +:+ nl
         +:+ user_context self
    else input_action in
  let messages := [mkMessage user (Plain input_action)] in
  match state with
  | None => raise (TypeError "argument of type 'NoneType' is not iterable")
  | Some state =>
      let* available_tools :=
        match tools state with
        | Some (t :: ts) => ret (t :: ts)
        | _ => get_all_tools self provider
        end in
      let* response :=
        call_model provider user_id langfuse_session_id available_tools
          current_system_prompt messages in
      while_loop provider user_id langfuse_session_id available_tools
        current_system_prompt (Z.to_nat max_iterations) max_iterations 0
        (mkVars messages response [] state)
  end.

End Executor.

End StepExecutor.

(** * [MCPHost]: mcp_assistant/host.py *)

Module MCPHost.

Definition DEFAULT_CLIENTS : list string :=
  ["Google Calendar"; "Gmail"; "Notion"; "Whatsapp"; "Exa"; "Outlook";
   "Slack"].

Section Host.
Context `{PB : Builtins}.

Local Open Scope agent_scope.

Abbreviation ToolDescriptor := json.

(** A tool as a server lists it (mcp.types.Tool). *)
Record Tool : Type := mkTool {
  tool_name : string;
  tool_description : option string;
  inputSchema : json
}.

(** A resource and a resource template as a server lists them; the
    fields are the texts that the f-strings of [get_resources_info]
    show. *)
Record Resource : Type := mkResource {
  resource_name : string;
  resource_description : string;
  resource_uri : string
}.

(** The items of [ReadResourceResult.contents]; a blob is held by its
    [str]. *)
Inductive ResourceContents : Type :=
| TextResourceContents (text : string)
| BlobResourceContents (blob : string)
| OtherResourceContents.

(** The attributes of [self] that the methods read or assign. *)
Record Self : Type := mkSelf {
  enabled_clients : list string;
  system_prompt : string;
  user_context : string;
  tool_to_client_map : gmap string string
}.

Definition set_tool_to_client_map (self : Self) (m : gmap string string)
  : Self :=
  mkSelf (enabled_clients self) (system_prompt self) (user_context self) m.

(** [self.mcp_clients]: the names of the clients that are enabled, in the
    order of [self._all_clients]. *)
Definition mcp_clients (self : Self) : list string :=
  List.filter (fun name => bool_decide (name ∈ enabled_clients self))
    DEFAULT_CLIENTS.

(** ** [__init__] *)

(** The indentation that the lines of the f-string carry in the source. *)
Definition INDENT : string := "            ".

(** The f-string that joins the default system prompt and the user
    context. *)
Definition prompt_with_user_context (default_system_prompt : string)
    (user_context : string) : string :=
  nl +:+ INDENT +:+ default_system_prompt +:+ nl
  +:+ INDENT +:+ nl
  +:+ INDENT +:+ "USER CONTEXT:" +:+ nl
  +:+ INDENT +:+ user_context +:+ nl
  +:+ INDENT.

(** The attributes that [__init__] assigns from its arguments. The
    client objects and the two tool descriptors are constants;
    [self.mcp_clients] is [mcp_clients] above. *)
Definition __init__ (default_system_prompt user_context : option string)
    (enabled_clients : option (list string)) : Self :=
  let enabled_clients :=
    match enabled_clients with
    | Some (c :: cs) => c :: cs
    | _ => DEFAULT_CLIENTS
    end in
  let default_system_prompt :=
    match default_system_prompt, user_context with
    | Some p, Some u =>
        if str_bool p && str_bool u
        then Some (prompt_with_user_context p u)
        else default_system_prompt
    | _, _ => default_system_prompt
    end in
  let system_prompt :=
    match default_system_prompt with
    | Some p => if str_bool p then p else "You are a helpful assistant."
    | None => "You are a helpful assistant."
    end in
  let user_context :=
    match user_context with
    | Some u => if str_bool u then u else EmptyString
    | None => EmptyString
    end in
  mkSelf enabled_clients system_prompt user_context ∅.

Definition resource_access_tool : ToolDescriptor :=
  JDict [
    ("name", JStr "access_resource");
    ("description", JStr "Access a resource from the MCP server");
    ("input_schema", JDict [
       ("type", JStr "object");
       ("properties", JDict [
          ("uri", JDict [
             ("type", JStr "string");
             ("description", JStr "The URI of the resource to access")
           ]);
          ("client", JDict [
             ("type", JStr "string");
             ("description",
              JStr "The name of the client to access the resource")
           ])
        ]);
       ("required", JList [JStr "uri"; JStr "client"])
     ])
  ].

Definition reference_tool_output : ToolDescriptor :=
  JDict [
    ("name", JStr "reference_tool_output");
    ("description", JStr "Reference the output of a previously called tool");
    ("input_schema", JDict [
       ("type", JStr "object");
       ("properties", JDict [
          ("tool_id", JDict [
             ("type", JStr "string");
             ("description", JStr "The ID of the previously called tool")
           ]);
          ("extract_path", JDict [
             ("type", JStr "string");
             ("description",
              JStr "Optional JSON path to extract specific data from the tool result")
           ])
        ]);
       ("required", JList [JStr "tool_id"])
     ])
  ].

(** ** Collaborators

    The provider and the sessions of the MCP clients. [client_name] is
    the [name] attribute of a client, [has_session] tells whether its
    session is set. The two listing calls of [get_resources_info] are made
    under [try]: they give back the world also when they raise. *)
Class Collaborators (W : Type) : Type := {
  messages_create :
    string -> Z -> string -> list Message -> list ToolDescriptor ->
    W -> result (list Block * W);
  list_tools : string -> W -> result (list Tool * W);
  call_tool : string -> string -> json -> W -> result (list McpContent * W);
  read_resource : string -> json -> W -> result (list ResourceContents * W);
  has_session : string -> W -> bool;
  client_name : string -> string;
  list_resources : string -> W -> result (list Resource) * W;
  list_resource_templates : string -> W -> result (list Resource) * W
}.

Context {W : Type} `{CO : Collaborators W}.

(** ** Subscripts on decoded values *)

(** [d[k]] for a [str] key [k]. *)
Definition getitem (d : json) (k : string) : result json :=
  match d with
  | JDict pairs =>
      match dict_get pairs k with
      | Some v => Ok v
      | None => Raise (KeyError k)
      end
  | JList _ => Raise (TypeError "list indices must be integers or slices, not str")
  | JStr _ => Raise (TypeError "string indices must be integers, not 'str'")
  | _ => Raise (TypeError "object is not subscriptable")
  end.

(** [d.get(k, None)]; [None] is [JNull]. *)
Definition get_or_none (d : json) (k : string) : result json :=
  match d with
  | JDict pairs => Ok (default JNull (dict_get pairs k))
  | _ => Raise (AttributeError "get")
  end.

(** [part in data] for a [str] [part]. *)
Definition contains (part : string) (data : json) : result bool :=
  match data with
  | JDict pairs => Ok (bool_decide (is_Some (dict_get pairs part)))
  | JList items =>
      Ok (existsb (fun x => match x with
                            | JStr s => String.eqb s part
                            | _ => false
                            end) items)
  | JStr s => Ok (str_contains part s)
  | _ => Raise (TypeError "argument is not iterable")
  end.

(** ** [_extract_reference_data] *)

(** The loop over the parts of the path; [JNull] is [None]. *)
Fixpoint walk (parts : list string) (data : json) : result json :=
  match parts with
  | [] => Ok data
  | part :: rest =>
      match contains part data with
      | Raise e => Raise e
      | Ok true =>
          match getitem data part with
          | Raise e => Raise e
          | Ok data' => walk rest data'
          end
      | Ok false => Ok JNull
      end
  end.

Definition PATH_NOT_FOUND : string := "Path not found in data".
Definition NOT_VALID_JSON : string :=
  "Cannot extract path: result is not valid JSON".

Definition _extract_reference_data (result_content : ResultContent)
    (extract_path : json) : result ResultContent :=
  if negb (truthy extract_path) || negb (result_bool result_content) then
    Ok result_content
  else
    match result_content with
    | RStr text =>
        match loads text with
        | Raise JSONDecodeError => Ok (RStr NOT_VALID_JSON)
        | Raise e => Raise e
        | Ok data =>
            match extract_path with
            | JStr path =>
                match walk (split "." path) data with
                | Raise e => Raise e
                | Ok data' =>
                    Ok (RStr (if truthy data' then dumps data'
                              else PATH_NOT_FOUND))
                end
            | _ => Raise (AttributeError "split")
            end
        end
    | _ =>
        Raise (TypeError "the JSON object must be str, bytes or bytearray")
    end.

(** ** The handlers of the dispatcher *)

(** The two messages that every handler appends to a copy of the
    history. *)
Definition with_tool_exchange (messages : list Message)
    (assistant_message_content : list Block) (tool_id : string)
    (result_content : ResultContent) : list Message :=
  messages
  ++ [mkMessage assistant (Blocks (map Echo assistant_message_content));
      mkMessage user (Blocks [ToolResult tool_id result_content])].

(** [referenced_tool_id in tool_results_context], whose keys are call
    ids: a [list] or a [dict] cannot be hashed, any other value that is
    no [str] is no key. *)
Definition lookup_reference (referenced_tool_id : json)
    (tool_results_context : gmap string ResultContent)
  : result (option ResultContent) :=
  match referenced_tool_id with
  | JStr id => Ok (tool_results_context !! id)
  | JList _ => Raise (TypeError "unhashable type: 'list'")
  | JDict _ => Raise (TypeError "unhashable type: 'dict'")
  | _ => Ok None
  end.

Definition no_result_error (referenced_tool_id : json) : string :=
  "Error: No tool result found with ID '" +:+ py_str referenced_tool_id
  +:+ "'".

Definition _handle_reference_tool (tool_id : string) (tool_args : json)
    (content : Block) (assistant_message_content : list Block)
    (messages : list Message)
    (tool_results_context : gmap string ResultContent)
  : result (list Message * ResultContent) :=
  match getitem tool_args "tool_id" with
  | Raise e => Raise e
  | Ok referenced_tool_id =>
      match get_or_none tool_args "extract_path" with
      | Raise e => Raise e
      | Ok extract_path =>
          match lookup_reference referenced_tool_id tool_results_context with
          | Raise e => Raise e
          | Ok found =>
              let computed :=
                match found with
                | Some cached => _extract_reference_data cached extract_path
                | None => Ok (RStr (no_result_error referenced_tool_id))
                end in
              match computed with
              | Raise e => Raise e
              | Ok result_content =>
                  let assistant_message_content :=
                    assistant_message_content ++ [content] in
                  Ok (with_tool_exchange messages assistant_message_content
                        tool_id result_content, RNone)
              end
          end
      end
  end.

Definition _format_resource_content (contents : list ResourceContents)
  : string :=
  join nl
    (flat_map (fun c => match c with
                        | TextResourceContents text => [text]
                        | BlobResourceContents blob => [blob]
                        | OtherResourceContents => []
                        end) contents).

(** [self.mcp_clients[client_name]] for a decoded [client_name]. *)
Definition client_of (self : Self) (client : json) : result string :=
  match client with
  | JStr name =>
      if bool_decide (name ∈ mcp_clients self) then Ok name
      else Raise (KeyError name)
  | JList _ => Raise (TypeError "unhashable type: 'list'")
  | JDict _ => Raise (TypeError "unhashable type: 'dict'")
  | _ => Raise (KeyError (py_repr client))
  end.

(** Every handler gives the updated history, the result of the call and
    the fragments it appended to [final_text]. *)
Definition Handled : Type := list Message * ResultContent * list string.

Definition _handle_resource_access (self : Self) (tool_id : string)
    (tool_args : json) (content : Block)
    (assistant_message_content : list Block) (messages : list Message)
  : M W Handled :=
  let* uri := lift (getitem tool_args "uri") in
  let* client := lift (getitem tool_args "client") in
  let* name := lift (client_of self client) in
  let* resource_result := external (read_resource name uri) in
  let appended := ["[Accessing resource " +:+ py_str uri +:+ "]"] in
  let result_content := RStr (_format_resource_content resource_result) in
  let assistant_message_content := assistant_message_content ++ [content] in
  ret (with_tool_exchange messages assistant_message_content tool_id
         result_content, result_content, appended).

Definition not_found_message (tool_name : string) : string :=
  "Error: Tool '" +:+ tool_name +:+ "' not found in any client".
Definition not_available_message (tool_name : string) : string :=
  "Error: Tool '" +:+ tool_name +:+ "' is not available.".

Definition _handle_standard_tool (self : Self) (tool_name : string)
    (tool_args : json) (tool_id : string) (content : Block)
    (assistant_message_content : list Block) (messages : list Message)
  : M W Handled :=
  let* '(result_content, appended) :=
    match tool_to_client_map self !! tool_name with
    | Some client =>
        let line :=
          "Calling tool " +:+ tool_name +:+ " with args "
          +:+ py_str tool_args +:+ " via client " +:+ client in
        if bool_decide (client ∈ mcp_clients self) then
          print line ;;
          let* result := external (call_tool client tool_name tool_args) in
          ret (RMcp result, ["[" +:+ line +:+ "]"])
        else raise (KeyError client)
    | None =>
        let error_message := not_found_message tool_name in
        print error_message ;;
        ret (RStr (not_available_message tool_name), [error_message])
    end in
  let assistant_message_content := assistant_message_content ++ [content] in
  ret (with_tool_exchange messages assistant_message_content tool_id
         result_content, result_content, appended).

(** [_process_tool_call]; the telemetry calls are left out. *)
Definition _process_tool_call (self : Self) (tool_name : string)
    (tool_args : json) (tool_id : string) (content : Block)
    (assistant_message_content : list Block) (messages : list Message)
    (tool_results_context : gmap string ResultContent)
  : M W Handled :=
  if String.eqb tool_name "reference_tool_output" then
    let* '(updated_messages, result_content) :=
      lift (_handle_reference_tool tool_id tool_args content
              assistant_message_content messages tool_results_context) in
    ret (updated_messages, result_content, [])
  else if String.eqb tool_name "access_resource" then
    _handle_resource_access self tool_id tool_args content
      assistant_message_content messages
  else
    _handle_standard_tool self tool_name tool_args tool_id content
      assistant_message_content messages.

(** What the dispatcher gives for a [reference_tool_output] call whose
    tool result is the text [r]: the history with the two messages of the
    exchange, no result to memoize, and nothing added to the output. *)
Definition reference_answer (messages : list Message)
    (assistant_message_content : list Block) (content : Block)
    (tool_id r : string) (e : Env W) : result (Handled * Env W) :=
  Ok ((with_tool_exchange messages (assistant_message_content ++ [content])
         tool_id (RStr r), RNone, []), e).

(** ** The catalog *)

(** [get_all_tools_from_servers]: the tools of every enabled client and
    the map from a tool name to the client that provides it; a later
    client takes over a name that an earlier one has. The map is also
    assigned to [self.tool_to_client_map]. *)
Fixpoint collect_tools (clients : list string) (tools : list Tool)
    (tool_to_client_map : gmap string string)
  : M W (list Tool * gmap string string) :=
  match clients with
  | [] => ret (tools, tool_to_client_map)
  | client :: rest =>
      let* listed := external (list_tools client) in
      collect_tools rest (tools ++ listed)
        (fold_left (fun m tool => <[tool_name tool := client]> m) listed
           tool_to_client_map)
  end.

Definition get_all_tools_from_servers (self : Self)
  : M W (list Tool * gmap string string * Self) :=
  let* '(tools, tool_to_client_map) := collect_tools (mcp_clients self) [] ∅ in
  ret (tools, tool_to_client_map,
       set_tool_to_client_map self tool_to_client_map).

Definition server_tool (tool : Tool) : ToolDescriptor :=
  JDict [
    ("name", JStr (tool_name tool));
    ("description",
     match tool_description tool with Some d => JStr d | None => JNull end);
    ("input_schema", inputSchema tool)
  ].

Definition get_all_tools (self : Self) : M W (list ToolDescriptor * Self) :=
  let* '(tools, _, self) := get_all_tools_from_servers self in
  let server_tools := map server_tool tools in
  let available_tools :=
    server_tools ++ [resource_access_tool; reference_tool_output] in
  ret (available_tools, self).

(** ** Resources *)

Definition resource_line (label : string) (r : Resource) : string :=
  "Name: " +:+ resource_name r +:+ ", Description: "
  +:+ resource_description r +:+ ", " +:+ label +:+ ": " +:+ resource_uri r
  +:+ nl.

(** A listing call made under [try ... except Exception]: a failure is
    printed and leaves the list empty. *)
Definition listed_or_empty (what : string)
    (call : W -> result (list Resource) * W) : M W (list Resource) :=
  fun e =>
    match call (world e) with
    | (Ok rs, w') => Ok (rs, mkEnv w' (trace e))
    | (Raise x, w') =>
        Ok ([], mkEnv w'
                  (trace e ++ [Printed ("Error getting " +:+ what +:+ ": "
                                        +:+ exn_str x)]))
    end.

Definition get_resources_info (client : string) : M W string :=
  fun e =>
    (if has_session client (world e) then
       let* resources := listed_or_empty "resources" (list_resources client) in
       let* templates :=
         listed_or_empty "resource templates"
           (list_resource_templates client) in
       match resources, templates with
       | [], [] => ret EmptyString
       | _, _ =>
           let part1 :=
             match resources with
             | [] => EmptyString
             | _ =>
                 "### Available resources for Client " +:+ client_name client
                 +:+ ":" +:+ nl
                 +:+ String.concat EmptyString
                       (map (resource_line "URI") resources)
             end in
           let part2 :=
             match templates with
             | [] => EmptyString
             | _ =>
                 "### Available resource templates for Client "
                 +:+ client_name client +:+ ":" +:+ nl
                 +:+ String.concat EmptyString
                       (map (resource_line "URI Template") templates)
             end in
           let formatted_info := part1 +:+ part2 in
           print ("formatted_info: " +:+ formatted_info) ;;
           ret formatted_info
       end
     else raise UninitializedSession) e.

Fixpoint resources_of (clients : list string) : M W (list string) :=
  match clients with
  | [] => ret []
  | client :: rest =>
      let* info := get_resources_info client in
      let* infos := resources_of rest in
      ret (info :: infos)
  end.

Definition get_all_resources_info (self : Self) : M W string :=
  let resources_start_message :=
    "## You may also access the following resources and resource templates to help you answer the user's query:"
    +:+ nl in
  let* resources_info := resources_of (mcp_clients self) in
  ret (resources_start_message +:+ join nl resources_info).

Definition _prepare_query (self : Self) (query : string) : M W string :=
  let* resources_info := get_all_resources_info self in
  ret (query +:+ nl +:+ nl +:+ resources_info).

(** ** The agent loop *)

(** [system_prompt if system_prompt is not None else self.system_prompt]. *)
Definition prompt_or_default (self : Self) (given : option string) : string :=
  default (system_prompt self) given.

(** [_create_claude_message]; the telemetry calls are left out. *)
Definition _create_claude_message (self : Self) (messages : list Message)
    (available_tools : list ToolDescriptor) (system_prompt : option string)
  : M W (list Block) :=
  let system := prompt_or_default self system_prompt in
  emit (ModelCall messages) ;;
  external (messages_create "claude-3-5-sonnet-20241022" 4096 system
              messages available_tools).

(** The variables of the loop that a round can change; [response] is
    [response.content]. *)
Record Vars : Type := mkVars {
  messages : list Message;
  response : list Block;
  final_text : list string;
  tool_results_context : gmap string ResultContent
}.

(** How the [for] loop over the contents of a round ends: by the [break]
    after a tool call, or at the end of the contents. *)
Inductive Scan : Type :=
| Broke (v : Vars)
| NoToolCalls (final_text : list string).

Section Loop.
Variables (self : Self) (available_tools : list ToolDescriptor)
          (current_system_prompt : string).

(** The body of the [tool_use] branch. *)
Definition tool_use_branch (content : Block) (tool_name : string)
    (tool_args : json) (tool_id : string)
    (assistant_message_content : list Block) (v : Vars) : M W Scan :=
  emit (Dispatch tool_name tool_id) ;;
  let* '(updated_messages, result_content, appended) :=
    _process_tool_call self tool_name tool_args tool_id content
      assistant_message_content (messages v) (tool_results_context v) in
  let final_text := final_text v ++ appended in
  let tool_results_context :=
    if result_bool result_content
    then <[tool_id := result_content]> (tool_results_context v)
    else tool_results_context v in
  let* response :=
    _create_claude_message self updated_messages available_tools
      (Some current_system_prompt) in
  ret (Broke (mkVars updated_messages response final_text
                tool_results_context)).

(** [for content in response.content: ...]. *)
Fixpoint scan (contents : list Block) (assistant_message_content : list Block)
    (v : Vars) : M W Scan :=
  match contents with
  | [] => ret (NoToolCalls (final_text v))
  | content :: rest =>
      match content with
      | Text text =>
          scan rest (assistant_message_content ++ [content])
            (mkVars (messages v) (response v) (final_text v ++ [text])
               (tool_results_context v))
      | ToolUse tool_name tool_args tool_id =>
          tool_use_branch content tool_name tool_args tool_id
            assistant_message_content v
      | OtherBlock _ => scan rest assistant_message_content v
      end
  end.

(** [while True: ...]: nothing bounds the number of rounds, so the model
    of the loop takes fuel and is [Diverged] when it runs out. The result
    is the output buffer and the result cache. *)
Fixpoint while_loop (fuel : nat) (v : Vars)
  : M W (list string * gmap string ResultContent) :=
  match fuel with
  | O => raise Diverged
  | S fuel' =>
      let* outcome := scan (response v) [] v in
      match outcome with
      | Broke v' => while_loop fuel' v'
      | NoToolCalls final_text =>
          let final_text :=
            match response v with
            | Text text :: _ => final_text ++ [text]
            | _ => final_text
            end in
          ret (final_text, tool_results_context v)
      end
  end.

End Loop.

(** Modelled from the spec: [State] is declared in
    [plan_exec_agent.py]; this file only updates its [tool_results] key,
    which may be absent. *)
Record State : Type := mkState {
  tool_results : option (gmap string ResultContent)
}.

(** [state["tool_results"].update(tool_results_context)]. *)
Definition update_state (state : option State)
    (tool_results_context : gmap string ResultContent) : option State :=
  match state with
  | Some (mkState (Some results)) =>
      Some (mkState (Some (tool_results_context ∪ results)))
  | other => other
  end.

(** [process_input_with_agent_loop]; the telemetry calls are left out.
    The result is the joined output and the session state. *)
Definition process_input_with_agent_loop (fuel : nat) (self : Self)
    (query : string) (system_prompt : option string)
    (state : option State) : M W (string * option State) :=
  let current_system_prompt := prompt_or_default self system_prompt in
  let* enriched_query := _prepare_query self query in
  let tool_results_context : gmap string ResultContent := ∅ in
  let messages := [mkMessage user (Plain enriched_query)] in
  let* '(_, _, self) := get_all_tools_from_servers self in
  let* '(available_tools, self) := get_all_tools self in
  let* response :=
    _create_claude_message self messages available_tools
      (Some current_system_prompt) in
  let* '(final_text, tool_results_context) :=
    while_loop self available_tools current_system_prompt fuel
      (mkVars messages response [] tool_results_context) in
  ret (join nl final_text, update_state state tool_results_context).

End Host.

End MCPHost.

(** * Concrete collaborators

    Small instances of the abstract parts, on which the definitions above
    run: they give the examples that accompany the properties. *)

Module Examples.

(** Floats stand as the text of their literal; every float is taken as
    truthy and a [str] is shown between single quotes. This is enough for
    the examples, none of which depends on a float or on the quoting of
    [repr]. *)
#[global] Instance literal_builtins : Builtins := {|
  pyfloat := string;
  float_of_str := fun s => s;
  float_bool := fun _ => true;
  float_repr := fun s => s;
  float_json := fun s => s;
  str_repr := fun s => "'" +:+ s +:+ "'"
|}.


(** An object holding one falsy value of each kind. *)
Definition text_falsy : string :=
  "{" +:+ dq +:+ "zero" +:+ dq +:+ ": 0, "
  +:+ dq +:+ "no" +:+ dq +:+ ": false, "
  +:+ dq +:+ "nothing" +:+ dq +:+ ": null, "
  +:+ dq +:+ "blank" +:+ dq +:+ ": " +:+ dq +:+ dq +:+ ", "
  +:+ dq +:+ "none" +:+ dq +:+ ": [], "
  +:+ dq +:+ "bare" +:+ dq +:+ ": {}}".

(** ** A dispatcher for [StepExecutor]

    It follows section 4.3 of the spec: the insufficiency signal gives a
    result that starts with the sentinel and carries the reason, a
    reference gives the cached result or the error text, and any other
    tool gives a text made from its name and arguments. *)
Definition example_result (tool_name : string) (tool_args : json)
    (state : StepExecutor.State) : string :=
  if String.eqb tool_name "signal_insufficient_context" then
    StepExecutor.SENTINEL +:+ ": "
    +:+ match tool_args with
        | JDict pairs => py_str (default JNull (dict_get pairs "reason"))
        | _ => EmptyString
        end
  else if String.eqb tool_name "reference_tool_output" then
    match tool_args with
    | JDict pairs =>
        match dict_get pairs "tool_id" with
        | Some (JStr id) =>
            match StepExecutor.tool_results state with
            | Some cache =>
                match cache !! id with
                | Some (_, r) => r
                | None => "Error: No tool result found with ID '" +:+ id +:+ "'"
                end
            | None => "Error: No tool result found with ID '" +:+ id +:+ "'"
            end
        | _ => "Error: No tool result found"
        end
    | _ => "Error: No tool result found"
    end
  else tool_name +:+ " returned " +:+ dumps tool_args.

Definition example_process_tool_call {W : Type} (tool_name : string)
    (tool_args : json) (tool_id : string) (content : Block)
    (assistant_message_content : list Block) (messages : list Message)
    (state : StepExecutor.State) (final_text : list string)
    (user_id : string) (provider : StepExecutor.ModelProvider)
    (langfuse_data : StepExecutor.LangfuseData) (w : W)
  : result ((list Message * option string * list string) * W) :=
  let r := example_result tool_name tool_args state in
  Ok ((MCPHost.with_tool_exchange messages
         (assistant_message_content ++ [content]) tool_id (RStr r),
       Some r, ["[Calling tool " +:+ tool_name +:+ "]"]), w).

Definition example_toolkit (provider : StepExecutor.ModelProvider)
  : list json :=
  match provider with
  | StepExecutor.ANTHROPIC =>
      [JDict [("name", JStr "Google.SendEmail");
              ("description", JStr "Send an email");
              ("input_schema", JDict [("type", JStr "object")])]]
  | StepExecutor.OPENAI =>
      [JDict [("type", JStr "function");
              ("function",
               JDict [("name", JStr "Google_SendEmail");
                      ("description", JStr "Send an email");
                      ("parameters", JDict [("type", JStr "object")])])]]
  end.

(** A provider that plays a script: the world is the list of the
    responses still to give. *)
Definition scripted : StepExecutor.Collaborators (list StepExecutor.Response) := {|
  StepExecutor.create_message := fun _ _ _ _ _ w =>
    match w with
    | r :: rest => Ok (r, rest)
    | [] => Raise (External "the script is over")
    end;
  StepExecutor.process_tool_call := example_process_tool_call;
  StepExecutor.get_toolkits_from_arcade := fun provider _ w =>
    Ok (example_toolkit provider, w)
|}.

(** A dispatcher that answers every call, whatever the tool. *)
Definition answering_process_tool_call {W : Type} (tool_name : string)
    (tool_args : json) (tool_id : string) (content : Block)
    (assistant_message_content : list Block) (messages : list Message)
    (state : StepExecutor.State) (final_text : list string)
    (user_id : string) (provider : StepExecutor.ModelProvider)
    (langfuse_data : StepExecutor.LangfuseData) (w : W)
  : result ((list Message * option string * list string) * W) :=
  let r := "done: " +:+ tool_name in
  Ok ((MCPHost.with_tool_exchange messages
         (assistant_message_content ++ [content]) tool_id (RStr r),
       Some r, ["[Calling tool " +:+ tool_name +:+ "]"]), w).

(** A provider that asks for a tool in every response: the world counts
    the calls, and gives each tool call its own id. *)
Definition eager_response (n : nat) : StepExecutor.Response :=
  StepExecutor.AnthropicResponse
    [Text "Let me look that up.";
     ToolUse "Search.Web" (JDict [("query", JStr "agenda")])
       ("call_" +:+ int_str (Z.of_nat n))].

Definition eager : StepExecutor.Collaborators nat := {|
  StepExecutor.create_message := fun _ _ _ _ _ n =>
    Ok (eager_response n, S n);
  StepExecutor.process_tool_call := answering_process_tool_call;
  StepExecutor.get_toolkits_from_arcade := fun provider _ n =>
    Ok (example_toolkit provider, n)
|}.

(** A script in which the provider gives the same call id to two tool
    calls with different arguments, and then concludes. *)
Definition first_args : json := JDict [("query", JStr "agenda")].
Definition second_args : json := JDict [("query", JStr "weather")].

Definition reuse_script : list StepExecutor.Response :=
  [StepExecutor.AnthropicResponse
     [Text "Looking up the agenda.";
      ToolUse "Search.Web" first_args "toolu_dup"];
   StepExecutor.AnthropicResponse
     [ToolUse "Search.Web" second_args "toolu_dup"];
   StepExecutor.AnthropicResponse [Text "Here is your day."]].

Definition host_reuse_script : list (list Block) :=
  [[Text "Sending the first mail.";
    ToolUse "send_email" first_args "toolu_dup"];
   [ToolUse "send_email" second_args "toolu_dup"];
   [Text "Both mails are sent."]].

Definition example_self : StepExecutor.Self :=
  StepExecutor.mkSelf (Some ["Google"]) "You are a helpful assistant."
    EmptyString.

Definition empty_state : StepExecutor.State :=
  StepExecutor.mkState None None (Some ∅).

(** ** Collaborators for [MCPHost]

    One mail backend with a single tool; a backend call answers with its
    arguments, and the provider plays a script. *)
Definition host_scripted : MCPHost.Collaborators (list (list Block)) := {|
  MCPHost.messages_create := fun _ _ _ _ _ w =>
    match w with
    | r :: rest => Ok (r, rest)
    | [] => Raise (External "the script is over")
    end;
  MCPHost.list_tools := fun client w =>
    Ok (if String.eqb client "Gmail"
        then [MCPHost.mkTool "send_email" (Some "Send an email")
                (JDict [("type", JStr "object")])]
        else [], w);
  MCPHost.call_tool := fun client tool_name tool_args w =>
    Ok ([TextContent (tool_name +:+ " returned " +:+ dumps tool_args)], w);
  MCPHost.read_resource := fun client uri w =>
    Ok ([MCPHost.TextResourceContents (py_str uri)], w);
  MCPHost.has_session := fun _ _ => true;
  MCPHost.client_name := fun client => client;
  MCPHost.list_resources := fun _ w => (Ok [], w);
  MCPHost.list_resource_templates := fun _ w => (Ok [], w)
|}.

Definition host_self : MCPHost.Self :=
  MCPHost.mkSelf ["Gmail"] "You are a helpful assistant." EmptyString
    {[ "send_email" := "Gmail" ]}.

(** Two backends that list a tool of the same name, a client without a
    session, a listing of resources that fails, and a provider that asks
    for a tool in every response: the world counts the calls to the
    provider and gives each tool call its own id. *)
Definition search_tool (description : string) : MCPHost.Tool :=
  MCPHost.mkTool "search" (Some description) (JDict [("type", JStr "object")]).

Definition inbox_resource : MCPHost.Resource :=
  MCPHost.mkResource "inbox" "Unread mail" "gmail://inbox".

Definition host_eager_response (n : nat) : list Block :=
  [Text "Let me check.";
   ToolUse "book_flight" (JDict [("to", JStr "Oslo")])
     ("toolu_" +:+ int_str (Z.of_nat n))].

Definition host_eager : MCPHost.Collaborators nat := {|
  MCPHost.messages_create := fun _ _ _ _ _ n =>
    Ok (host_eager_response n, S n);
  MCPHost.list_tools := fun client n =>
    Ok (if String.eqb client "Gmail"
        then [MCPHost.mkTool "send_email" (Some "Send an email")
                (JDict [("type", JStr "object")]);
              search_tool "Search the mailbox"]
        else if String.eqb client "Exa"
        then [search_tool "Search the web"]
        else [], n);
  MCPHost.call_tool := fun client tool_name tool_args n =>
    Ok ([TextContent (client +:+ " ran " +:+ tool_name)], n);
  MCPHost.read_resource := fun client uri n =>
    if String.eqb client "Gmail"
    then Ok ([MCPHost.TextResourceContents "3 unread";
              MCPHost.OtherResourceContents;
              MCPHost.BlobResourceContents "b'\x00'"], n)
    else Ok ([], n);
  MCPHost.has_session := fun client _ => negb (String.eqb client "Slack");
  MCPHost.client_name := fun client => client;
  MCPHost.list_resources := fun client n =>
    if String.eqb client "Exa" then (Raise (External "connection closed"), n)
    else if String.eqb client "Gmail" then (Ok [inbox_resource], n)
    else (Ok [], n);
  MCPHost.list_resource_templates := fun client n =>
    if String.eqb client "Exa" then (Raise (External "connection closed"), n)
    else (Ok [], n)
|}.

Definition two_backends_self : MCPHost.Self :=
  MCPHost.mkSelf ["Exa"; "Gmail"] "You are a helpful assistant." EmptyString ∅.

(** ** Constructors for [StepExecutor.__init__]

    The world is the environment of the process, as pairs of a variable
    and its value. A client is the key that it was given; the registry
    client refuses to be built without a key. *)
Definition environment_lookup (key : string) (w : list (string * string))
  : option string :=
  snd <$> List.find (fun kv => String.eqb (fst kv) key) w.

Definition from_environment
  : StepExecutor.Constructors (list (string * string)) := {|
  StepExecutor.ArcadeClient := string;
  StepExecutor.ToolProcessorObject := string;
  StepExecutor.AnthropicClient := string;
  StepExecutor.OpenAIClient := string;
  StepExecutor.MessageCreator := option string * option string;
  StepExecutor.getenv := environment_lookup;
  StepExecutor.Arcade := fun api_key w =>
    match api_key with
    | Some k => Ok (k, w)
    | None => Raise (External "The api_key client option must be set")
    end;
  StepExecutor.ToolProcessor := fun arcade_client w => Ok (arcade_client, w);
  StepExecutor.Anthropic := fun api_key w => Ok (default EmptyString api_key, w);
  StepExecutor.OpenAI := fun api_key w => Ok (default EmptyString api_key, w);
  StepExecutor.LLMMessageCreator := fun anthropic_client openai_client w =>
    Ok ((anthropic_client, openai_client), w)
|}.

End Examples.

(** * Vocabulary of the properties *)

Module Vocabulary.

Section Blocks.
Context `{PB : Builtins}.

Definition is_tool_use (b : Block) : bool :=
  match b with ToolUse _ _ _ => true | _ => false end.

Definition is_text (b : Block) : bool :=
  match b with Text _ => true | _ => false end.

(** No block of [blocks] asks for a tool. *)
Definition no_tool_use (blocks : list Block) : bool :=
  forallb (fun b => negb (is_tool_use b)) blocks.

(** The text blocks of [blocks]: what a scan of them adds to the
    assistant message under construction. *)
Definition text_blocks (blocks : list Block) : list Block :=
  List.filter is_text blocks.

(** The bodies of the text blocks of [blocks]: what a scan of them adds
    to the output buffer. *)
Definition texts_of (blocks : list Block) : list string :=
  flat_map (fun b => match b with Text t => [t] | _ => [] end) blocks.

(** The call ids of the tool calls handed to the dispatcher, oldest
    first. *)
Definition dispatched_ids (t : list Event) : list string :=
  flat_map (fun ev => match ev with Dispatch _ id => [id] | _ => [] end) t.

Definition printed_lines (t : list Event) : list string :=
  flat_map (fun ev => match ev with Printed l => [l] | _ => [] end) t.

End Blocks.

(** The variables of a round of [StepExecutor] after the text blocks of
    [pre] have been scanned. *)
Definition after_texts `{PB : Builtins} (v : StepExecutor.Vars)
    (pre : list Block) : StepExecutor.Vars :=
  StepExecutor.mkVars (StepExecutor.messages v) (StepExecutor.response v)
    (StepExecutor.final_text v ++ texts_of pre) (StepExecutor.state v).

(** The same for a round of [MCPHost]. *)
Definition host_after_texts `{PB : Builtins} (v : MCPHost.Vars)
    (pre : list Block) : MCPHost.Vars :=
  MCPHost.mkVars (MCPHost.messages v) (MCPHost.response v)
    (MCPHost.final_text v ++ texts_of pre) (MCPHost.tool_results_context v).

(** The response asks for a tool: its contents hold a tool call, maybe
    after some blocks that are none. *)
Definition requests_tool `{PB : Builtins}
    (provider : StepExecutor.ModelProvider)
    (response : StepExecutor.Response) : Prop :=
  exists pre name args id rest,
    StepExecutor.response_contents provider response
      = Ok (pre ++ ToolUse name args id :: rest)
    /\ no_tool_use pre = true.

(** The session state that a scan of [StepExecutor] leaves. *)
Definition state_after `{PB : Builtins} (before : StepExecutor.State)
    (outcome : StepExecutor.Scan) : StepExecutor.State :=
  match outcome with
  | StepExecutor.Returned _ st => st
  | StepExecutor.Broke v => StepExecutor.state v
  | StepExecutor.NoToolCalls _ => before
  end.

(** The header that [get_all_resources_info] puts before the resources
    of the clients. *)
Definition RESOURCES_HEADER : string :=
  "## You may also access the following resources and resource templates to help you answer the user's query:"
  +:+ nl.

Section HostNotions.
Context `{PB : Builtins} {W : Type} {CO : MCPHost.Collaborators W}.

(** The tools that the clients list, one client after the other, and the
    world that the listing leaves. *)
Fixpoint listings (clients : list string) (w : W)
  : result (list MCPHost.Tool * W) :=
  match clients with
  | [] => Ok ([], w)
  | client :: rest =>
      match MCPHost.list_tools client w with
      | Ok (listed, w1) =>
          match listings rest w1 with
          | Ok (more, w2) => Ok (listed ++ more, w2)
          | Raise x => Raise x
          end
      | Raise x => Raise x
      end
  end.

(** The entries of the clients: [infos] holds what [get_resources_info]
    gives for each of [clients], in their order, each call starting in
    the environment that the call before it left. *)
Inductive client_entries
  : list string -> Env W -> list string -> Env W -> Prop :=
| entries_nil (e : Env W) : client_entries [] e [] e
| entries_cons (client : string) (clients : list string) (info : string)
    (infos : list string) (e e1 e' : Env W) :
    MCPHost.get_resources_info client e = Ok (info, e1) ->
    client_entries clients e1 infos e' ->
    client_entries (client :: clients) e (info :: infos) e'.

End HostNotions.

(** The client of a provider, as [__init__] builds it: [None] when the
    variable [key] of the environment is unset or empty, and else what the
    constructor [make] builds from the value of the variable. *)
Definition client_for {W : Type} {CN : StepExecutor.Constructors W}
    {A : Type} (key : string)
    (make : option string -> W -> result (A * W)) (w : W)
  : result (option A * W) :=
  match StepExecutor.getenv key w with
  | Some k =>
      if str_bool k
      then match make (Some k) w with
           | Ok (client, w') => Ok (Some client, w')
           | Raise x => Raise x
           end
      else Ok (None, w)
  | None => Ok (None, w)
  end.

(** The collaborators of [StepExecutor] with another registry in the
    place of [get_toolkits_from_arcade]. *)
Definition with_registry `{PB : Builtins} {W : Type}
    (CO : StepExecutor.Collaborators W)
    (registry : StepExecutor.ModelProvider -> option (list string) -> W ->
                result (list json * W))
  : StepExecutor.Collaborators W := {|
  StepExecutor.create_message := StepExecutor.create_message;
  StepExecutor.process_tool_call := StepExecutor.process_tool_call;
  StepExecutor.get_toolkits_from_arcade := registry
|}.

(** The response asks for a tool of a backend: its first tool call is
    for a tool that the host does not handle itself. *)
Definition requests_backend_tool `{PB : Builtins} (blocks : list Block)
  : Prop :=
  exists pre name args id rest,
    blocks = pre ++ ToolUse name args id :: rest
    /\ no_tool_use pre = true
    /\ name <> "reference_tool_output"
    /\ name <> "access_resource".

(** The leading text of a response, which the host appends once more
    when the response ends the run. *)
Definition leading_text `{PB : Builtins} (blocks : list Block)
  : list string :=
  match blocks with
  | Text text :: _ => [text]
  | _ => []
  end.

(** The result cache that a scan of [MCPHost] leaves. *)
Definition context_after `{PB : Builtins}
    (before : gmap string ResultContent) (outcome : MCPHost.Scan)
  : gmap string ResultContent :=
  match outcome with
  | MCPHost.Broke v => MCPHost.tool_results_context v
  | MCPHost.NoToolCalls _ => before
  end.

End Vocabulary.

Export Vocabulary.

(** * Properties *)

(** ** Reasoning about computations *)

Section Computations.
Context `{PB : Builtins} {W : Type}.

Lemma bind_ok {A B} (c : M W A) (k : A -> M W B) (e e' : Env W) (b : B) :
  bind c k e = Ok (b, e') ->
  exists a e1, c e = Ok (a, e1) /\ k a e1 = Ok (b, e').
Proof.
  unfold bind. destruct (c e) as [[a e1]|x]; [|discriminate].
  intros H. exists a, e1. split; [reflexivity|exact H].
Qed.

Lemma bind_step {A B} (c : M W A) (k : A -> M W B) (e e1 : Env W) (a : A) :
  c e = Ok (a, e1) -> bind c k e = k a e1.
Proof. unfold bind. intros ->. reflexivity. Qed.

Lemma emit_ok (ev : Event) (e : Env W) :
  emit ev e = Ok (tt, mkEnv (world e) (trace e ++ [ev])).
Proof. reflexivity. Qed.

Lemma external_ok {A} (f : W -> result (A * W)) (e : Env W) (a : A) (w' : W) :
  f (world e) = Ok (a, w') ->
  external f e = Ok (a, mkEnv w' (trace e)).
Proof. unfold external. intros ->. reflexivity. Qed.

Lemma external_inv {A} (f : W -> result (A * W)) (e e' : Env W) (a : A) :
  external f e = Ok (a, e') ->
  f (world e) = Ok (a, world e') /\ trace e' = trace e.
Proof.
  unfold external. destruct (f (world e)) as [[a0 w0]|x]; [|discriminate].
  intros H. injection H as -> <-. split; reflexivity.
Qed.

Lemma lift_inv {A} (r : result A) (e e' : Env W) (a : A) :
  lift r e = Ok (a, e') -> r = Ok a /\ e' = e.
Proof.
  unfold lift. destruct r as [a0|x]; [|discriminate].
  intros H. injection H as -> <-. split; reflexivity.
Qed.

Lemma model_calls_app (t1 t2 : list Event) :
  model_calls (t1 ++ t2) = model_calls t1 + model_calls t2.
Proof. unfold model_calls. rewrite List.filter_app, length_app. reflexivity. Qed.

Lemma dispatches_app (t1 t2 : list Event) :
  dispatches (t1 ++ t2) = dispatches t1 + dispatches t2.
Proof. unfold dispatches. rewrite List.filter_app, length_app. reflexivity. Qed.

Lemma printed_lines_app (t1 t2 : list Event) :
  printed_lines (t1 ++ t2) = printed_lines t1 ++ printed_lines t2.
Proof. unfold printed_lines. apply flat_map_app. Qed.

Lemma dispatched_ids_app (t1 t2 : list Event) :
  dispatched_ids (t1 ++ t2) = dispatched_ids t1 ++ dispatched_ids t2.
Proof. unfold dispatched_ids. apply flat_map_app. Qed.

End Computations.

(** ** The tool catalog *)

Section Catalog.
Context `{PB : Builtins} {W : Type} {CO : StepExecutor.Collaborators W}.
Import StepExecutor.

(** C1. For either provider and any set of enabled toolkits, whenever the
    registry answers with the backend tools [arcade_tools], the catalog
    that [get_all_tools] returns is the three control tools followed by
    [arcade_tools]: its first three descriptors are named
    [reference_tool_output], [get_previous_step_result] and
    [signal_insufficient_context], in this order, ahead of every backend
    tool. *)
Theorem get_all_tools_control_tools_first
    (self : Self) (provider : ModelProvider) (e : Env W)
    (arcade_tools : list json) (w' : W) :
  get_toolkits_from_arcade provider (enabled_toolkits self) (world e)
    = Ok (arcade_tools, w') ->
  exists catalog,
    get_all_tools self provider e = Ok (catalog, mkEnv w' (trace e))
    /\ catalog = [_get_reference_tool provider;
                  _get_previous_step_tool provider;
                  _get_insufficient_context_tool provider] ++ arcade_tools
    /\ map (descriptor_name provider) (take 3 catalog)
       = [Some "reference_tool_output"; Some "get_previous_step_result";
          Some "signal_insufficient_context"]
    /\ drop 3 catalog = arcade_tools.
Proof.
  intros Hreg. eexists. split; [|split; [reflexivity|]].
  - unfold get_all_tools. erewrite bind_step by (apply external_ok, Hreg).
    reflexivity.
  - split; [|reflexivity]. destruct provider; reflexivity.
Qed.

End Catalog.

Lemma get_all_tools_control_tools_first_example :
  exists catalog,
    StepExecutor.get_all_tools (CO := Examples.scripted) Examples.example_self
      StepExecutor.OPENAI (mkEnv [] [])
    = Ok (catalog, mkEnv [] [])
    /\ catalog = [StepExecutor._get_reference_tool StepExecutor.OPENAI;
                  StepExecutor._get_previous_step_tool StepExecutor.OPENAI;
                  StepExecutor._get_insufficient_context_tool
                    StepExecutor.OPENAI]
                 ++ Examples.example_toolkit StepExecutor.OPENAI
    /\ map (StepExecutor.descriptor_name StepExecutor.OPENAI) (take 3 catalog)
       = [Some "reference_tool_output"; Some "get_previous_step_result";
          Some "signal_insufficient_context"]
    /\ drop 3 catalog = Examples.example_toolkit StepExecutor.OPENAI.
Proof.
  apply (get_all_tools_control_tools_first (CO := Examples.scripted)
           Examples.example_self StepExecutor.OPENAI (mkEnv [] [])
           (Examples.example_toolkit StepExecutor.OPENAI) []).
  reflexivity.
Defined.

(** ** The dispatcher of [MCPHost] *)

Section Dispatcher.
Context `{PB : Builtins} {W : Type} {CO : MCPHost.Collaborators W}.
Import MCPHost.

Lemma loads_empty : loads EmptyString = Raise JSONDecodeError.
Proof. reflexivity. Qed.

Lemma loads_only_decode_error (text : string) (x : exn) :
  loads text = Raise x -> x = JSONDecodeError.
Proof.
  unfold loads. destruct (lex LIdle text) as [ts|].
  - destruct (parse [] EValue ts); [discriminate|]. congruence.
  - congruence.
Qed.

(** A reference to a cached result goes through
    [_extract_reference_data]. *)
Lemma process_reference_cached (self : Self) (pairs : list (string * json))
    (referenced tool_id : string) (content : Block)
    (assistant_message_content : list Block) (messages : list Message)
    (tool_results_context : gmap string ResultContent)
    (cached : ResultContent) (r : string) (e : Env W) :
  dict_get pairs "tool_id" = Some (JStr referenced) ->
  tool_results_context !! referenced = Some cached ->
  _extract_reference_data cached
    (default JNull (dict_get pairs "extract_path")) = Ok (RStr r) ->
  _process_tool_call self "reference_tool_output" (JDict pairs) tool_id
    content assistant_message_content messages tool_results_context e
  = reference_answer messages assistant_message_content content tool_id r e.
Proof.
  intros Hid Hcached Hextract.
  unfold _process_tool_call, _handle_reference_tool, reference_answer.
  cbn [String.eqb Ascii.eqb Bool.eqb getitem get_or_none].
  rewrite Hid. cbn [lookup_reference]. rewrite Hcached, Hextract.
  reflexivity.
Qed.

(** C5, as the code has it. For every [tool_id] argument that can be
    looked up (a string, a number, a boolean or [null]) and is no key of
    the call-result cache, a [reference_tool_output] call does not raise:
    the handler returns the history followed by the assistant message and
    by a tool result block whose content is exactly
    [Error: No tool result found with ID '<tool_id>'], with [None] as its
    own result; the dispatcher adds nothing to the output and leaves the
    world and the trace as they are. (A [tool_id] that is a list or an
    object is no key either, but the membership test raises on it.) *)
Theorem reference_to_unknown_id
    (self : Self) (tool_args referenced : json) (tool_id : string)
    (content : Block) (assistant_message_content : list Block)
    (messages : list Message)
    (tool_results_context : gmap string ResultContent) (e : Env W) :
  getitem tool_args "tool_id" = Ok referenced ->
  match referenced with JList _ | JDict _ => False | _ => True end ->
  (forall key, referenced = JStr key ->
               tool_results_context !! key = None) ->
  let error :=
    "Error: No tool result found with ID '" +:+ py_str referenced +:+ "'" in
  let history :=
    messages
    ++ [mkMessage assistant
          (Blocks (map Echo (assistant_message_content ++ [content])));
        mkMessage user (Blocks [ToolResult tool_id (RStr error)])] in
  _handle_reference_tool tool_id tool_args content assistant_message_content
    messages tool_results_context
  = Ok (history, RNone)
  /\ _process_tool_call self "reference_tool_output" tool_args tool_id
       content assistant_message_content messages tool_results_context e
     = Ok ((history, RNone, []), e)
  /\ (forall key, referenced = JStr key ->
        error = "Error: No tool result found with ID '" +:+ key +:+ "'").
Proof.
  intros Hid Hhashable Hmissing error history.
  assert (Hhandler :
    _handle_reference_tool tool_id tool_args content
      assistant_message_content messages tool_results_context
    = Ok (history, RNone)).
  { unfold _handle_reference_tool. rewrite Hid.
    destruct tool_args; try discriminate Hid.
    cbn [get_or_none].
    assert (Hlookup : lookup_reference referenced tool_results_context
                      = Ok None).
    { destruct referenced; try contradiction; try reflexivity.
      cbn [lookup_reference]. rewrite (Hmissing _ eq_refl). reflexivity. }
    rewrite Hlookup. reflexivity. }
  split; [exact Hhandler|]. split.
  - unfold _process_tool_call. cbn [String.eqb Ascii.eqb Bool.eqb].
    rewrite Hhandler. reflexivity.
  - intros key ->. reflexivity.
Qed.


(** C10. For a cached result that is valid JSON and a path that leads to
    a falsy value (0, false, null, an empty string, an empty array or an
    empty object), [reference_tool_output] returns
    [Path not found in data]: the test after the walk is on the truth of
    the value, not on the presence of the path. Unless the value is a
    float, its serialisation is another text. *)
Theorem falsy_value_reported_as_missing
    (self : Self) (pairs : list (string * json))
    (referenced tool_id path text : string) (data value : json)
    (content : Block) (assistant_message_content : list Block)
    (messages : list Message)
    (tool_results_context : gmap string ResultContent) (e : Env W) :
  dict_get pairs "tool_id" = Some (JStr referenced) ->
  dict_get pairs "extract_path" = Some (JStr path) ->
  path <> EmptyString ->
  tool_results_context !! referenced = Some (RStr text) ->
  loads text = Ok data ->
  walk (split "." path) data = Ok value ->
  truthy value = false ->
  _process_tool_call self "reference_tool_output" (JDict pairs) tool_id
    content assistant_message_content messages tool_results_context e
  = reference_answer messages assistant_message_content content tool_id
      "Path not found in data" e
  /\ _extract_reference_data (RStr text) (JStr path)
     = Ok (RStr "Path not found in data")
  /\ ((forall f, value <> JFloat f) -> dumps value <> "Path not found in data").
Proof.
  intros Hid Hpath Hne Hc Hloads Hwalk Hfalsy.
  assert (Hextract : _extract_reference_data (RStr text) (JStr path)
                     = Ok (RStr "Path not found in data")).
  { unfold _extract_reference_data.
    destruct path as [|c path]; [congruence|].
    destruct text as [|c' text]; [rewrite loads_empty in Hloads; discriminate|].
    cbn [truthy str_bool result_bool negb orb].
    rewrite Hloads, Hwalk, Hfalsy. reflexivity. }
  split; [|split].
  - eapply process_reference_cached; [exact Hid|exact Hc|].
    rewrite Hpath. exact Hextract.
  - exact Hextract.
  - intros Hnf. destruct value as [|b|z|f|s'|items|kvs]; cbn in Hfalsy.
    + discriminate.
    + subst b. discriminate.
    + apply negb_false_iff, Z.eqb_eq in Hfalsy. subst z. discriminate.
    + exfalso. apply (Hnf f). reflexivity.
    + destruct s'; [|discriminate]. vm_compute. discriminate.
    + destruct items; discriminate.
    + destruct kvs; discriminate.
Qed.

(** C9. A tool name that the dispatcher does not handle itself and that
    the map from tool names to clients does not hold gives no exception:
    the dispatcher returns [Error: Tool '<name>' is not available.] as the
    tool result, adds [Error: Tool '<name>' not found in any client] to
    the output, and the round goes on with the next call to the model on
    the updated history. *)
Theorem unknown_tool_is_an_error_result
    (self : Self) (tool_name : string) (tool_args : json) (tool_id : string)
    (content : Block) (assistant_message_content : list Block)
    (available_tools : list json) (current_system_prompt : string)
    (v : Vars) (e : Env W) :
  tool_name <> "reference_tool_output" ->
  tool_name <> "access_resource" ->
  tool_to_client_map self !! tool_name = None ->
  let updated :=
    with_tool_exchange (messages v) (assistant_message_content ++ [content])
      tool_id (RStr (not_available_message tool_name)) in
  let printed := trace e ++ [Printed (not_found_message tool_name)] in
  _process_tool_call self tool_name tool_args tool_id content
    assistant_message_content (messages v) (tool_results_context v) e
  = Ok ((updated, RStr (not_available_message tool_name),
         [not_found_message tool_name]), mkEnv (world e) printed)
  /\ not_available_message tool_name
     = "Error: Tool '" +:+ tool_name +:+ "' is not available."
  /\ not_found_message tool_name
     = "Error: Tool '" +:+ tool_name +:+ "' not found in any client"
  /\ forall (response : list Block) (w' : W),
       messages_create "claude-3-5-sonnet-20241022" 4096
         current_system_prompt updated available_tools (world e)
       = Ok (response, w') ->
       tool_use_branch self available_tools current_system_prompt content
         tool_name tool_args tool_id assistant_message_content v e
       = Ok (Broke (mkVars updated response
                      (final_text v ++ [not_found_message tool_name])
                      (<[tool_id := RStr (not_available_message tool_name)]>
                         (tool_results_context v))),
             mkEnv w' (trace e ++ [Dispatch tool_name tool_id;
                                   Printed (not_found_message tool_name);
                                   ModelCall updated])).
Proof.
  intros Hnr Hna Hmap updated printed.
  assert (Hproc : forall e0 : Env W,
    _process_tool_call self tool_name tool_args tool_id content
      assistant_message_content (messages v) (tool_results_context v) e0
    = Ok ((updated, RStr (not_available_message tool_name),
           [not_found_message tool_name]),
          mkEnv (world e0)
            (trace e0 ++ [Printed (not_found_message tool_name)]))).
  { intros e0. unfold _process_tool_call.
    apply String.eqb_neq in Hnr, Hna. rewrite Hnr, Hna.
    unfold _handle_standard_tool. rewrite Hmap. reflexivity. }
  split; [apply Hproc|]. split; [reflexivity|]. split; [reflexivity|].
  intros response w' Hmodel.
  unfold tool_use_branch, bind at 1. rewrite emit_ok.
  unfold bind at 1. rewrite Hproc. cbn [world trace result_bool].
  unfold _create_claude_message, prompt_or_default. cbn [default].
  unfold bind at 1. unfold bind at 1. rewrite emit_ok.
  erewrite external_ok by (cbn [world]; exact Hmodel).
  change (str_bool (not_available_message tool_name)) with true.
  cbn [trace ret]. rewrite <- !app_assoc. reflexivity.
Qed.

End Dispatcher.

Lemma reference_to_unknown_id_example :
  let call :=
    ToolUse "reference_tool_output" (JDict [("tool_id", JStr "toolu_404")])
      "toolu_2" in
  let history :=
    [mkMessage user (Plain "summarise my inbox");
     mkMessage assistant
       (Blocks [Echo (Text "Let me reuse the earlier result."); Echo call]);
     mkMessage user
       (Blocks [ToolResult "toolu_2"
                  (RStr "Error: No tool result found with ID 'toolu_404'")])] in
  MCPHost._handle_reference_tool "toolu_2"
    (JDict [("tool_id", JStr "toolu_404")]) call
    [Text "Let me reuse the earlier result."]
    [mkMessage user (Plain "summarise my inbox")]
    {[ "toolu_1" := RStr "three meetings" ]}
  = Ok (history, RNone)
  /\ MCPHost._process_tool_call (CO := Examples.host_scripted)
       Examples.host_self "reference_tool_output"
       (JDict [("tool_id", JStr "toolu_404")]) "toolu_2" call
       [Text "Let me reuse the earlier result."]
       [mkMessage user (Plain "summarise my inbox")]
       {[ "toolu_1" := RStr "three meetings" ]} (mkEnv [] [])
     = Ok ((history, RNone, []), mkEnv [] []).
Proof.
  cbn zeta.
  destruct (reference_to_unknown_id (CO := Examples.host_scripted)
              Examples.host_self (JDict [("tool_id", JStr "toolu_404")])
              (JStr "toolu_404") "toolu_2"
              (ToolUse "reference_tool_output"
                 (JDict [("tool_id", JStr "toolu_404")]) "toolu_2")
              [Text "Let me reuse the earlier result."]
              [mkMessage user (Plain "summarise my inbox")]
              {[ "toolu_1" := RStr "three meetings" ]} (mkEnv [] []))
    as (Hhandler & Hdispatch & _).
  - reflexivity.
  - exact I.
  - intros key Hkey. injection Hkey as <-. vm_compute. reflexivity.
  - split; [exact Hhandler|exact Hdispatch].
Defined.

(** The membership test of [_handle_reference_tool] raises on a
    [tool_id] that cannot be hashed: such an argument is no key of the
    cache, here an empty one, and yet the call does not return the error
    text. *)
Lemma reference_to_unhashable_id_raises :
  let tool_args := JDict [("tool_id", JList [JStr "toolu_404"])] in
  let call := ToolUse "reference_tool_output" tool_args "toolu_2" in
  (forall key : string, (∅ : gmap string ResultContent) !! key = None)
  /\ MCPHost._handle_reference_tool "toolu_2" tool_args call [] [] ∅
     = Raise (TypeError "unhashable type: 'list'")
  /\ MCPHost._process_tool_call (CO := Examples.host_scripted)
       Examples.host_self "reference_tool_output" tool_args "toolu_2" call
       [] [] ∅ (mkEnv [] [])
     = Raise (TypeError "unhashable type: 'list'")
  /\ MCPHost.while_loop (CO := Examples.host_scripted) Examples.host_self []
       "You are a helpful assistant." 5
       (MCPHost.mkVars [mkMessage user (Plain "summarise my inbox")] [call]
          [] ∅)
       (mkEnv [[Text "unreached"]] [])
     = Raise (TypeError "unhashable type: 'list'").
Proof.
  cbn zeta. split; [intros key; apply lookup_empty|].
  split; [reflexivity|]. split; reflexivity.
Qed.


Lemma falsy_value_reported_as_missing_example :
  MCPHost._process_tool_call (CO := Examples.host_scripted)
    Examples.host_self "reference_tool_output"
    (JDict [("tool_id", JStr "toolu_1"); ("extract_path", JStr "zero")])
    "toolu_2" (Text "unused") [] []
    {[ "toolu_1" := RStr Examples.text_falsy ]} (mkEnv [] [])
  = MCPHost.reference_answer [] [] (Text "unused") "toolu_2"
      "Path not found in data" (mkEnv [] [])
  /\ MCPHost._extract_reference_data (RStr Examples.text_falsy) (JStr "zero")
     = Ok (RStr "Path not found in data")
  /\ ((forall f, JInt 0 <> JFloat f) ->
      dumps (JInt 0) <> "Path not found in data").
Proof.
  apply (falsy_value_reported_as_missing (CO := Examples.host_scripted)
           Examples.host_self
           [("tool_id", JStr "toolu_1"); ("extract_path", JStr "zero")]
           "toolu_1" "toolu_2" "zero" Examples.text_falsy
           (JDict [("zero", JInt 0); ("no", JBool false); ("nothing", JNull);
                   ("blank", JStr EmptyString); ("none", JList []);
                   ("bare", JDict [])])
           (JInt 0)).
  - reflexivity.
  - reflexivity.
  - discriminate.
  - reflexivity.
  - vm_compute. reflexivity.
  - vm_compute. reflexivity.
  - reflexivity.
Defined.

Lemma unknown_tool_is_an_error_result_example :
  let v := MCPHost.mkVars [mkMessage user (Plain "book a flight")] [] [] ∅ in
  let call := ToolUse "book_flight" (JDict []) "toolu_7" in
  let updated :=
    MCPHost.with_tool_exchange [mkMessage user (Plain "book a flight")]
      [call] "toolu_7" (RStr "Error: Tool 'book_flight' is not available.") in
  MCPHost.tool_use_branch (CO := Examples.host_scripted) Examples.host_self
    [] "You are a helpful assistant." call "book_flight" (JDict [])
    "toolu_7" [] v (mkEnv [[Text "I cannot book flights."]] [])
  = Ok (MCPHost.Broke
          (MCPHost.mkVars updated [Text "I cannot book flights."]
             ["Error: Tool 'book_flight' not found in any client"]
             {[ "toolu_7" :=
                  RStr "Error: Tool 'book_flight' is not available." ]}),
        mkEnv []
          [Dispatch "book_flight" "toolu_7";
           Printed "Error: Tool 'book_flight' not found in any client";
           ModelCall updated]).
Proof.
  cbn zeta.
  apply (proj2 (proj2 (proj2
           (unknown_tool_is_an_error_result (CO := Examples.host_scripted)
              Examples.host_self "book_flight" (JDict []) "toolu_7"
              (ToolUse "book_flight" (JDict []) "toolu_7") [] []
              "You are a helpful assistant."
              (MCPHost.mkVars [mkMessage user (Plain "book a flight")] [] []
                 ∅)
              (mkEnv [[Text "I cannot book flights."]] [])
              ltac:(discriminate) ltac:(discriminate)
              ltac:(reflexivity))))).
  reflexivity.
Defined.

(** Closes the arithmetic and list goals about counters and traces. *)
Ltac counter_done :=
  rewrite ?Z.sub_diag, ?model_calls_app, ?dispatches_app, ?printed_lines_app;
  repeat match goal with |- _ /\ _ => split end;
  try lia;
  repeat match goal with
    | |- context [(?a <? ?b)%Z] => destruct (Z.ltb_spec a b)
    | |- context [(?a =? ?b)%Z] => destruct (Z.eqb_spec a b)
    end;
  cbn; rewrite ?app_nil_r, <- ?app_assoc;
  first [reflexivity | lia | exfalso; lia].

(** ** The rounds of [StepExecutor] *)

Section StepRounds.
Context `{PB : Builtins} {W : Type} {CO : StepExecutor.Collaborators W}.
Import StepExecutor.

Variables (provider : ModelProvider) (user_id : string)
          (langfuse_session_id : option string)
          (available_tools : list json) (current_system_prompt : string).

Local Abbreviation scan_round :=
  (scan provider user_id langfuse_session_id available_tools
     current_system_prompt).
Local Abbreviation branch :=
  (tool_use_branch provider user_id langfuse_session_id available_tools
     current_system_prompt).
Local Abbreviation dispatch name args id content amc v :=
  (process_tool_call name args id content amc (messages v) (state v)
     (final_text v) user_id provider (langfuse_session_id, user_id)).
Local Abbreviation ask msgs :=
  (create_message provider msgs available_tools current_system_prompt
     (langfuse_session_id, user_id)).

Lemma scan_prefix (pre rest amc : list Block) (v : Vars) (e : Env W) :
  no_tool_use pre = true ->
  scan_round (pre ++ rest) amc v e
  = scan_round rest (amc ++ text_blocks pre) (after_texts v pre) e.
Proof.
  revert amc v. induction pre as [|b pre IH]; intros amc v Hpre.
  - unfold after_texts. cbn. rewrite !app_nil_r. destruct v; reflexivity.
  - cbn in Hpre. apply andb_prop in Hpre as [Hb Hpre].
    destruct b as [t|n a i|ty]; [| discriminate |].
    + cbn [app scan]. rewrite IH by exact Hpre.
      unfold after_texts. cbn [messages response final_text state texts_of
                                 flat_map text_blocks List.filter is_text].
      rewrite <- !app_assoc. reflexivity.
    + cbn [app scan]. rewrite IH by exact Hpre. reflexivity.
Qed.

(** How the branch of a tool call ends, read off its definition. *)
Lemma branch_returned (content : Block) (name : string) (args : json)
    (id : string) (amc : list Block) (v : Vars) (e : Env W)
    (updated : list Message) (r : string) (appended : list string)
    (w' : W) :
  dispatch name args id content amc v (world e)
    = Ok ((updated, Some r, appended), w') ->
  startswith r SENTINEL = true ->
  branch content name args id amc v e
  = Ok (Returned (final_text v ++ appended ++ [r]) (state v),
        mkEnv w' (trace e ++ [Dispatch name id])).
Proof.
  intros Hcall Hsent. unfold tool_use_branch, bind at 1. rewrite emit_ok.
  unfold bind at 1.
  erewrite external_ok by (cbn [world]; exact Hcall).
  assert (Hins : is_insufficient (Some r) = true).
  { unfold is_insufficient. rewrite Hsent. destruct r; [discriminate|].
    reflexivity. }
  cbv beta iota zeta. rewrite Hins. cbn [default ret trace]. rewrite <- app_assoc. reflexivity.
Qed.

Lemma branch_inv (content : Block) (name : string) (args : json)
    (id : string) (amc : list Block) (v : Vars) (e e' : Env W)
    (outcome : Scan) :
  branch content name args id amc v e = Ok (outcome, e') ->
  exists updated result_content appended w1,
    dispatch name args id content amc v (world e)
      = Ok ((updated, result_content, appended), w1)
    /\ ((is_insufficient result_content = true
         /\ outcome = Returned (final_text v ++ appended
                                ++ [default EmptyString result_content])
                        (state v)
         /\ e' = mkEnv w1 (trace e ++ [Dispatch name id]))
        \/ (is_insufficient result_content = false
            /\ exists state' response',
                 match memoized name result_content with
                 | Some r => store_result (state v) id name r = Ok state'
                 | None => state' = state v
                 end
                 /\ ask updated w1 = Ok (response', world e')
                 /\ outcome = Broke (mkVars updated response'
                                       (final_text v ++ appended) state')
                 /\ trace e' = trace e ++ [Dispatch name id;
                                           ModelCall updated])).
Proof.
  unfold tool_use_branch, bind at 1. rewrite emit_ok.
  intros H. apply bind_ok in H as ([[updated rc] appended] & e1 & Hcall & H).
  apply external_inv in Hcall as [Hcall Ht1]. cbn [world trace] in Hcall, Ht1.
  exists updated, rc, appended, (world e1). split; [exact Hcall|].
  destruct (is_insufficient rc) eqn:Hins.
  - left. split; [reflexivity|]. cbn [ret] in H. injection H as <- <-.
    split; [rewrite <- app_assoc; reflexivity|].
    destruct e1 as [w1 t1]. cbn [trace world] in *. subst t1. reflexivity.
  - right. split; [reflexivity|].
    apply bind_ok in H as (state' & e2 & Hstore & H).
    apply bind_ok in H as (response' & e3 & Hask & H).
    cbn [ret] in H. injection H as <- <-.
    unfold call_model in Hask.
    apply bind_ok in Hask as ([] & e4 & Hemit & Hask).
    rewrite emit_ok in Hemit. injection Hemit as <-.
    apply external_inv in Hask as [Hask Ht3]. cbn [world trace] in Hask, Ht3.
    exists state', response'.
    assert (He2 : e2 = e1 /\
                  match memoized name rc with
                  | Some r => store_result (state v) id name r = Ok state'
                  | None => state' = state v
                  end).
    { destruct (memoized name rc) as [r|].
      - apply lift_inv in Hstore as [Hs ->]. split; [reflexivity|exact Hs].
      - cbn [ret] in Hstore. injection Hstore as <- <-. split; reflexivity. }
    destruct He2 as [-> Hmemo].
    split; [exact Hmemo|]. split; [exact Hask|]. split; [reflexivity|].
    rewrite Ht3, Ht1, <- app_assoc. reflexivity.
Qed.

Lemma branch_broke (content : Block) (name : string) (args : json)
    (id : string) (amc : list Block) (v : Vars) (e : Env W)
    (updated : list Message) (result_content : option string)
    (appended : list string) (w1 w2 : W) (state' : State)
    (response' : Response) :
  dispatch name args id content amc v (world e)
    = Ok ((updated, result_content, appended), w1) ->
  is_insufficient result_content = false ->
  match memoized name result_content with
  | Some r => store_result (state v) id name r = Ok state'
  | None => state' = state v
  end ->
  ask updated w1 = Ok (response', w2) ->
  branch content name args id amc v e
  = Ok (Broke (mkVars updated response' (final_text v ++ appended) state'),
        mkEnv w2 (trace e ++ [Dispatch name id; ModelCall updated])).
Proof.
  intros Hcall Hins Hmemo Hask.
  unfold tool_use_branch, bind at 1. rewrite emit_ok. unfold bind at 1.
  erewrite external_ok by (cbn [world]; exact Hcall).
  cbv beta iota zeta. rewrite Hins. unfold bind at 1.
  assert (Hst : (match memoized name result_content with
                 | Some r => lift (store_result (state v) id name r)
                 | None => ret (state v)
                 end) (mkEnv w1 (trace e ++ [Dispatch name id]))
                = Ok (state', mkEnv w1 (trace e ++ [Dispatch name id]))).
  { destruct (memoized name result_content).
    - rewrite Hmemo. reflexivity.
    - subst state'. reflexivity. }
  cbn [trace]. rewrite Hst. unfold call_model, bind at 1, bind at 1.
  rewrite emit_ok.
  erewrite external_ok by (cbn [world]; exact Hask).
  cbn [trace ret]. rewrite <- app_assoc. reflexivity.
Qed.

Local Abbreviation loop :=
  (while_loop provider user_id langfuse_session_id available_tools
     current_system_prompt).

Lemma loop_exit (fuel : nat) (max_iterations i : Z) (v : Vars) (e : Env W) :
  (max_iterations <= i)%Z ->
  loop fuel max_iterations i v e = Ok ((final_text v, state v, i), e).
Proof.
  intros Hle. destruct fuel; cbn [while_loop];
    (replace (i <? max_iterations)%Z with false by (symmetry; lia));
    reflexivity.
Qed.

Lemma loop_round (fuel : nat) (max_iterations i : Z) (v : Vars) (e : Env W)
    (contents : list Block) :
  (i < max_iterations)%Z ->
  response_contents provider (response v) = Ok contents ->
  loop (S fuel) max_iterations i v e
  = match scan_round contents [] v e with
    | Ok (Returned final_text state', e') => Ok ((final_text, state', i), e')
    | Ok (NoToolCalls final_text, e') => Ok ((final_text, state v, i), e')
    | Ok (Broke v', e') =>
        loop fuel max_iterations (i + 1) v'
          (if (i + 1 =? max_iterations)%Z
           then mkEnv (world e')
                  (trace e' ++ [Printed (max_iterations_warning
                                           max_iterations)])
           else e')
    | Raise x => Raise x
    end.
Proof.
  intros Hlt Hc. cbn [while_loop].
  replace (i <? max_iterations)%Z with true by (symmetry; lia).
  cbn [negb]. unfold bind at 1. rewrite Hc. cbn [lift]. unfold bind at 1.
  destruct (scan_round contents [] v e) as [[[ft st'|v'|ft] e']|x];
    try reflexivity.
  unfold bind at 1. destruct (i + 1 =? max_iterations)%Z; reflexivity.
Qed.

(** C2. In any round of the loop, when the result that the dispatcher
    gives for the tool call of the round begins with
    [STEP_FAILED_INSUFFICIENT_CONTEXT], the run returns at once: the
    output is the buffer so far followed by that result as its last
    element, the session state is left as it was, and the trace gains the
    dispatch and no call to the model. *)
Theorem insufficient_context_ends_the_run
    (fuel : nat) (max_iterations i : Z) (v : Vars) (e : Env W)
    (pre rest : list Block) (name : string) (args : json) (id : string)
    (updated : list Message) (r : string) (appended : list string)
    (w' : W) :
  (i < max_iterations)%Z ->
  response_contents provider (response v)
    = Ok (pre ++ ToolUse name args id :: rest) ->
  no_tool_use pre = true ->
  dispatch name args id (ToolUse name args id) (text_blocks pre)
    (after_texts v pre) (world e)
    = Ok ((updated, Some r, appended), w') ->
  startswith r SENTINEL = true ->
  exists output,
    loop (S fuel) max_iterations i v e
    = Ok ((output, state v, i), mkEnv w' (trace e ++ [Dispatch name id]))
    /\ output = final_text v ++ texts_of pre ++ appended ++ [r]
    /\ list.last output = Some r
    /\ model_calls (trace e ++ [Dispatch name id]) = model_calls (trace e).
Proof.
  intros Hlt Hc Hpre Hcall Hsent.
  exists (final_text v ++ texts_of pre ++ appended ++ [r]).
  split; [|split; [reflexivity|split]].
  - rewrite (loop_round _ _ _ _ _ _ Hlt Hc).
    rewrite scan_prefix by exact Hpre. cbn [scan app].
    erewrite branch_returned by (first [exact Hcall | exact Hsent]).
    unfold after_texts. cbn [final_text state]. rewrite <- !app_assoc.
    reflexivity.
  - rewrite !app_assoc. apply last_snoc.
  - rewrite model_calls_app. cbn. lia.
Qed.

(** A scan ends at the end of the contents, or in the branch of the first
    tool call. *)
Lemma scan_inv (contents amc : list Block) (v : Vars) (e e' : Env W)
    (outcome : Scan) :
  scan_round contents amc v e = Ok (outcome, e') ->
  (outcome = NoToolCalls (final_text v ++ texts_of contents)
   /\ e' = e /\ no_tool_use contents = true)
  \/ exists pre name args id rest,
       contents = pre ++ ToolUse name args id :: rest
       /\ no_tool_use pre = true
       /\ branch (ToolUse name args id) name args id
            (amc ++ text_blocks pre) (after_texts v pre) e
          = Ok (outcome, e').
Proof.
  revert amc v. induction contents as [|b contents IH]; intros amc v H.
  - left. cbn in H. injection H as <- <-. rewrite app_nil_r.
    repeat split; reflexivity.
  - destruct b as [t|n a i|ty]; cbn [scan] in H.
    + apply IH in H as [(-> & -> & Hno)|(pre & n & a & i & rest & -> & Hno & H)].
      * left. cbn [final_text texts_of flat_map app].
        rewrite <- app_assoc. repeat split; try reflexivity. exact Hno.
      * right. exists (Text t :: pre), n, a, i, rest.
        split; [reflexivity|]. split; [exact Hno|].
        unfold after_texts in *.
        cbn [messages response final_text state texts_of flat_map
             text_blocks List.filter is_text app] in *.
        rewrite <- !app_assoc in H. exact H.
    + right. exists [], n, a, i, contents.
      split; [reflexivity|]. split; [reflexivity|].
      unfold after_texts. cbn [text_blocks List.filter texts_of flat_map].
      rewrite !app_nil_r. destruct v; exact H.
    + apply IH in H as [(-> & -> & Hno)|(pre & n & a & i & rest & -> & Hno & H)].
      * left. repeat split; try reflexivity. exact Hno.
      * right. exists (OtherBlock ty :: pre), n, a, i, rest.
        split; [reflexivity|]. split; [exact Hno|]. exact H.
Qed.

(** What a scan adds to the trace, by the way it ends. *)
Lemma scan_trace (contents amc : list Block) (v : Vars) (e e' : Env W)
    (outcome : Scan) :
  scan_round contents amc v e = Ok (outcome, e') ->
  match outcome with
  | NoToolCalls _ => trace e' = trace e
  | Returned _ _ => exists name id, trace e' = trace e ++ [Dispatch name id]
  | Broke v' =>
      exists name id,
        trace e' = trace e ++ [Dispatch name id; ModelCall (messages v')]
  end.
Proof.
  intros H.
  apply scan_inv in H as [(-> & -> & _)|(pre & n & a & i & rest & _ & _ & H)];
    [reflexivity|].
  apply branch_inv in H
    as (upd & rc & app & w1 & _ & [(_ & -> & ->)|(_ & st' & r' & _ & _ & -> & Ht)]).
  - exists n, i. reflexivity.
  - exists n, i. exact Ht.
Qed.

(** The round counter of any run that returns: it goes up by one for
    every round that ended with a tool call and the next call to the
    model, it never passes [max_iterations], and the warning is printed
    exactly when it reaches [max_iterations]. *)
Lemma loop_counter (fuel : nat) (max_iterations i j : Z) (v : Vars)
    (e e' : Env W) (output : list string) (st : State) :
  loop fuel max_iterations i v e = Ok ((output, st, j), e') ->
  (i <= j)%Z
  /\ ((i <= max_iterations)%Z -> (j <= max_iterations)%Z)
  /\ model_calls (trace e') = model_calls (trace e) + Z.to_nat (j - i)
  /\ printed_lines (trace e')
     = printed_lines (trace e)
       ++ (if (i <? max_iterations)%Z && (j =? max_iterations)%Z
           then [max_iterations_warning max_iterations] else []).
Proof.
  revert i v e. induction fuel as [|fuel IH]; intros i v e H.
  - cbn [while_loop] in H. destruct (Z.ltb_spec i max_iterations) as [Hlt|Hge];
      [discriminate|]. cbn in H. injection H as <- <- <- <-.
    counter_done.
  - destruct (Z.ltb_spec i max_iterations) as [Hlt|Hge].
    + destruct (response_contents provider (response v)) as [contents|x] eqn:Hc.
      2:{ cbn [while_loop] in H.
          replace (i <? max_iterations)%Z with true in H by (symmetry; lia).
          cbn [negb] in H. unfold bind at 1 in H. rewrite Hc in H.
          discriminate. }
      rewrite (loop_round _ _ _ _ _ _ Hlt Hc) in H.
      destruct (scan_round contents [] v e) as [[outcome e1]|x] eqn:Hscan;
        [|discriminate].
      pose proof (scan_trace _ _ _ _ _ _ Hscan) as Ht.
      destruct outcome as [ft st'|v'|ft].
      * injection H as <- <- <- <-. destruct Ht as (n & id & ->).
        counter_done.
      * apply IH in H as (Hij & Hmax & Hcalls & Hprint).
        destruct Ht as (n & id & Ht).
        rewrite Hcalls, Hprint.
        destruct (Z.eqb_spec (i + 1) max_iterations) as [Heq|Hne];
          cbn [trace]; rewrite Ht; counter_done.
      * injection H as <- <- <- <-. rewrite Ht. counter_done.
    + rewrite loop_exit in H by lia. injection H as <- <- <- <-.
      counter_done.
Qed.

(** The output of a run that returns is the buffer it started with,
    followed by what its rounds added. *)
Lemma loop_output_extends (fuel : nat) (max_iterations : Z) :
  forall (i j : Z) (v : Vars) (e e' : Env W) (output : list string)
         (st : State),
    loop fuel max_iterations i v e = Ok ((output, st, j), e') ->
    exists added, output = final_text v ++ added.
Proof.
  induction fuel as [|fuel IH]; intros i j v e e' output st H.
  - cbn [while_loop] in H. destruct (i <? max_iterations)%Z; [discriminate|].
    cbn in H. injection H as <- <- <- <-. exists []. rewrite app_nil_r.
    reflexivity.
  - destruct (Z.ltb_spec i max_iterations) as [Hlt|Hge].
    2:{ rewrite loop_exit in H by lia. injection H as <- <- <- <-.
        exists []. rewrite app_nil_r. reflexivity. }
    destruct (response_contents provider (response v)) as [contents|x] eqn:Hc.
    2:{ cbn [while_loop] in H.
        replace (i <? max_iterations)%Z with true in H by (symmetry; lia).
        cbn [negb] in H. unfold bind at 1 in H. rewrite Hc in H.
        discriminate. }
    rewrite (loop_round _ _ _ _ _ _ Hlt Hc) in H.
    destruct (scan_round contents [] v e) as [[outcome e1]|x] eqn:Hscan;
      [|discriminate].
    apply scan_inv in Hscan
      as [(-> & -> & _)|(pre & n & a & id & rest & _ & _ & Hb)].
    + injection H as <- <- <- <-. eexists. reflexivity.
    + apply branch_inv in Hb
        as (upd & rc & app & w1 & _ &
            [(_ & -> & ->)|(_ & st' & r' & _ & _ & -> & _)]).
      * injection H as <- <- <- <-. unfold after_texts. cbn [final_text].
        rewrite <- app_assoc. eexists. reflexivity.
      * apply IH in H as (added & ->). unfold after_texts.
        cbn [final_text]. rewrite <- !app_assoc. eexists. reflexivity.
Qed.

Lemma store_result_some (st : State) (id name r : string) :
  is_Some (tool_results st) ->
  exists st', store_result st id name r = Ok st'
              /\ is_Some (tool_results st').
Proof.
  intros [cache Hc]. unfold store_result. rewrite Hc.
  eexists. split; [reflexivity|]. cbn. eexists. reflexivity.
Qed.

(** With a provider that asks for a tool in every response and a
    dispatcher that answers every call, the loop runs exactly as many
    rounds as the cap allows. *)
Lemma loop_always_tool (k : nat) :
  (forall msgs w, exists response' w',
      ask msgs w = Ok (response', w') /\ requests_tool provider response') ->
  (forall name args id content amc msgs st ft w,
      exists updated result_content appended w',
        process_tool_call name args id content amc msgs st ft user_id
          provider (langfuse_session_id, user_id) w
        = Ok ((updated, result_content, appended), w')
        /\ is_insufficient result_content = false) ->
  forall (fuel : nat) (i : Z) (v : Vars) (e : Env W),
    k <= fuel ->
    requests_tool provider (response v) ->
    is_Some (tool_results (state v)) ->
    exists output st e',
      loop fuel (i + Z.of_nat k) i v e
      = Ok ((output, st, (i + Z.of_nat k)%Z), e')
      /\ dispatches (trace e') = dispatches (trace e) + k.
Proof.
  intros Hmodel Hproc. induction k as [|k IH]; intros fuel i v e Hfuel Hreq Hst.
  - exists (final_text v), (state v), e. rewrite Z.add_0_r.
    split; [apply loop_exit; lia|lia].
  - destruct fuel as [|fuel]; [lia|].
    destruct Hreq as (pre & name & args & id & rest & Hc & Hpre).
    rewrite (loop_round fuel (i + Z.of_nat (S k)) i v e _ ltac:(lia) Hc).
    rewrite scan_prefix by exact Hpre. cbn [scan app].
    destruct (Hproc name args id (ToolUse name args id) (text_blocks pre)
                (messages (after_texts v pre)) (state (after_texts v pre))
                (final_text (after_texts v pre)) (world e))
      as (updated & rc & appended & w1 & Hcall & Hins).
    assert (Hmemo : exists st',
               match memoized name rc with
               | Some r => store_result (state (after_texts v pre)) id name r
                           = Ok st'
               | None => st' = state (after_texts v pre)
               end /\ is_Some (tool_results st')).
    { destruct (memoized name rc) as [r|].
      - apply store_result_some. exact Hst.
      - eexists. split; [reflexivity|exact Hst]. }
    destruct Hmemo as (st' & Hmemo & Hst').
    destruct (Hmodel updated w1) as (response' & w2 & Hask & Hreq').
    rewrite (branch_broke _ _ _ _ _ _ _ _ _ _ _ _ _ _ Hcall Hins Hmemo Hask).
    replace (i + Z.of_nat (S k))%Z with (i + 1 + Z.of_nat k)%Z by lia.
    match goal with
    | |- context [loop fuel _ _ ?v' ?e'] =>
        destruct (IH fuel (i + 1)%Z v' e' ltac:(lia) Hreq' Hst')
          as (output & st & e3 & Hloop & Hd)
    end.
    exists output, st, e3. split; [exact Hloop|].
    rewrite Hd. destruct (i + 1 =? i + 1 + Z.of_nat k)%Z; cbn [trace];
      rewrite ?dispatches_app; cbn; lia.
Qed.

End StepRounds.

(** ** The iteration cap of [StepExecutor] *)

Section IterationCap.
Context `{PB : Builtins} {W : Type} {CO : StepExecutor.Collaborators W}.
Import StepExecutor.

(** C4. The round counter goes up by one for every round that had a tool
    call and led to the next call to the model; it never passes
    [max_iterations]. When the counter has reached [max_iterations] the
    loop exits and returns the output buffer and the session state as
    the rounds left them; a round that brings the counter to
    [max_iterations] is completed first (dispatch, memoization, next call
    to the model) and then the warning is printed. With a provider that
    asks for a tool in every response, a run capped at [max_iterations]
    returns after exactly [max_iterations] rounds: that many tool calls,
    one more call to the model (the first one), the warning, and no
    exception. With [max_iterations = 1] one round runs, and the run
    returns the partial output of that round: the texts before the tool
    call and what the dispatcher added. *)
Theorem round_counter_and_iteration_cap
    (provider : ModelProvider) (user_id : string)
    (langfuse_session_id : option string) :
  let data := (langfuse_session_id, user_id) in
  (forall (available_tools : list json) (current_system_prompt : string)
          (fuel : nat) (max_iterations i j : Z) (v : Vars) (e e' : Env W)
          (output : list string) (st : State),
      while_loop provider user_id langfuse_session_id available_tools
        current_system_prompt fuel max_iterations i v e
      = Ok ((output, st, j), e') ->
      (i <= j)%Z
      /\ ((i <= max_iterations)%Z -> (j <= max_iterations)%Z)
      /\ model_calls (trace e') = model_calls (trace e) + Z.to_nat (j - i)
      /\ printed_lines (trace e')
         = printed_lines (trace e)
           ++ (if (i <? max_iterations)%Z && (j =? max_iterations)%Z
               then [max_iterations_warning max_iterations] else [])
      /\ exists added, output = final_text v ++ added)
  /\ (forall (available_tools : list json) (current_system_prompt : string)
             (fuel : nat) (max_iterations i : Z) (v : Vars) (e : Env W),
         (max_iterations <= i)%Z ->
         while_loop provider user_id langfuse_session_id available_tools
           current_system_prompt fuel max_iterations i v e
         = Ok ((final_text v, state v, i), e))
  /\ (forall (available_tools : list json) (current_system_prompt : string)
             (fuel : nat) (max_iterations i : Z) (v : Vars) (e : Env W)
             (pre rest : list Block) (name : string) (args : json)
             (id : string) (updated : list Message)
             (result_content : option string) (appended : list string)
             (w1 w2 : W) (state' : State) (response' : Response),
         (i < max_iterations)%Z ->
         response_contents provider (response v)
           = Ok (pre ++ ToolUse name args id :: rest) ->
         no_tool_use pre = true ->
         process_tool_call name args id (ToolUse name args id)
           (text_blocks pre) (messages v) (state v)
           (final_text v ++ texts_of pre) user_id provider data (world e)
         = Ok ((updated, result_content, appended), w1) ->
         is_insufficient result_content = false ->
         match memoized name result_content with
         | Some r => store_result (state v) id name r = Ok state'
         | None => state' = state v
         end ->
         create_message provider updated available_tools
           current_system_prompt data w1 = Ok (response', w2) ->
         while_loop provider user_id langfuse_session_id available_tools
           current_system_prompt (S fuel) max_iterations i v e
         = while_loop provider user_id langfuse_session_id available_tools
             current_system_prompt fuel max_iterations (i + 1)
             (mkVars updated response'
                (final_text v ++ texts_of pre ++ appended) state')
             (mkEnv w2
                (trace e ++ [Dispatch name id; ModelCall updated]
                 ++ (if (i + 1 =? max_iterations)%Z
                     then [Printed (max_iterations_warning max_iterations)]
                     else []))))
  /\ ((forall tools prompt msgs w, exists response' w',
          create_message provider msgs tools prompt data w
          = Ok (response', w')
          /\ requests_tool provider response') ->
      (forall name args id content amc msgs st ft w,
          exists updated result_content appended w',
            process_tool_call name args id content amc msgs st ft user_id
              provider data w
            = Ok ((updated, result_content, appended), w')
            /\ is_insufficient result_content = false) ->
      (forall toolkits w, exists listed w',
          get_toolkits_from_arcade provider toolkits w = Ok (listed, w')) ->
      forall (self : Self) (input_action : string)
             (system_prompt : option string) (state : State)
             (max_iterations : Z) (e : Env W),
        (0 <= max_iterations)%Z ->
        is_Some (tool_results state) ->
        exists output st e',
          process_input_with_agent_loop self input_action provider user_id
            system_prompt langfuse_session_id (Some state) max_iterations e
          = Ok ((output, st, max_iterations), e')
          /\ dispatches (trace e')
             = dispatches (trace e) + Z.to_nat max_iterations
          /\ model_calls (trace e')
             = model_calls (trace e) + 1 + Z.to_nat max_iterations
          /\ printed_lines (trace e')
             = printed_lines (trace e)
               ++ (if (0 <? max_iterations)%Z
                   then [max_iterations_warning max_iterations] else []))
  /\ (forall (self : Self) (input_action : string) (given : option string)
             (st0 : State) (e e0 : Env W) (catalog : list json)
             (response0 : Response) (w1 : W) (pre rest : list Block)
             (name : string) (args : json) (id : string)
             (updated : list Message) (result_content : option string)
             (appended : list string) (w2 : W) (state' : State)
             (response1 : Response) (w3 : W),
         let opening :=
           [mkMessage user
              (Plain (if str_bool (user_context self)
                      then input_action +:+ nl +:+ nl +:+ "USER CONTEXT:"
                           +:+ nl +:+ user_context self
                      else input_action))] in
         let prompt := prompt_or_default self given in
         (match tools st0 with
          | Some (t :: ts) => ret (t :: ts)
          | _ => get_all_tools self provider
          end) e = Ok (catalog, e0) ->
         create_message provider opening catalog prompt data (world e0)
         = Ok (response0, w1) ->
         response_contents provider response0
           = Ok (pre ++ ToolUse name args id :: rest) ->
         no_tool_use pre = true ->
         process_tool_call name args id (ToolUse name args id)
           (text_blocks pre) opening st0 (texts_of pre) user_id provider
           data w1
         = Ok ((updated, result_content, appended), w2) ->
         is_insufficient result_content = false ->
         match memoized name result_content with
         | Some r => store_result st0 id name r = Ok state'
         | None => state' = st0
         end ->
         create_message provider updated catalog prompt data w2
         = Ok (response1, w3) ->
         process_input_with_agent_loop self input_action provider user_id
           given langfuse_session_id (Some st0) 1 e
         = Ok ((texts_of pre ++ appended, state', 1%Z),
               mkEnv w3
                 (trace e0
                  ++ [ModelCall opening; Dispatch name id; ModelCall updated;
                      Printed (max_iterations_warning 1)]))).
Proof.
  cbn zeta.
  assert (Hround : forall (available_tools : list json)
             (current_system_prompt : string)
             (fuel : nat) (max_iterations i : Z) (v : Vars) (e : Env W)
             (pre rest : list Block) (name : string) (args : json)
             (id : string) (updated : list Message)
             (result_content : option string) (appended : list string)
             (w1 w2 : W) (state' : State) (response' : Response),
         (i < max_iterations)%Z ->
         response_contents provider (response v)
           = Ok (pre ++ ToolUse name args id :: rest) ->
         no_tool_use pre = true ->
         process_tool_call name args id (ToolUse name args id)
           (text_blocks pre) (messages v) (state v)
           (final_text v ++ texts_of pre) user_id provider
           (langfuse_session_id, user_id) (world e)
         = Ok ((updated, result_content, appended), w1) ->
         is_insufficient result_content = false ->
         match memoized name result_content with
         | Some r => store_result (state v) id name r = Ok state'
         | None => state' = state v
         end ->
         create_message provider updated available_tools
           current_system_prompt (langfuse_session_id, user_id) w1
         = Ok (response', w2) ->
         while_loop provider user_id langfuse_session_id available_tools
           current_system_prompt (S fuel) max_iterations i v e
         = while_loop provider user_id langfuse_session_id available_tools
             current_system_prompt fuel max_iterations (i + 1)
             (mkVars updated response'
                (final_text v ++ texts_of pre ++ appended) state')
             (mkEnv w2
                (trace e ++ [Dispatch name id; ModelCall updated]
                 ++ (if (i + 1 =? max_iterations)%Z
                     then [Printed (max_iterations_warning max_iterations)]
                     else [])))).
  { intros tools prompt fuel max_iterations i v e pre rest name args id
      updated rc appended w1 w2 st' response' Hlt Hc Hpre Hcall Hins Hmemo
      Hask.
    rewrite (loop_round _ _ _ _ _ _ _ _ _ _ _ Hlt Hc).
    rewrite scan_prefix by exact Hpre. cbn [scan app].
    rewrite (branch_broke provider user_id langfuse_session_id tools prompt
               (ToolUse name args id) name args id (text_blocks pre)
               (after_texts v pre) e updated rc appended w1 w2 st' response'
               Hcall Hins Hmemo Hask).
    unfold after_texts. cbn [final_text world trace].
    rewrite <- !app_assoc.
    destruct (i + 1 =? max_iterations)%Z; cbn [app];
      rewrite ?app_nil_r; reflexivity. }
  split; [|split; [|split; [|split]]].
  - intros tools prompt fuel max_iterations i j v e e' output st H.
    pose proof (loop_output_extends _ _ _ _ _ _ _ _ _ _ _ _ _ _ H) as Hout.
    apply loop_counter in H as (H1 & H2 & H3 & H4).
    repeat split; assumption.
  - intros. apply loop_exit. assumption.
  - exact Hround.
  - intros Hmodel Hproc Hreg self input_action system_prompt state0
      max_iterations e Hmax Hst.
    unfold process_input_with_agent_loop.
    set (msgs := [mkMessage user _]).
    set (prompt := prompt_or_default self system_prompt).
    assert (Htools : exists catalog e1,
               (match tools state0 with
                | Some (t :: ts) => ret (t :: ts)
                | _ => get_all_tools self provider
                end) e = Ok (catalog, e1) /\ trace e1 = trace e).
    { assert (Hall : exists catalog e1,
                 get_all_tools self provider e = Ok (catalog, e1)
                 /\ trace e1 = trace e).
      { destruct (Hreg (enabled_toolkits self) (world e)) as (l & w1 & Hl).
        unfold get_all_tools. eexists _, _.
        erewrite bind_step by (apply external_ok, Hl).
        split; reflexivity. }
      destruct (tools state0) as [[|t ts]|]; try exact Hall.
      eexists _, _. split; reflexivity. }
    destruct Htools as (catalog & e1 & Htools & Ht1).
    rewrite (bind_step _ _ _ _ _ Htools).
    destruct (Hmodel catalog prompt msgs (world e1)) as (r0 & w2 & Hask & Hreq).
    unfold call_model at 1. unfold bind at 1, bind at 1. rewrite emit_ok.
    erewrite external_ok by (cbn [world]; exact Hask).
    cbn [trace].
    match goal with
    | |- context [while_loop _ _ _ _ _ ?f ?m ?i ?v ?e2] =>
        destruct (loop_always_tool provider user_id langfuse_session_id
                    catalog prompt (Z.to_nat max_iterations)
                    (Hmodel catalog prompt) Hproc f 0%Z v e2
                    ltac:(lia) Hreq Hst)
          as (output & st & e3 & Hloop & Hd)
    end.
    rewrite Z2Nat.id, Z.add_0_l in Hloop by exact Hmax.
    exists output, st, e3. split; [exact Hloop|].
    apply loop_counter in Hloop as (_ & _ & Hcalls & Hprint).
    cbn [trace] in Hd, Hcalls, Hprint.
    rewrite Hd, Hcalls, Hprint, Ht1, Z.sub_0_r.
    rewrite Z.eqb_refl, andb_true_r.
    counter_done.
  - intros self input_action given st0 e e0 catalog response0 w1 pre rest
      name args id updated rc appended w2 st' response1 w3
      Hcat Hask0 Hc Hpre Hcall Hins Hmemo Hask1.
    unfold process_input_with_agent_loop.
    set (opening := [mkMessage user _]) in *.
    set (prompt := prompt_or_default self given) in *.
    rewrite (bind_step _ _ _ _ _ Hcat).
    unfold call_model at 1. unfold bind at 1, bind at 1. rewrite emit_ok.
    erewrite external_ok by (cbn [world]; exact Hask0).
    cbn [trace world]. change (Z.to_nat 1) with 1.
    rewrite (Hround catalog prompt 0 1%Z 0%Z
               (mkVars opening response0 [] st0)
               (mkEnv w1 (trace e0 ++ [ModelCall opening]))
               pre rest name args id updated rc appended w2 w3 st' response1
               ltac:(lia) Hc Hpre Hcall Hins Hmemo Hask1).
    rewrite loop_exit by lia.
    cbn [final_text state trace app Z.add Z.eqb Pos.eqb].
    rewrite <- !app_assoc. reflexivity.
Qed.

End IterationCap.

Lemma insufficient_context_ends_the_run_example :
  let opening := [mkMessage user (Plain "what is on my calendar today?")] in
  let reason := JDict [("reason", JStr "missing calendar access")] in
  let v :=
    StepExecutor.mkVars opening
      (StepExecutor.AnthropicResponse
         [Text "I cannot see a calendar.";
          ToolUse "signal_insufficient_context" reason "toolu_1";
          ToolUse "Search.Web" (JDict []) "toolu_2"])
      [] Examples.empty_state in
  exists output,
    StepExecutor.while_loop (CO := Examples.scripted) StepExecutor.ANTHROPIC
      "user-1" None [] "You are a helpful assistant." 25 25 0 v
      (mkEnv [] [ModelCall opening])
    = Ok ((output, Examples.empty_state, 0%Z),
          mkEnv [] ([ModelCall opening]
                    ++ [Dispatch "signal_insufficient_context" "toolu_1"]))
    /\ output
       = [] ++ ["I cannot see a calendar."]
         ++ ["[Calling tool signal_insufficient_context]"]
         ++ ["STEP_FAILED_INSUFFICIENT_CONTEXT: missing calendar access"]
    /\ list.last output
       = Some "STEP_FAILED_INSUFFICIENT_CONTEXT: missing calendar access"
    /\ model_calls ([ModelCall opening]
                    ++ [Dispatch "signal_insufficient_context" "toolu_1"])
       = model_calls [ModelCall opening].
Proof.
  cbn zeta.
  apply (insufficient_context_ends_the_run (CO := Examples.scripted)
           StepExecutor.ANTHROPIC "user-1" None []
           "You are a helpful assistant." 24 25 0
           (StepExecutor.mkVars
              [mkMessage user (Plain "what is on my calendar today?")]
              (StepExecutor.AnthropicResponse
                 [Text "I cannot see a calendar.";
                  ToolUse "signal_insufficient_context"
                    (JDict [("reason", JStr "missing calendar access")])
                    "toolu_1";
                  ToolUse "Search.Web" (JDict []) "toolu_2"])
              [] Examples.empty_state)
           (mkEnv [] [ModelCall
                        [mkMessage user
                           (Plain "what is on my calendar today?")]])
           [Text "I cannot see a calendar."]
           [ToolUse "Search.Web" (JDict []) "toolu_2"]
           "signal_insufficient_context"
           (JDict [("reason", JStr "missing calendar access")]) "toolu_1"
           (MCPHost.with_tool_exchange
              [mkMessage user (Plain "what is on my calendar today?")]
              [Text "I cannot see a calendar.";
               ToolUse "signal_insufficient_context"
                 (JDict [("reason", JStr "missing calendar access")])
                 "toolu_1"]
              "toolu_1"
              (RStr "STEP_FAILED_INSUFFICIENT_CONTEXT: missing calendar access"))
           "STEP_FAILED_INSUFFICIENT_CONTEXT: missing calendar access"
           ["[Calling tool signal_insufficient_context]"] []).
  - lia.
  - reflexivity.
  - reflexivity.
  - reflexivity.
  - reflexivity.
Defined.

Lemma round_counter_and_iteration_cap_example :
  let opening := [mkMessage user (Plain "plan my day")] in
  let first := JDict [("query", JStr "agenda")] in
  let call := ToolUse "Search.Web" first "call_0" in
  let updated :=
    opening
    ++ [mkMessage assistant
          (Blocks [Echo (Text "Let me look that up."); Echo call]);
        mkMessage user
          (Blocks [ToolResult "call_0" (RStr "done: Search.Web")])] in
  StepExecutor.process_input_with_agent_loop (CO := Examples.eager)
    Examples.example_self "plan my day" StepExecutor.ANTHROPIC "user-1"
    None None (Some Examples.empty_state) 1 (mkEnv 0 [])
  = Ok ((["Let me look that up."; "[Calling tool Search.Web]"],
         StepExecutor.mkState None None
           (Some (<[ "call_0" := ("Search.Web", "done: Search.Web") ]> ∅)),
         1%Z),
        mkEnv 2
          [ModelCall opening; Dispatch "Search.Web" "call_0";
           ModelCall updated;
           Printed (StepExecutor.max_iterations_warning 1)]).
Proof.
  cbn zeta.
  pose proof (round_counter_and_iteration_cap (CO := Examples.eager)
                StepExecutor.ANTHROPIC "user-1" None) as H.
  cbv zeta in H. destruct H as (_ & _ & _ & _ & Hone).
  etransitivity.
  - eapply (Hone Examples.example_self "plan my day" None
              Examples.empty_state (mkEnv 0 []) _ _ _ _
              [Text "Let me look that up."] []);
      [reflexivity|reflexivity|reflexivity|reflexivity|reflexivity
      |reflexivity|reflexivity|reflexivity].
  - reflexivity.
Defined.

(** ** The rounds of [MCPHost] *)

Section HostRounds.
Context `{PB : Builtins} {W : Type} {CO : MCPHost.Collaborators W}.
Import MCPHost.

Variables (self : Self) (available_tools : list json)
          (current_system_prompt : string).

Local Abbreviation host_scan :=
  (scan self available_tools current_system_prompt).
Local Abbreviation host_branch :=
  (tool_use_branch self available_tools current_system_prompt).
Local Abbreviation host_ask msgs :=
  (messages_create "claude-3-5-sonnet-20241022" 4096 current_system_prompt
     msgs available_tools).

Lemma host_scan_prefix (pre rest amc : list Block) (v : Vars) (e : Env W) :
  no_tool_use pre = true ->
  host_scan (pre ++ rest) amc v e
  = host_scan rest (amc ++ text_blocks pre) (host_after_texts v pre) e.
Proof.
  revert amc v. induction pre as [|b pre IH]; intros amc v Hpre.
  - unfold host_after_texts. cbn. rewrite !app_nil_r. destruct v; reflexivity.
  - cbn in Hpre. apply andb_prop in Hpre as [Hb Hpre].
    destruct b as [t|n a i|ty]; [| discriminate |].
    + cbn [app scan]. rewrite IH by exact Hpre.
      unfold host_after_texts.
      cbn [messages response final_text tool_results_context texts_of
           flat_map text_blocks List.filter is_text].
      rewrite <- !app_assoc. reflexivity.
    + cbn [app scan]. rewrite IH by exact Hpre. reflexivity.
Qed.

(** The dispatcher only adds printed lines to the trace, and a reference
    to an earlier result leaves nothing to memoize. *)
Lemma process_tool_call_trace (name : string) (args : json) (id : string)
    (content : Block) (amc : list Block) (msgs : list Message)
    (ctx : gmap string ResultContent) (e e1 : Env W) (h : Handled) :
  _process_tool_call self name args id content amc msgs ctx e = Ok (h, e1) ->
  (exists lines, trace e1 = trace e ++ map Printed lines)
  /\ (name = "reference_tool_output" -> snd (fst h) = RNone).
Proof.
  unfold _process_tool_call.
  destruct (String.eqb_spec name "reference_tool_output") as [->|Hnr].
  - intros H. apply bind_ok in H as ([um rc] & e2 & Hh & H).
    apply lift_inv in Hh as [Hh ->]. cbn [ret] in H. injection H as <- <-.
    split; [exists []; cbn; rewrite app_nil_r; reflexivity|].
    intros _. unfold _handle_reference_tool in Hh.
    repeat match type of Hh with
           | match ?x with _ => _ end = _ =>
               destruct x; try discriminate Hh
           end.
    injection Hh as <- <-. reflexivity.
  - destruct (String.eqb name "access_resource").
    + intros H. split; [|intros ->; congruence].
      unfold _handle_resource_access in H.
      apply bind_ok in H as (uri & e2 & H1 & H). apply lift_inv in H1 as [_ ->].
      apply bind_ok in H as (cl & e2 & H1 & H). apply lift_inv in H1 as [_ ->].
      apply bind_ok in H as (nm & e2 & H1 & H). apply lift_inv in H1 as [_ ->].
      apply bind_ok in H as (rr & e2 & H1 & H).
      apply external_inv in H1 as [_ Ht]. cbn [ret] in H. injection H as <- <-.
      exists []. cbn. rewrite app_nil_r. exact Ht.
    + intros H. split; [|intros ->; congruence].
      unfold _handle_standard_tool in H.
      apply bind_ok in H as ([rc app] & e2 & H1 & H).
      cbn [ret] in H. injection H as <- <-.
      destruct (tool_to_client_map self !! name) as [client|].
      * destruct (bool_decide (client ∈ mcp_clients self)); [|discriminate].
        apply bind_ok in H1 as ([] & e3 & Hp & H1).
        unfold print in Hp. rewrite emit_ok in Hp. injection Hp as <-.
        apply bind_ok in H1 as (res & e4 & Hc & H1).
        apply external_inv in Hc as [_ Ht]. cbn [ret] in H1.
        injection H1 as <- <- <-. eexists [_]. rewrite Ht. reflexivity.
      * apply bind_ok in H1 as ([] & e3 & Hp & H1).
        unfold print in Hp. rewrite emit_ok in Hp. injection Hp as <-.
        cbn [ret] in H1. injection H1 as <- <- <-.
        eexists [_]. reflexivity.
Qed.

Lemma host_branch_inv (content : Block) (name : string) (args : json)
    (id : string) (amc : list Block) (v : Vars) (e e' : Env W)
    (outcome : Scan) :
  host_branch content name args id amc v e = Ok (outcome, e') ->
  exists updated result_content appended e1 response',
    _process_tool_call self name args id content amc (messages v)
      (tool_results_context v)
      (mkEnv (world e) (trace e ++ [Dispatch name id]))
    = Ok ((updated, result_content, appended), e1)
    /\ host_ask updated (world e1) = Ok (response', world e')
    /\ outcome
       = Broke (mkVars updated response' (final_text v ++ appended)
                  (if result_bool result_content
                   then <[id := result_content]> (tool_results_context v)
                   else tool_results_context v))
    /\ trace e' = trace e1 ++ [ModelCall updated].
Proof.
  unfold tool_use_branch, bind at 1. rewrite emit_ok.
  intros H. apply bind_ok in H as ([[updated rc] appended] & e1 & Hcall & H).
  apply bind_ok in H as (response' & e2 & Hask & H).
  cbn [ret] in H. injection H as <- <-.
  unfold _create_claude_message, prompt_or_default in Hask.
  cbn [default] in Hask.
  apply bind_ok in Hask as ([] & e3 & Hemit & Hask).
  rewrite emit_ok in Hemit. injection Hemit as <-.
  apply external_inv in Hask as [Hask Ht]. cbn [world trace] in Hask, Ht.
  exists updated, rc, appended, e1, response'.
  repeat split; assumption.
Qed.

(** A round whose dispatch and next model call both answer. *)
Lemma host_branch_broke (content : Block) (name : string) (args : json)
    (id : string) (amc : list Block) (v : Vars) (e e1 : Env W)
    (updated : list Message) (rc : ResultContent) (appended : list string)
    (response' : list Block) (w' : W) :
  _process_tool_call self name args id content amc (messages v)
    (tool_results_context v)
    (mkEnv (world e) (trace e ++ [Dispatch name id]))
  = Ok ((updated, rc, appended), e1) ->
  host_ask updated (world e1) = Ok (response', w') ->
  host_branch content name args id amc v e
  = Ok (Broke (mkVars updated response' (final_text v ++ appended)
                 (if result_bool rc
                  then <[id := rc]> (tool_results_context v)
                  else tool_results_context v)),
        mkEnv w' (trace e1 ++ [ModelCall updated])).
Proof.
  intros Hcall Hask.
  unfold tool_use_branch, bind at 1. rewrite emit_ok.
  unfold bind at 1. rewrite Hcall. cbv beta iota zeta.
  unfold _create_claude_message, prompt_or_default. cbn [default].
  unfold bind at 1, bind at 1. rewrite emit_ok.
  erewrite external_ok by (cbn [world]; exact Hask).
  reflexivity.
Qed.

(** A failure of the dispatcher is a failure of the round. *)
Lemma host_branch_raises (content : Block) (name : string) (args : json)
    (id : string) (amc : list Block) (v : Vars) (e : Env W) (x : exn) :
  _process_tool_call self name args id content amc (messages v)
    (tool_results_context v)
    (mkEnv (world e) (trace e ++ [Dispatch name id]))
  = Raise x ->
  host_branch content name args id amc v e = Raise x.
Proof.
  intros Hcall.
  unfold tool_use_branch, bind at 1. rewrite emit_ok.
  unfold bind at 1. rewrite Hcall. reflexivity.
Qed.

(** What a round with a tool call adds to the trace: the dispatch, the
    lines that the dispatcher printed, and the call to the model on the
    updated history. *)
Lemma host_branch_trace (content : Block) (name : string) (args : json)
    (id : string) (amc : list Block) (v : Vars) (e e' : Env W)
    (outcome : Scan) :
  host_branch content name args id amc v e = Ok (outcome, e') ->
  exists v' lines,
    outcome = Broke v'
    /\ trace e' = trace e ++ [Dispatch name id] ++ map Printed lines
                  ++ [ModelCall (messages v')]
    /\ (tool_results_context v' = tool_results_context v
        \/ exists r, result_bool r = true
                     /\ tool_results_context v'
                        = <[id := r]> (tool_results_context v))
    /\ (name = "reference_tool_output" ->
        tool_results_context v' = tool_results_context v).
Proof.
  intros H.
  apply host_branch_inv in H
    as (updated & rc & appended & e1 & response' & Hcall & _ & -> & Ht).
  apply process_tool_call_trace in Hcall as [(lines & Hlines) Href].
  cbn [trace fst snd] in Hlines, Href.
  eexists _, lines. split; [reflexivity|].
  cbn [messages tool_results_context]. split; [|split].
  - rewrite Ht, Hlines, <- !app_assoc. reflexivity.
  - destruct (result_bool rc) eqn:Hb; [right; exists rc; split; auto|left; auto].
  - intros Hn. rewrite (Href Hn). reflexivity.
Qed.

Lemma host_scan_inv (contents amc : list Block) (v : Vars) (e e' : Env W)
    (outcome : Scan) :
  host_scan contents amc v e = Ok (outcome, e') ->
  (outcome = NoToolCalls (final_text v ++ texts_of contents)
   /\ e' = e /\ no_tool_use contents = true)
  \/ exists pre name args id rest,
       contents = pre ++ ToolUse name args id :: rest
       /\ no_tool_use pre = true
       /\ host_branch (ToolUse name args id) name args id
            (amc ++ text_blocks pre) (host_after_texts v pre) e
          = Ok (outcome, e').
Proof.
  revert amc v. induction contents as [|b contents IH]; intros amc v H.
  - left. cbn in H. injection H as <- <-. rewrite app_nil_r.
    repeat split; reflexivity.
  - destruct b as [t|n a i|ty]; cbn [scan] in H.
    + apply IH in H as [(-> & -> & Hno)|(pre & n & a & i & rest & -> & Hno & H)].
      * left. cbn [final_text texts_of flat_map app].
        rewrite <- app_assoc. repeat split; try reflexivity. exact Hno.
      * right. exists (Text t :: pre), n, a, i, rest.
        split; [reflexivity|]. split; [exact Hno|].
        unfold host_after_texts in *.
        cbn [messages response final_text tool_results_context texts_of
             flat_map text_blocks List.filter is_text app] in *.
        rewrite <- !app_assoc in H. exact H.
    + right. exists [], n, a, i, contents.
      split; [reflexivity|]. split; [reflexivity|].
      unfold host_after_texts.
      cbn [text_blocks List.filter texts_of flat_map].
      rewrite !app_nil_r. destruct v; exact H.
    + apply IH in H as [(-> & -> & Hno)|(pre & n & a & i & rest & -> & Hno & H)].
      * left. repeat split; try reflexivity. exact Hno.
      * right. exists (OtherBlock ty :: pre), n, a, i, rest.
        split; [reflexivity|]. split; [exact Hno|]. exact H.
Qed.

End HostRounds.

(** ** One tool call per round *)

Section SingleToolPerRound.
Context `{PB : Builtins}.
Context {W1 : Type} {CO1 : StepExecutor.Collaborators W1}.
Context {W2 : Type} {CO2 : MCPHost.Collaborators W2}.

Variables (provider : StepExecutor.ModelProvider) (user_id : string)
          (langfuse_session_id : option string)
          (available_tools : list json) (current_system_prompt : string).
Variables (self : MCPHost.Self) (host_tools : list json)
          (host_prompt : string).

Local Abbreviation step_scan :=
  (StepExecutor.scan provider user_id langfuse_session_id available_tools
     current_system_prompt).
Local Abbreviation step_loop :=
  (StepExecutor.while_loop provider user_id langfuse_session_id
     available_tools current_system_prompt).
Local Abbreviation host_scan := (MCPHost.scan self host_tools host_prompt).
Local Abbreviation host_loop :=
  (MCPHost.while_loop self host_tools host_prompt).

(** C3. When a response holds a tool call followed by further blocks,
    tool calls or not, only the first tool call is dispatched. In both
    loops the scan of the round, and with it the whole run, is the same
    as for the response cut after that call. A round that completes is
    the dispatch of that first call and nothing else: the dispatcher is
    called once, for the first call, with the history as it is and the
    texts scanned before the call; then, unless its result begins with
    the sentinel (in [StepExecutor]), the model is called once, on the
    history that the dispatcher returned, and the scan stops with the new
    response. The blocks after the first call appear in no result. *)
Theorem only_first_tool_call_is_dispatched
    (pre rest : list Block) (name : string) (args : json) (id : string) :
  no_tool_use pre = true ->
  let call := ToolUse name args id in
  let step_dispatch amc (v : StepExecutor.Vars) :=
    StepExecutor.process_tool_call name args id call (amc ++ text_blocks pre)
      (StepExecutor.messages v) (StepExecutor.state v)
      (StepExecutor.final_text v ++ texts_of pre) user_id provider
      (langfuse_session_id, user_id) in
  let step_ask updated :=
    StepExecutor.create_message provider updated available_tools
      current_system_prompt (langfuse_session_id, user_id) in
  let host_dispatch amc (v : MCPHost.Vars) (e : Env W2) :=
    MCPHost._process_tool_call self name args id call (amc ++ text_blocks pre)
      (MCPHost.messages v) (MCPHost.tool_results_context v)
      (mkEnv (world e) (trace e ++ [Dispatch name id])) in
  let host_ask updated :=
    MCPHost.messages_create "claude-3-5-sonnet-20241022" 4096 host_prompt
      updated host_tools in
  (forall amc v e,
      step_scan (pre ++ call :: rest) amc v e
      = step_scan (pre ++ [call]) amc v e)
  /\ (forall amc v e outcome e',
         step_scan (pre ++ call :: rest) amc v e = Ok (outcome, e') ->
         exists updated result_content appended w1,
           step_dispatch amc v (world e)
           = Ok ((updated, result_content, appended), w1)
           /\ ((StepExecutor.is_insufficient result_content = true
                /\ outcome
                   = StepExecutor.Returned
                       (StepExecutor.final_text v ++ texts_of pre ++ appended
                        ++ [default EmptyString result_content])
                       (StepExecutor.state v)
                /\ e' = mkEnv w1 (trace e ++ [Dispatch name id]))
               \/ (StepExecutor.is_insufficient result_content = false
                   /\ exists state' response',
                        match StepExecutor.memoized name result_content with
                        | Some r =>
                            StepExecutor.store_result (StepExecutor.state v)
                              id name r = Ok state'
                        | None => state' = StepExecutor.state v
                        end
                        /\ step_ask updated w1 = Ok (response', world e')
                        /\ outcome
                           = StepExecutor.Broke
                               (StepExecutor.mkVars updated response'
                                  (StepExecutor.final_text v ++ texts_of pre
                                   ++ appended)
                                  state')
                        /\ trace e' = trace e ++ [Dispatch name id;
                                                  ModelCall updated])))
  /\ (forall amc v e updated r appended w1,
         step_dispatch amc v (world e) = Ok ((updated, Some r, appended), w1) ->
         startswith r StepExecutor.SENTINEL = true ->
         step_scan (pre ++ call :: rest) amc v e
         = Ok (StepExecutor.Returned
                 (StepExecutor.final_text v ++ texts_of pre ++ appended ++ [r])
                 (StepExecutor.state v),
               mkEnv w1 (trace e ++ [Dispatch name id])))
  /\ (forall amc v e updated result_content appended w1 state' response' w2,
         step_dispatch amc v (world e)
         = Ok ((updated, result_content, appended), w1) ->
         StepExecutor.is_insufficient result_content = false ->
         match StepExecutor.memoized name result_content with
         | Some r =>
             StepExecutor.store_result (StepExecutor.state v) id name r
             = Ok state'
         | None => state' = StepExecutor.state v
         end ->
         step_ask updated w1 = Ok (response', w2) ->
         step_scan (pre ++ call :: rest) amc v e
         = Ok (StepExecutor.Broke
                 (StepExecutor.mkVars updated response'
                    (StepExecutor.final_text v ++ texts_of pre ++ appended)
                    state'),
               mkEnv w2 (trace e ++ [Dispatch name id; ModelCall updated])))
  /\ (forall r1 r2 fuel max_iterations i msgs ft st e,
         StepExecutor.response_contents provider r1
           = Ok (pre ++ call :: rest) ->
         StepExecutor.response_contents provider r2 = Ok (pre ++ [call]) ->
         step_loop fuel max_iterations i (StepExecutor.mkVars msgs r1 ft st) e
         = step_loop fuel max_iterations i
             (StepExecutor.mkVars msgs r2 ft st) e)
  /\ (forall amc v e,
         host_scan (pre ++ call :: rest) amc v e
         = host_scan (pre ++ [call]) amc v e)
  /\ (forall amc v e outcome e',
         host_scan (pre ++ call :: rest) amc v e = Ok (outcome, e') ->
         exists updated result_content appended e1 response' lines,
           host_dispatch amc v e = Ok ((updated, result_content, appended), e1)
           /\ trace e1 = trace e ++ [Dispatch name id] ++ map Printed lines
           /\ host_ask updated (world e1) = Ok (response', world e')
           /\ outcome
              = MCPHost.Broke
                  (MCPHost.mkVars updated response'
                     (MCPHost.final_text v ++ texts_of pre ++ appended)
                     (if result_bool result_content
                      then <[id := result_content]>
                             (MCPHost.tool_results_context v)
                      else MCPHost.tool_results_context v))
           /\ trace e' = trace e ++ [Dispatch name id] ++ map Printed lines
                         ++ [ModelCall updated])
  /\ (forall amc v e updated result_content appended e1 response' w2,
         host_dispatch amc v e = Ok ((updated, result_content, appended), e1) ->
         host_ask updated (world e1) = Ok (response', w2) ->
         host_scan (pre ++ call :: rest) amc v e
         = Ok (MCPHost.Broke
                 (MCPHost.mkVars updated response'
                    (MCPHost.final_text v ++ texts_of pre ++ appended)
                    (if result_bool result_content
                     then <[id := result_content]>
                            (MCPHost.tool_results_context v)
                     else MCPHost.tool_results_context v)),
               mkEnv w2 (trace e1 ++ [ModelCall updated])))
  /\ (forall fuel msgs ft ctx e,
         host_loop fuel (MCPHost.mkVars msgs (pre ++ call :: rest) ft ctx) e
         = host_loop fuel (MCPHost.mkVars msgs (pre ++ [call]) ft ctx) e).
Proof.
  intros Hpre call step_dispatch step_ask host_dispatch host_ask.
  subst step_dispatch step_ask host_dispatch host_ask.
  assert (Hstep : forall amc v e tail,
             step_scan (pre ++ call :: tail) amc v e
             = StepExecutor.tool_use_branch provider user_id
                 langfuse_session_id available_tools current_system_prompt
                 call name args id (amc ++ text_blocks pre)
                 (after_texts v pre) e).
  { intros. rewrite scan_prefix by exact Hpre. reflexivity. }
  assert (Hhost : forall amc v e tail,
             host_scan (pre ++ call :: tail) amc v e
             = MCPHost.tool_use_branch self host_tools host_prompt
                 call name args id (amc ++ text_blocks pre)
                 (host_after_texts v pre) e).
  { intros. rewrite host_scan_prefix by exact Hpre. reflexivity. }
  split; [|split; [|split; [|split; [|split; [|split; [|split; [|split]]]]]]].
  - intros. rewrite !Hstep. reflexivity.
  - intros amc v e outcome e' H. rewrite Hstep in H.
    apply branch_inv in H as (upd & rc & app & w1 & Hcall & Hcases).
    unfold after_texts in Hcall, Hcases.
    cbn [StepExecutor.messages StepExecutor.state StepExecutor.final_text]
      in Hcall, Hcases.
    exists upd, rc, app, w1. split; [exact Hcall|].
    destruct Hcases
      as [(Hins & -> & ->)|(Hins & st' & r' & Hmemo & Hask & -> & Ht)].
    + left. rewrite <- app_assoc. repeat split. exact Hins.
    + right. split; [exact Hins|]. exists st', r'. rewrite <- app_assoc.
      split; [exact Hmemo|]. split; [exact Hask|].
      split; [reflexivity|exact Ht].
  - intros amc v e updated r appended w1 Hcall Hsent. rewrite Hstep.
    rewrite (branch_returned provider user_id langfuse_session_id
               available_tools current_system_prompt call name args id
               (amc ++ text_blocks pre) (after_texts v pre) e updated r
               appended w1 Hcall Hsent).
    unfold after_texts.
    cbn [StepExecutor.state StepExecutor.final_text].
    rewrite <- app_assoc. reflexivity.
  - intros amc v e updated rc appended w1 st' response' w2
      Hcall Hins Hmemo Hask. rewrite Hstep.
    rewrite (branch_broke provider user_id langfuse_session_id
               available_tools current_system_prompt call name args id
               (amc ++ text_blocks pre) (after_texts v pre) e updated rc
               appended w1 w2 st' response' Hcall Hins Hmemo Hask).
    unfold after_texts.
    cbn [StepExecutor.state StepExecutor.final_text].
    rewrite <- app_assoc. reflexivity.
  - intros r1 r2 fuel max_iterations i msgs ft st e Hc1 Hc2.
    destruct (Z.ltb_spec i max_iterations) as [Hlt|Hge].
    + destruct fuel as [|fuel].
      * cbn [StepExecutor.while_loop].
        replace (i <? max_iterations)%Z with true by (symmetry; lia).
        reflexivity.
      * rewrite (loop_round provider user_id langfuse_session_id
                   available_tools current_system_prompt fuel max_iterations
                   i (StepExecutor.mkVars msgs r1 ft st) e _ Hlt Hc1).
        rewrite (loop_round provider user_id langfuse_session_id
                   available_tools current_system_prompt fuel max_iterations
                   i (StepExecutor.mkVars msgs r2 ft st) e _ Hlt Hc2).
        rewrite !Hstep. reflexivity.
    + rewrite !loop_exit by lia. reflexivity.
  - intros. rewrite !Hhost. reflexivity.
  - intros amc v e outcome e' H. rewrite Hhost in H.
    apply host_branch_inv in H
      as (updated & rc & appended & e1 & response' & Hcall & Hask & -> & Ht).
    unfold host_after_texts in Hcall |- *.
    cbn [MCPHost.messages MCPHost.final_text MCPHost.tool_results_context]
      in Hcall |- *.
    destruct (process_tool_call_trace _ _ _ _ _ _ _ _ _ _ _ Hcall)
      as [(lines & Hlines) _].
    cbn [trace] in Hlines.
    exists updated, rc, appended, e1, response', lines.
    split; [exact Hcall|].
    split; [rewrite Hlines, <- app_assoc; reflexivity|].
    split; [exact Hask|]. rewrite <- app_assoc.
    split; [reflexivity|].
    rewrite Ht, Hlines, <- !app_assoc. reflexivity.
  - intros amc v e updated rc appended e1 response' w2 Hcall Hask.
    rewrite Hhost.
    rewrite (host_branch_broke self host_tools host_prompt call name args id
               (amc ++ text_blocks pre) (host_after_texts v pre) e e1
               updated rc appended response' w2 Hcall Hask).
    unfold host_after_texts.
    cbn [MCPHost.final_text MCPHost.tool_results_context].
    rewrite <- app_assoc. reflexivity.
  - intros [|fuel] msgs ft ctx e; [reflexivity|].
    cbn [MCPHost.while_loop MCPHost.response]. unfold bind.
    rewrite !Hhost. unfold host_after_texts.
    cbn [MCPHost.messages MCPHost.response MCPHost.final_text
         MCPHost.tool_results_context].
    assert (Hsame : forall r,
               MCPHost.tool_use_branch self host_tools host_prompt call name
                 args id ([] ++ text_blocks pre)
                 (MCPHost.mkVars msgs r (ft ++ texts_of pre) ctx) e
               = MCPHost.tool_use_branch self host_tools host_prompt call
                   name args id ([] ++ text_blocks pre)
                   (MCPHost.mkVars msgs [] (ft ++ texts_of pre) ctx) e)
      by reflexivity.
    rewrite (Hsame (pre ++ call :: rest)), (Hsame (pre ++ [call])).
    match goal with
    | |- context [match ?b with _ => _ end] =>
        destruct b as [[outcome e']|x] eqn:Hb; [|reflexivity]
    end.
    pose proof (host_branch_trace _ _ _ _ _ _ _ _ _ _ _ _ Hb)
      as (v' & lines & -> & _).
    reflexivity.
Qed.

End SingleToolPerRound.

Lemma only_first_tool_call_is_dispatched_example :
  let pre := [Text "I need two lookups."] in
  let first := JDict [("query", JStr "agenda")] in
  let call := ToolUse "Search.Web" first "toolu_a" in
  let rest := [ToolUse "Search.Web" (JDict [("query", JStr "weather")])
                 "toolu_b"; Text "Then I will summarise."] in
  let opening := [mkMessage user (Plain "plan my day")] in
  let exchange result :=
    opening
    ++ [mkMessage assistant (Blocks [Echo (Text "I need two lookups.");
                                     Echo call]);
        mkMessage user (Blocks [ToolResult "toolu_a" result])] in
  let step_result := "Search.Web returned " +:+ dumps first in
  let host_result := RStr "Error: Tool 'Search.Web' is not available." in
  StepExecutor.scan (CO := Examples.scripted) StepExecutor.ANTHROPIC
    "user-1" None [] "You are a helpful assistant." (pre ++ call :: rest) []
    (StepExecutor.mkVars opening
       (StepExecutor.AnthropicResponse (pre ++ call :: rest)) []
       Examples.empty_state)
    (mkEnv [StepExecutor.AnthropicResponse [Text "Here is the agenda."]] [])
  = Ok (StepExecutor.Broke
          (StepExecutor.mkVars (exchange (RStr step_result))
             (StepExecutor.AnthropicResponse [Text "Here is the agenda."])
             ["I need two lookups."; "[Calling tool Search.Web]"]
             (StepExecutor.mkState None None
                (Some (<[ "toolu_a" := ("Search.Web", step_result) ]> ∅)))),
        mkEnv [] [Dispatch "Search.Web" "toolu_a";
                  ModelCall (exchange (RStr step_result))])
  /\ MCPHost.scan (CO := Examples.host_scripted) Examples.host_self []
       "You are a helpful assistant." (pre ++ call :: rest) []
       (MCPHost.mkVars opening (pre ++ call :: rest) [] ∅)
       (mkEnv [[Text "Here is the agenda."]] [])
     = Ok (MCPHost.Broke
             (MCPHost.mkVars (exchange host_result)
                [Text "Here is the agenda."]
                ["I need two lookups.";
                 "Error: Tool 'Search.Web' not found in any client"]
                (<[ "toolu_a" := host_result ]> ∅)),
           mkEnv []
             [Dispatch "Search.Web" "toolu_a";
              Printed "Error: Tool 'Search.Web' not found in any client";
              ModelCall (exchange host_result)]).
Proof.
  cbn zeta.
  pose proof (only_first_tool_call_is_dispatched (CO1 := Examples.scripted)
                (CO2 := Examples.host_scripted) StepExecutor.ANTHROPIC
                "user-1" None [] "You are a helpful assistant."
                Examples.host_self [] "You are a helpful assistant."
                [Text "I need two lookups."]
                [ToolUse "Search.Web" (JDict [("query", JStr "weather")])
                   "toolu_b"; Text "Then I will summarise."]
                "Search.Web" (JDict [("query", JStr "agenda")]) "toolu_a"
                eq_refl) as H.
  cbv zeta in H.
  destruct H as (_ & _ & _ & Hstep & _ & _ & _ & Hhost & _).
  split.
  - etransitivity.
    + eapply (Hstep []); reflexivity.
    + reflexivity.
  - etransitivity.
    + eapply (Hhost []); [lazy; reflexivity|reflexivity].
    + reflexivity.
Defined.

(** ** The call-result cache *)

Section ResultCache.
Context `{PB : Builtins}.
Context {W1 : Type} {CO1 : StepExecutor.Collaborators W1}.
Context {W2 : Type} {CO2 : MCPHost.Collaborators W2}.

Variables (provider : StepExecutor.ModelProvider) (user_id : string)
          (langfuse_session_id : option string)
          (available_tools : list json) (current_system_prompt : string).
Variables (self : MCPHost.Self) (host_tools : list json)
          (host_prompt : string).

Local Abbreviation step_branch :=
  (StepExecutor.tool_use_branch provider user_id langfuse_session_id
     available_tools current_system_prompt).
Local Abbreviation step_loop :=
  (StepExecutor.while_loop provider user_id langfuse_session_id
     available_tools current_system_prompt).
Local Abbreviation host_branch :=
  (MCPHost.tool_use_branch self host_tools host_prompt).
Local Abbreviation host_loop :=
  (MCPHost.while_loop self host_tools host_prompt).

(** The only write of a round of [StepExecutor]: either the session state
    is left as it was, or the result [r] of the call is stored under its
    call id, and then the tool is neither of the two lookups and [r] is a
    non-empty text that does not start with the sentinel. *)
Lemma step_branch_state (content : Block) (name : string) (args : json)
    (id : string) (amc : list Block) (v : StepExecutor.Vars)
    (e e' : Env W1) (outcome : StepExecutor.Scan) :
  step_branch content name args id amc v e = Ok (outcome, e') ->
  state_after (StepExecutor.state v) outcome = StepExecutor.state v
  \/ exists cache r,
       StepExecutor.tool_results (StepExecutor.state v) = Some cache
       /\ StepExecutor.tool_results
            (state_after (StepExecutor.state v) outcome)
          = Some (<[id := (name, r)]> cache)
       /\ name <> "reference_tool_output"
       /\ name <> "get_previous_step_result"
       /\ r <> EmptyString
       /\ startswith r StepExecutor.SENTINEL = false.
Proof.
  intros H.
  apply branch_inv in H
    as (upd & rc & app & w1 & _ &
        [(_ & -> & _)|(Hins & st' & r' & Hmemo & _ & -> & _)]).
  - left. reflexivity.
  - cbn [state_after StepExecutor.state].
    unfold StepExecutor.memoized in Hmemo.
    destruct rc as [r|]; [|left; exact Hmemo].
    destruct (str_bool r) eqn:Hr; [|left; exact Hmemo].
    destruct (String.eqb_spec name "get_previous_step_result") as [|Hn1];
      [left; exact Hmemo|].
    destruct (String.eqb_spec name "reference_tool_output") as [|Hn2];
      [left; exact Hmemo|].
    cbn [andb negb] in Hmemo. unfold StepExecutor.store_result in Hmemo.
    destruct (StepExecutor.tool_results (StepExecutor.state v))
      as [cache|] eqn:Hcache; [|discriminate].
    injection Hmemo as <-. right. exists cache, r.
    cbn [StepExecutor.tool_results]. repeat split; try assumption.
    + intros ->. discriminate.
    + unfold StepExecutor.is_insufficient in Hins. rewrite Hr in Hins.
      exact Hins.
Qed.

(** C8. Only tool calls that are no control tools have their result
    memoized under their call id. In [StepExecutor], a round whose call
    is [reference_tool_output] or [get_previous_step_result] leaves the
    session state, and so the cache, as it was; whenever a round does
    write the cache, it stores the result of the call under its call id,
    the tool is neither of the two lookups and the result does not start
    with the sentinel that [signal_insufficient_context] gives. In
    [MCPHost], a [reference_tool_output] round leaves the cache as it
    was: the referenced result is not stored again under the new id. *)
Theorem control_tool_calls_are_not_memoized :
  (forall content name args id amc v e outcome e',
      step_branch content name args id amc v e = Ok (outcome, e') ->
      (name = "reference_tool_output" \/ name = "get_previous_step_result" ->
       state_after (StepExecutor.state v) outcome = StepExecutor.state v)
      /\ (state_after (StepExecutor.state v) outcome = StepExecutor.state v
          \/ exists cache r,
               StepExecutor.tool_results (StepExecutor.state v) = Some cache
               /\ StepExecutor.tool_results
                    (state_after (StepExecutor.state v) outcome)
                  = Some (<[id := (name, r)]> cache)
               /\ name <> "reference_tool_output"
               /\ name <> "get_previous_step_result"
               /\ r <> EmptyString
               /\ startswith r StepExecutor.SENTINEL = false))
  /\ (forall content name args id amc v e outcome e',
         host_branch content name args id amc v e = Ok (outcome, e') ->
         (name = "reference_tool_output" ->
          context_after (MCPHost.tool_results_context v) outcome
          = MCPHost.tool_results_context v)
         /\ (context_after (MCPHost.tool_results_context v) outcome
             = MCPHost.tool_results_context v
             \/ exists r,
                  result_bool r = true
                  /\ context_after (MCPHost.tool_results_context v) outcome
                     = <[id := r]> (MCPHost.tool_results_context v)
                  /\ name <> "reference_tool_output")).
Proof.
  split.
  - intros content name args id amc v e outcome e' H.
    pose proof (step_branch_state _ _ _ _ _ _ _ _ _ H) as Hst.
    split; [|exact Hst].
    intros Hname.
    destruct Hst as [Hsame|(cache & r & _ & _ & Hn1 & Hn2 & _)];
      [exact Hsame|].
    destruct Hname; contradiction.
  - intros content name args id amc v e outcome e' H.
    apply host_branch_trace in H as (v' & lines & -> & _ & Hctx & Href).
    cbn [context_after]. split; [exact Href|].
    destruct (String.eqb_spec name "reference_tool_output") as [Hn|Hn].
    + left. exact (Href Hn).
    + destruct Hctx as [Hsame|(r & Hr & Hins)]; [left; exact Hsame|].
      right. exists r. repeat split; assumption.
Qed.

Lemma dispatched_ids_printed (lines : list string) :
  dispatched_ids (map Printed lines) = [].
Proof. induction lines as [|l lines IH]; [reflexivity|exact IH]. Qed.

(** What a scan of [StepExecutor] does to the cache and to the trace. *)
Lemma step_scan_cache (k : string) (contents amc : list Block)
    (v : StepExecutor.Vars) (e e' : Env W1) (outcome : StepExecutor.Scan)
    (cache : gmap string (string * string)) :
  StepExecutor.scan provider user_id langfuse_session_id available_tools
    current_system_prompt contents amc v e = Ok (outcome, e') ->
  StepExecutor.tool_results (StepExecutor.state v) = Some cache ->
  exists new cache',
    trace e' = trace e ++ new
    /\ StepExecutor.tool_results (state_after (StepExecutor.state v) outcome)
       = Some cache'
    /\ (k ∉ dispatched_ids new -> cache' !! k = cache !! k).
Proof.
  intros H Hcache.
  apply scan_inv in H as [(-> & -> & _)|(pre & n & a & i & rest & _ & _ & H)].
  - exists [], cache. rewrite app_nil_r. repeat split; auto.
  - pose proof (step_branch_state _ _ _ _ _ _ _ _ _ H) as Hst.
    apply branch_inv in H
      as (upd & rc & app & w1 & _ &
          [(_ & -> & ->)|(_ & st' & r' & _ & _ & -> & Ht)]).
    + exists [Dispatch n i], cache. repeat split; auto.
    + exists [Dispatch n i; ModelCall upd].
      cbn [state_after StepExecutor.state after_texts] in *.
      destruct Hst as [->|(cache0 & r & Hc0 & Hc1 & _)].
      * exists cache. repeat split; auto.
      * rewrite Hcache in Hc0. injection Hc0 as <-.
        eexists. split; [exact Ht|]. split; [exact Hc1|].
        intros Hk. apply lookup_insert_ne. intros ->. apply Hk.
        cbn. constructor.
Qed.

Lemma step_loop_cache (k : string) (max_iterations : Z) (fuel : nat) :
  forall (i j : Z) (v : StepExecutor.Vars) (e e' : Env W1)
         (output : list string) (st : StepExecutor.State)
         (cache : gmap string (string * string)),
    step_loop fuel max_iterations i v e = Ok ((output, st, j), e') ->
    StepExecutor.tool_results (StepExecutor.state v) = Some cache ->
    exists new cache',
      trace e' = trace e ++ new
      /\ StepExecutor.tool_results st = Some cache'
      /\ (k ∉ dispatched_ids new -> cache' !! k = cache !! k).
Proof.
  induction fuel as [|fuel IH]; intros i j v e e' output st cache H Hcache.
  - cbn [StepExecutor.while_loop] in H.
    destruct (i <? max_iterations)%Z; [discriminate|].
    cbn in H. injection H as <- <- <- <-.
    exists [], cache. rewrite app_nil_r. repeat split; auto.
  - destruct (Z.ltb_spec i max_iterations) as [Hlt|Hge].
    2:{ rewrite loop_exit in H by lia. injection H as <- <- <- <-.
        exists [], cache. rewrite app_nil_r. repeat split; auto. }
    destruct (StepExecutor.response_contents provider (StepExecutor.response v))
      as [contents|x] eqn:Hc.
    2:{ cbn [StepExecutor.while_loop] in H.
        replace (i <? max_iterations)%Z with true in H by (symmetry; lia).
        cbn [negb] in H. unfold bind at 1 in H. rewrite Hc in H.
        discriminate. }
    rewrite (loop_round _ _ _ _ _ _ _ _ _ _ _ Hlt Hc) in H.
    match type of H with
    | match ?sc with _ => _ end = _ =>
        destruct sc as [[outcome e1]|x] eqn:Hscan; [|discriminate]
    end.
    destruct (step_scan_cache k _ _ _ _ _ _ _ Hscan Hcache)
      as (new1 & cache1 & Ht1 & Hc1 & Hk1).
    destruct outcome as [ft st'|v'|ft]; cbn [state_after] in Hc1.
    + injection H as <- <- <- <-. exists new1, cache1. auto.
    + apply (IH _ _ _ _ _ _ _ cache1) in H; [|exact Hc1].
      destruct H as (new2 & cache2 & Ht2 & Hc2 & Hk2).
      destruct (i + 1 =? max_iterations)%Z; cbn [trace] in Ht2.
      * exists (new1 ++ [Printed
                           (StepExecutor.max_iterations_warning
                              max_iterations)] ++ new2), cache2.
        rewrite Ht2, Ht1, <- !app_assoc. split; [reflexivity|].
        split; [exact Hc2|]. intros Hk.
        rewrite !dispatched_ids_app in Hk. cbn in Hk.
        apply not_elem_of_app in Hk as [Hk1' Hk2'].
        rewrite (Hk2 Hk2'), (Hk1 Hk1'). reflexivity.
      * exists (new1 ++ new2), cache2.
        rewrite Ht2, Ht1, <- !app_assoc. split; [reflexivity|].
        split; [exact Hc2|]. intros Hk.
        rewrite !dispatched_ids_app in Hk.
        apply not_elem_of_app in Hk as [Hk1' Hk2'].
        rewrite (Hk2 Hk2'), (Hk1 Hk1'). reflexivity.
    + injection H as <- <- <- <-. exists new1, cache1. auto.
Qed.

Lemma host_loop_cache (k : string) (fuel : nat) :
  forall (v : MCPHost.Vars) (e e' : Env W2) (output : list string)
         (ctx : gmap string ResultContent),
    host_loop fuel v e = Ok ((output, ctx), e') ->
    exists new,
      trace e' = trace e ++ new
      /\ (k ∉ dispatched_ids new ->
          ctx !! k = MCPHost.tool_results_context v !! k).
Proof.
  induction fuel as [|fuel IH]; intros v e e' output ctx H; [discriminate|].
  cbn [MCPHost.while_loop] in H.
  apply bind_ok in H as (outcome & e1 & Hscan & H).
  apply host_scan_inv in Hscan
    as [(-> & -> & _)|(pre & n & a & i & rest & _ & _ & Hb)].
  - cbn [ret] in H. injection H as <- <- <-.
    exists []. rewrite app_nil_r. split; auto.
  - apply host_branch_trace in Hb as (v' & lines & -> & Ht & Hctx & _).
    apply IH in H as (new2 & Ht2 & Hk2).
    exists (([Dispatch n i] ++ map Printed lines
             ++ [ModelCall (MCPHost.messages v')]) ++ new2).
    rewrite Ht2, Ht, <- !app_assoc. split; [reflexivity|].
    intros Hk. rewrite !dispatched_ids_app, dispatched_ids_printed in Hk.
    cbn in Hk. apply not_elem_of_cons in Hk as [Hne Hk2'].
    rewrite (Hk2 Hk2').
    unfold host_after_texts in Hctx. cbn [MCPHost.tool_results_context] in Hctx.
    destruct Hctx as [->|(r & _ & ->)]; [reflexivity|].
    apply lookup_insert_ne. congruence.
Qed.

(** C7, as the code has it. Within one run of either loop, an entry of the
    call-result cache is kept from any round on, as long as no later tool
    call of the run carries its call id: the value found under a call id
    at the end of the run is the one found at the start of the round,
    unless the trace of the rounds in between holds a dispatch with that
    id. (A later call with the same id and a result to memoize replaces
    the entry.) *)
Theorem cache_entry_kept_while_id_not_reused (k : string) :
  (forall fuel max_iterations i j v e e' output st cache,
      step_loop fuel max_iterations i v e = Ok ((output, st, j), e') ->
      StepExecutor.tool_results (StepExecutor.state v) = Some cache ->
      exists new cache',
        trace e' = trace e ++ new
        /\ StepExecutor.tool_results st = Some cache'
        /\ (k ∉ dispatched_ids new -> cache' !! k = cache !! k))
  /\ (forall fuel v e e' output ctx,
         host_loop fuel v e = Ok ((output, ctx), e') ->
         exists new,
           trace e' = trace e ++ new
           /\ (k ∉ dispatched_ids new ->
               ctx !! k = MCPHost.tool_results_context v !! k)).
Proof.
  split.
  - intros. eapply step_loop_cache; eassumption.
  - intros. eapply host_loop_cache; eassumption.
Qed.

End ResultCache.

Lemma control_tool_calls_are_not_memoized_example :
  let opening := [mkMessage user (Plain "reuse the search result")] in
  let cached : gmap string (string * string) :=
    {[ "toolu_1" := ("Search.Web", "three meetings") ]} in
  let st := StepExecutor.mkState None None (Some cached) in
  let args := JDict [("tool_id", JStr "toolu_1")] in
  let call := ToolUse "reference_tool_output" args "toolu_2" in
  exists outcome e',
    StepExecutor.tool_use_branch (CO := Examples.scripted)
      StepExecutor.ANTHROPIC "user-1" None []
      "You are a helpful assistant." call "reference_tool_output" args
      "toolu_2" []
      (StepExecutor.mkVars opening (StepExecutor.AnthropicResponse [call])
         [] st)
      (mkEnv [StepExecutor.AnthropicResponse [Text "Three meetings."]] [])
    = Ok (outcome, e')
    /\ state_after st outcome = st.
Proof.
  cbn zeta.
  match goal with
  | |- exists outcome e', ?run = _ /\ _ =>
      destruct run as [[outcome e']|x] eqn:Hrun;
        [|vm_compute in Hrun; discriminate Hrun]
  end.
  exists outcome, e'. split; [reflexivity|].
  apply (proj1 (proj1 (control_tool_calls_are_not_memoized
                         (CO1 := Examples.scripted)
                         (CO2 := Examples.host_scripted)
                         StepExecutor.ANTHROPIC "user-1" None []
                         "You are a helpful assistant."
                         Examples.host_self [] EmptyString)
                  _ _ _ _ _ _ _ _ _ Hrun)).
  left. reflexivity.
Defined.

(** The claim C7 as it is written fails: with a call id that the provider
    issues twice, the entry written by the first call is replaced by the
    second call, in [StepExecutor] and in [MCPHost] alike. The run capped
    at one round shows the entry after the first write, the full run the
    entry at the end. *)
Lemma reused_call_id_overwrites_the_cache :
  let run cap :=
    StepExecutor.process_input_with_agent_loop (CO := Examples.scripted)
      Examples.example_self "plan my day" StepExecutor.ANTHROPIC "user-1"
      None None (Some Examples.empty_state) cap
      (mkEnv Examples.reuse_script []) in
  let first :=
    Examples.example_result "Search.Web" Examples.first_args
      Examples.empty_state in
  let second :=
    Examples.example_result "Search.Web" Examples.second_args
      Examples.empty_state in
  first <> second
  /\ (exists output st e cache,
         run 1%Z = Ok ((output, st, 1%Z), e)
         /\ StepExecutor.tool_results st = Some cache
         /\ cache !! "toolu_dup" = Some ("Search.Web", first))
  /\ (exists output st e cache,
         run 25%Z = Ok ((output, st, 2%Z), e)
         /\ dispatched_ids (trace e) = ["toolu_dup"; "toolu_dup"]
         /\ StepExecutor.tool_results st = Some cache
         /\ cache !! "toolu_dup" = Some ("Search.Web", second))
  /\ (exists output ctx e,
         MCPHost.while_loop (CO := Examples.host_scripted) Examples.host_self
           [] "You are a helpful assistant." 10
           (MCPHost.mkVars [mkMessage user (Plain "send two mails")]
              [Text "Sending the first mail.";
               ToolUse "send_email" Examples.first_args "toolu_dup"]
              [] ∅)
           (mkEnv (tail Examples.host_reuse_script) [])
         = Ok ((output, ctx), e)
         /\ dispatched_ids (trace e) = ["toolu_dup"; "toolu_dup"]
         /\ ctx !! "toolu_dup"
            = Some (RMcp [TextContent
                            ("send_email returned "
                             +:+ dumps Examples.second_args)])).
Proof.
  cbn zeta. split; [vm_compute; discriminate|]. split; [|split].
  - eexists _, _, _, _. split; [vm_compute; reflexivity|].
    split; [reflexivity|]. vm_compute. reflexivity.
  - eexists _, _, _, _. split; [vm_compute; reflexivity|].
    split; [reflexivity|]. split; [reflexivity|]. vm_compute. reflexivity.
  - eexists _, _, _. split; [vm_compute; reflexivity|].
    split; [reflexivity|]. vm_compute. reflexivity.
Qed.

Lemma cache_entry_kept_while_id_not_reused_example :
  let opening := [mkMessage user (Plain "plan my day")] in
  let cached : gmap string (string * string) :=
    {[ "toolu_0" := ("Calendar.List", "three meetings") ]} in
  let v :=
    StepExecutor.mkVars opening
      (StepExecutor.AnthropicResponse
         [ToolUse "Search.Web" Examples.first_args "toolu_1"])
      [] (StepExecutor.mkState None None (Some cached)) in
  exists output st j e' new cache',
    StepExecutor.while_loop (CO := Examples.scripted) StepExecutor.ANTHROPIC
      "user-1" None [] "You are a helpful assistant." 25 25 0 v
      (mkEnv [StepExecutor.AnthropicResponse [Text "Here is your day."]] [])
    = Ok ((output, st, j), e')
    /\ trace e' = [] ++ new
    /\ StepExecutor.tool_results st = Some cache'
    /\ cache' !! "toolu_0" = cached !! "toolu_0".
Proof.
  cbn zeta.
  pose proof (proj1 (cache_entry_kept_while_id_not_reused
                       (CO1 := Examples.scripted)
                       (CO2 := Examples.host_scripted)
                       StepExecutor.ANTHROPIC "user-1" None []
                       "You are a helpful assistant." Examples.host_self []
                       EmptyString "toolu_0")
                25 25%Z 0%Z) as Hkept.
  match goal with
  | |- exists output st j e' new cache', ?run = _ /\ _ =>
      destruct run as [[[[output st] j] e']|x] eqn:Hrun;
        [|vm_compute in Hrun; discriminate Hrun]
  end.
  destruct (Hkept _ _ _ _ _ _ _ Hrun eq_refl) as (new & cache' & Ht & Hc & Hk).
  exists output, st, j, e', new, cache'.
  split; [reflexivity|]. split; [exact Ht|]. split; [exact Hc|].
  apply Hk. vm_compute in Hrun. injection Hrun as <- <- <- <-.
  cbn [trace app] in Ht. subst new. vm_compute.
  intros Hin. inversion Hin as [|? ? ? Hin']; subst. inversion Hin'.
Defined.

(** ** Remarks on the limits of the properties above *)

Section Remarks.
Context `{PB : Builtins}.
Context {W1 : Type} {CO1 : StepExecutor.Collaborators W1}.
Context {W2 : Type} {CO2 : MCPHost.Collaborators W2}.

(** The cache of [MCPHost] only ever holds truthy results: an entry is
    written under [if result_content]. In particular it holds no empty
    text. *)
Lemma host_cache_holds_truthy (self : MCPHost.Self) (tools : list json)
    (prompt : string) (fuel : nat) :
  forall (v : MCPHost.Vars) (e e' : Env W2) (output : list string)
         (ctx : gmap string ResultContent),
    MCPHost.while_loop self tools prompt fuel v e = Ok ((output, ctx), e') ->
    (forall k x, MCPHost.tool_results_context v !! k = Some x ->
                 result_bool x = true) ->
    forall k x, ctx !! k = Some x -> result_bool x = true.
Proof.
  induction fuel as [|fuel IH]; intros v e e' output ctx H Hinv;
    [discriminate|].
  cbn [MCPHost.while_loop] in H.
  apply bind_ok in H as (outcome & e1 & Hscan & H).
  apply host_scan_inv in Hscan
    as [(-> & -> & _)|(pre & n & a & i & rest & _ & _ & Hb)].
  - cbn [ret] in H. injection H as <- <- <-. exact Hinv.
  - apply host_branch_trace in Hb as (v' & lines & -> & _ & Hctx & _).
    refine (IH _ _ _ _ _ H _).
    unfold host_after_texts in Hctx. cbn [MCPHost.tool_results_context] in Hctx.
    destruct Hctx as [->|(r & Hr & ->)]; [exact Hinv|].
    intros k x Hk. apply lookup_insert_Some in Hk as [[_ <-]|[_ Hk]].
    + exact Hr.
    + exact (Hinv _ _ Hk).
Qed.

(** A path cannot be extracted from the reply of a backend tool: what is
    cached for it is the content list of the reply, which [json.loads]
    refuses with a [TypeError] that the handler does not catch. *)
Lemma extract_from_backend_reply_raises (item : McpContent)
    (items : list McpContent) (extract_path : json) :
  truthy extract_path = true ->
  MCPHost._extract_reference_data (RMcp (item :: items)) extract_path
  = Raise (TypeError "the JSON object must be str, bytes or bytearray").
Proof.
  intros Hp. unfold MCPHost._extract_reference_data. rewrite Hp. reflexivity.
Qed.

(** In the function-call shape the arguments of all the tool calls of a
    response are decoded before the scan begins: arguments that are no
    JSON, also those of a later call, end the run with the decoding
    error before the first call is dispatched. *)
Lemma malformed_arguments_raise_before_the_scan
    (content : option string) (first : StepExecutor.ToolCall)
    (later : list StepExecutor.ToolCall) (bad : StepExecutor.ToolCall):
  In bad (first :: later) ->
  loads (StepExecutor.function_arguments bad) = Raise JSONDecodeError ->
  StepExecutor.response_contents StepExecutor.OPENAI
    (StepExecutor.OpenAIResponse content (first :: later))
  = Raise JSONDecodeError.
Proof.
  intros Hin Hbad.
  assert (Hn : StepExecutor.normalise_tool_calls (first :: later)
               = Raise JSONDecodeError).
  { induction (first :: later) as [|tc tcs IH]; [contradiction|].
    cbn [StepExecutor.normalise_tool_calls].
    destruct (loads (StepExecutor.function_arguments tc)) as [input|x] eqn:Hl.
    - destruct Hin as [->|Hin]; [congruence|]. rewrite (IH Hin). reflexivity.
    - apply loads_only_decode_error in Hl. subst x. reflexivity. }
  unfold StepExecutor.response_contents. rewrite Hn. reflexivity.
Qed.

End Remarks.

(** * Further properties of [StepExecutor] *)

Section StepFurther.
Context `{PB : Builtins} {W : Type} {CO : StepExecutor.Collaborators W}.
Import StepExecutor.

Variables (provider : ModelProvider) (user_id : string)
          (langfuse_session_id : option string).

Local Abbreviation loop_of tools prompt :=
  (while_loop provider user_id langfuse_session_id tools prompt).
Local Abbreviation scan_of tools prompt :=
  (scan provider user_id langfuse_session_id tools prompt).
Local Abbreviation branch_of tools prompt :=
  (tool_use_branch provider user_id langfuse_session_id tools prompt).

(** Contents either hold no tool call, or split at their first one. *)
Lemma first_tool_use (contents : list Block) :
  no_tool_use contents = true
  \/ exists pre name args id rest,
       contents = pre ++ ToolUse name args id :: rest
       /\ no_tool_use pre = true.
Proof.
  induction contents as [|b contents IH]; [left; reflexivity|].
  destruct b as [t|n a i|ty].
  - destruct IH as [Hno|(pre & n & a & i & rest & -> & Hpre)].
    + left. exact Hno.
    + right. exists (Text t :: pre), n, a, i, rest.
      split; [reflexivity|exact Hpre].
  - right. exists [], n, a, i, contents. split; reflexivity.
  - destruct IH as [Hno|(pre & n & a & i & rest & -> & Hpre)].
    + left. exact Hno.
    + right. exists (OtherBlock ty :: pre), n, a, i, rest.
      split; [reflexivity|exact Hpre].
Qed.

Lemma scan_no_tool_use (tools : list json) (prompt : string)
    (contents amc : list Block) (v : Vars) (e : Env W) :
  no_tool_use contents = true ->
  scan_of tools prompt contents amc v e
  = Ok (NoToolCalls (final_text v ++ texts_of contents), e).
Proof.
  intros Hno.
  rewrite <- (app_nil_r contents) at 1.
  rewrite scan_prefix by exact Hno. reflexivity.
Qed.

Lemma is_insufficient_true (rc : option string) :
  is_insufficient rc = true ->
  exists r, rc = Some r /\ startswith r SENTINEL = true.
Proof.
  destruct rc as [r|]; [|discriminate]. cbn. intros H.
  apply andb_prop in H as [_ H]. exists r. split; [reflexivity|exact H].
Qed.

(** The number of tool calls of a run that returns is bounded by the
    rounds that the cap leaves. *)
Lemma loop_dispatches (tools : list json) (prompt : string) (fuel : nat)
    (max_iterations : Z) :
  forall (i j : Z) (v : Vars) (e e' : Env W) (output : list string)
         (st : State),
    loop_of tools prompt fuel max_iterations i v e
    = Ok ((output, st, j), e') ->
    dispatches (trace e')
    <= dispatches (trace e) + Z.to_nat (max_iterations - i).
Proof.
  induction fuel as [|fuel IH]; intros i j v e e' output st H.
  - cbn [while_loop] in H. destruct (i <? max_iterations)%Z; [discriminate|].
    cbn in H. injection H as <- <- <- <-. lia.
  - destruct (Z.ltb_spec i max_iterations) as [Hlt|Hge].
    2:{ rewrite loop_exit in H by lia. injection H as <- <- <- <-. lia. }
    destruct (response_contents provider (response v)) as [contents|x] eqn:Hc.
    2:{ cbn [while_loop] in H.
        replace (i <? max_iterations)%Z with true in H by (symmetry; lia).
        cbn [negb] in H. unfold bind at 1 in H. rewrite Hc in H.
        discriminate. }
    rewrite (loop_round _ _ _ _ _ _ _ _ _ _ _ Hlt Hc) in H.
    match type of H with
    | match ?sc with _ => _ end = _ =>
        destruct sc as [[outcome e1]|x] eqn:Hscan; [|discriminate]
    end.
    pose proof (scan_trace _ _ _ _ _ _ _ _ _ _ _ Hscan) as Ht.
    destruct outcome as [ft st'|v'|ft].
    + injection H as <- <- <- <-. destruct Ht as (n & id & ->).
      rewrite dispatches_app. cbn. lia.
    + apply IH in H. destruct Ht as (n & id & Ht).
      destruct (i + 1 =? max_iterations)%Z; cbn [trace] in H;
        rewrite Ht, ?dispatches_app in H; cbn in H; lia.
    + injection H as <- <- <- <-. rewrite Ht. lia.
Qed.

(** What the part of [process_input_with_agent_loop] before the loop
    does, once the catalog and the first response are known. *)
Lemma run_prelude (self : Self) (input_action : string)
    (system_prompt : option string) (st0 : State) (max_iterations : Z)
    (e e' : Env W) (result : list string * State * Z) :
  process_input_with_agent_loop self input_action provider user_id
    system_prompt langfuse_session_id (Some st0) max_iterations e
  = Ok (result, e') ->
  exists catalog opening response0 e1,
    trace e1 = trace e ++ [ModelCall opening]
    /\ (forall t ts, tools st0 = Some (t :: ts) -> catalog = t :: ts)
    /\ loop_of catalog (prompt_or_default self system_prompt)
         (Z.to_nat max_iterations) max_iterations 0
         (mkVars opening response0 [] st0) e1
       = Ok (result, e').
Proof.
  unfold process_input_with_agent_loop. intros H.
  apply bind_ok in H as (catalog & e0 & Hcat & H).
  apply bind_ok in H as (response0 & e1 & Hask & H).
  unfold call_model in Hask.
  apply bind_ok in Hask as ([] & e2 & Hemit & Hask).
  rewrite emit_ok in Hemit. injection Hemit as <-.
  apply external_inv in Hask as [_ Ht]. cbn [trace] in Ht.
  assert (Hcat' : trace e0 = trace e
                  /\ forall t ts, tools st0 = Some (t :: ts) ->
                                  catalog = t :: ts).
  { destruct (tools st0) as [[|t ts]|] eqn:Htools.
    - unfold get_all_tools in Hcat.
      apply bind_ok in Hcat as (l & e3 & Hreg & Hcat).
      apply external_inv in Hreg as [_ Ht3]. cbn [ret] in Hcat.
      injection Hcat as <- <-. split; [exact Ht3|discriminate].
    - cbn [ret] in Hcat. injection Hcat as <- <-.
      split; [reflexivity|]. intros t' ts' Heq. congruence.
    - unfold get_all_tools in Hcat.
      apply bind_ok in Hcat as (l & e3 & Hreg & Hcat).
      apply external_inv in Hreg as [_ Ht3]. cbn [ret] in Hcat.
      injection Hcat as <- <-. split; [exact Ht3|discriminate]. }
  destruct Hcat' as [Ht0 Hcat'].
  eexists catalog, _, response0, e1.
  split; [rewrite Ht, Ht0; reflexivity|]. split; [exact Hcat'|exact H].
Qed.

(** X1. Whatever the provider and the dispatcher do, a run that returns
    has made at most [max_iterations] tool calls and at most
    [max_iterations + 1] calls to the model, and its round counter lies
    between 0 and the cap. *)
Theorem run_is_bounded_by_the_cap
    (self : Self) (input_action : string) (system_prompt : option string)
    (st0 st : State) (max_iterations j : Z) (e e' : Env W)
    (output : list string) :
  process_input_with_agent_loop self input_action provider user_id
    system_prompt langfuse_session_id (Some st0) max_iterations e
  = Ok ((output, st, j), e') ->
  dispatches (trace e') <= dispatches (trace e) + Z.to_nat max_iterations
  /\ model_calls (trace e')
     <= model_calls (trace e) + 1 + Z.to_nat max_iterations
  /\ (0 <= j)%Z /\ (j <= Z.max 0 max_iterations)%Z.
Proof.
  intros H.
  apply run_prelude in H as (catalog & opening & r0 & e1 & Ht & _ & H).
  pose proof (loop_dispatches _ _ _ _ _ _ _ _ _ _ _ H) as Hd.
  assert (Hj : (max_iterations <= 0 -> j = 0)%Z).
  { intros Hle. rewrite loop_exit in H by exact Hle.
    injection H as _ _ <- _. reflexivity. }
  apply loop_counter in H as (Hij & Hmax & Hcalls & _).
  rewrite Ht in Hd, Hcalls. rewrite dispatches_app in Hd.
  rewrite model_calls_app in Hcalls. cbn in Hd, Hcalls.
  rewrite Z.sub_0_r in Hd, Hcalls.
  repeat split; try lia.
Qed.

(** With collaborators that do not raise, the loop returns as soon as the
    fuel covers the rounds that the cap leaves. *)
Lemma loop_returns (tools : list json) (prompt : string)
    (max_iterations : Z) :
  (forall msgs w, exists r w' contents,
      create_message provider msgs tools prompt
        (langfuse_session_id, user_id) w = Ok (r, w')
      /\ response_contents provider r = Ok contents) ->
  (forall name args id content amc msgs st ft w,
      exists updated rc appended w',
        process_tool_call name args id content amc msgs st ft user_id
          provider (langfuse_session_id, user_id) w
        = Ok ((updated, rc, appended), w')) ->
  forall (fuel : nat) (i : Z) (v : Vars) (e : Env W),
    Z.to_nat (max_iterations - i) <= fuel ->
    is_Some (tool_results (state v)) ->
    (exists contents, response_contents provider (response v) = Ok contents) ->
    exists output st j e',
      loop_of tools prompt fuel max_iterations i v e
      = Ok ((output, st, j), e').
Proof.
  intros Hmodel Hproc.
  induction fuel as [|fuel IH]; intros i v e Hfuel Hst (contents & Hc).
  - eexists _, _, _, _. apply loop_exit. lia.
  - destruct (Z.ltb_spec i max_iterations) as [Hlt|Hge];
      [|eexists _, _, _, _; apply loop_exit; lia].
    rewrite (loop_round _ _ _ _ _ _ _ _ _ _ _ Hlt Hc).
    destruct (first_tool_use contents)
      as [Hno|(pre & name & args & id & rest & -> & Hpre)].
    + rewrite scan_no_tool_use by exact Hno. eexists _, _, _, _. reflexivity.
    + rewrite scan_prefix by exact Hpre. cbn [scan app].
      destruct (Hproc name args id (ToolUse name args id) (text_blocks pre)
                  (messages (after_texts v pre)) (state (after_texts v pre))
                  (final_text (after_texts v pre)) (world e))
        as (updated & rc & appended & w1 & Hcall).
      destruct (is_insufficient rc) eqn:Hins.
      * apply is_insufficient_true in Hins as (r & -> & Hsent).
        rewrite (branch_returned _ _ _ _ _ _ _ _ _ _ _ _ _ _ _ _ Hcall Hsent).
        eexists _, _, _, _. reflexivity.
      * assert (Hmemo : exists st',
                   match memoized name rc with
                   | Some r =>
                       store_result (state (after_texts v pre)) id name r
                       = Ok st'
                   | None => st' = state (after_texts v pre)
                   end /\ is_Some (tool_results st')).
        { destruct (memoized name rc) as [r|].
          - apply store_result_some. exact Hst.
          - eexists. split; [reflexivity|exact Hst]. }
        destruct Hmemo as (st' & Hmemo & Hst').
        destruct (Hmodel updated w1) as (r' & w2 & contents' & Hask & Hc').
        rewrite (branch_broke _ _ _ _ _ _ _ _ _ _ _ _ _ _ _ _ _ _ _
                   Hcall Hins Hmemo Hask).
        apply IH; [lia|exact Hst'|exists contents'; exact Hc'].
Qed.

(** X2. When the provider, the dispatcher and the registry answer every
    call, a run on a session state that has a result cache always
    returns: no exception, and no round beyond the cap. *)
Theorem run_returns_when_collaborators_do
    (self : Self) (input_action : string) (system_prompt : option string)
    (st0 : State) (max_iterations : Z) (e : Env W) :
  (forall tools prompt msgs w, exists r w' contents,
      create_message provider msgs tools prompt
        (langfuse_session_id, user_id) w = Ok (r, w')
      /\ response_contents provider r = Ok contents) ->
  (forall name args id content amc msgs st ft w,
      exists updated rc appended w',
        process_tool_call name args id content amc msgs st ft user_id
          provider (langfuse_session_id, user_id) w
        = Ok ((updated, rc, appended), w')) ->
  (forall toolkits w, exists listed w',
      get_toolkits_from_arcade provider toolkits w = Ok (listed, w')) ->
  is_Some (tool_results st0) ->
  exists output st j e',
    process_input_with_agent_loop self input_action provider user_id
      system_prompt langfuse_session_id (Some st0) max_iterations e
    = Ok ((output, st, j), e').
Proof.
  intros Hmodel Hproc Hreg Hst.
  unfold process_input_with_agent_loop.
  set (msgs := [mkMessage user _]).
  set (prompt := prompt_or_default self system_prompt).
  assert (Hcat : exists catalog e1,
             (match tools st0 with
              | Some (t :: ts) => ret (t :: ts)
              | _ => get_all_tools self provider
              end) e = Ok (catalog, e1)).
  { assert (Hall : exists catalog e1,
               get_all_tools self provider e = Ok (catalog, e1)).
    { destruct (Hreg (enabled_toolkits self) (world e)) as (l & w1 & Hl).
      unfold get_all_tools. eexists _, _.
      erewrite bind_step by (apply external_ok, Hl). reflexivity. }
    destruct (tools st0) as [[|t ts]|]; try exact Hall.
    eexists _, _. reflexivity. }
  destruct Hcat as (catalog & e1 & Hcat).
  rewrite (bind_step _ _ _ _ _ Hcat).
  destruct (Hmodel catalog prompt msgs (world e1))
    as (r0 & w2 & contents & Hask & Hc).
  unfold call_model at 1. unfold bind at 1, bind at 1. rewrite emit_ok.
  erewrite external_ok by (cbn [world]; exact Hask).
  apply (loop_returns catalog prompt max_iterations (Hmodel catalog prompt)
           Hproc); [lia|exact Hst|exists contents; exact Hc].
Qed.

(** X3. With a cap of zero or less the first call to the model is still
    made, and its response is dropped: a run that returns gives an empty
    output, leaves the session state as it was, and has dispatched no
    tool. *)
Theorem non_positive_cap_drops_the_first_response
    (self : Self) (input_action : string) (system_prompt : option string)
    (st0 st : State) (max_iterations j : Z) (e e' : Env W)
    (output : list string) :
  (max_iterations <= 0)%Z ->
  process_input_with_agent_loop self input_action provider user_id
    system_prompt langfuse_session_id (Some st0) max_iterations e
  = Ok ((output, st, j), e') ->
  output = [] /\ st = st0 /\ j = 0%Z
  /\ model_calls (trace e') = model_calls (trace e) + 1
  /\ dispatches (trace e') = dispatches (trace e).
Proof.
  intros Hle H.
  apply run_prelude in H as (catalog & opening & r0 & e1 & Ht & _ & H).
  rewrite loop_exit in H by exact Hle. injection H as <- <- <- <-.
  rewrite Ht, model_calls_app, dispatches_app. cbn.
  repeat split; lia.
Qed.

(** X4. A response that holds no tool call ends the run in that round:
    the output is the buffer followed by the texts of the response, in
    their order; the session state, the round counter and the trace stay
    as they are, so no tool is dispatched and the model is not called
    again. *)
Theorem response_without_tool_call_ends_the_run
    (tools : list json) (prompt : string) (fuel : nat)
    (max_iterations i : Z) (v : Vars) (e : Env W) (contents : list Block) :
  (i < max_iterations)%Z ->
  response_contents provider (response v) = Ok contents ->
  no_tool_use contents = true ->
  loop_of tools prompt (S fuel) max_iterations i v e
  = Ok ((final_text v ++ texts_of contents, state v, i), e).
Proof.
  intros Hlt Hc Hno.
  rewrite (loop_round _ _ _ _ _ _ _ _ _ _ _ Hlt Hc).
  rewrite scan_no_tool_use by exact Hno. reflexivity.
Qed.

(** X5. A round whose tool is neither of the two lookups and whose
    result is a non-empty text that does not start with the sentinel
    stores the tool name and the result under the call id: a lookup of
    that id in the cache then gives them, and every other entry of the
    cache is as before. *)
Theorem tool_result_is_memoized
    (tools : list json) (prompt : string) (content : Block)
    (name : string) (args : json) (id : string) (amc : list Block)
    (v : Vars) (e : Env W) (updated : list Message) (r : string)
    (appended : list string) (w1 w2 : W) (response' : Response)
    (cache : gmap string (string * string)) :
  process_tool_call name args id content amc (messages v) (state v)
    (final_text v) user_id provider (langfuse_session_id, user_id)
    (world e)
  = Ok ((updated, Some r, appended), w1) ->
  r <> EmptyString ->
  startswith r SENTINEL = false ->
  name <> "get_previous_step_result" ->
  name <> "reference_tool_output" ->
  tool_results (state v) = Some cache ->
  create_message provider updated tools prompt
    (langfuse_session_id, user_id) w1 = Ok (response', w2) ->
  exists v' cache',
    branch_of tools prompt content name args id amc v e
    = Ok (Broke v',
          mkEnv w2 (trace e ++ [Dispatch name id; ModelCall updated]))
    /\ messages v' = updated
    /\ final_text v' = final_text v ++ appended
    /\ tool_results (state v') = Some cache'
    /\ cache' !! id = Some (name, r)
    /\ forall k, k <> id -> cache' !! k = cache !! k.
Proof.
  intros Hcall Hne Hsent Hn1 Hn2 Hcache Hask.
  assert (Hr : str_bool r = true) by (destruct r; [congruence|reflexivity]).
  assert (Hins : is_insufficient (Some r) = false).
  { unfold is_insufficient. rewrite Hr, Hsent. reflexivity. }
  assert (Hmemo : memoized name (Some r) = Some r).
  { unfold memoized. rewrite Hr.
    apply String.eqb_neq in Hn1, Hn2. rewrite Hn1, Hn2. reflexivity. }
  set (st' := mkState (current_plan (state v)) (StepExecutor.tools (state v))
                (Some (<[id := (name, r)]> cache))).
  assert (Hstore : match memoized name (Some r) with
                   | Some r0 => store_result (state v) id name r0 = Ok st'
                   | None => st' = state v
                   end).
  { rewrite Hmemo. unfold store_result. rewrite Hcache. reflexivity. }
  eexists _, (<[id := (name, r)]> cache). split.
  - exact (branch_broke provider user_id langfuse_session_id tools prompt
             content name args id amc v e updated (Some r) appended w1 w2
             st' response' Hcall Hins Hstore Hask).
  - cbn [messages final_text state tool_results st'].
    repeat split.
    + apply lookup_insert_eq.
    + intros k Hk. apply lookup_insert_ne. congruence.
Qed.


(** X7. In the function-call shape a response is turned into content
    blocks exactly when the arguments of every tool call are valid JSON;
    the blocks are then the text, if there is a non-empty one, followed
    by one tool call per function call, in the same order and with the
    same name and id, carrying the decoded arguments. *)
Theorem function_calls_become_tool_use_blocks
    (content : option string) (tool_calls : list ToolCall) :
  is_ok (response_contents OPENAI (OpenAIResponse content tool_calls))
  = forallb (fun tc => is_ok (loads (function_arguments tc))) tool_calls
  /\ forall blocks,
       response_contents OPENAI (OpenAIResponse content tool_calls)
       = Ok blocks ->
       exists calls,
         blocks = match content with
                  | Some t => if str_bool t then [Text t] else []
                  | None => []
                  end ++ calls
         /\ Forall2 (fun tc b =>
                       exists input,
                         loads (function_arguments tc) = Ok input
                         /\ b = ToolUse (function_name tc) input (call_id tc))
              tool_calls calls.
Proof.
  assert (Hn : forall tcs,
             is_ok (normalise_tool_calls tcs)
             = forallb (fun tc => is_ok (loads (function_arguments tc))) tcs
             /\ forall calls, normalise_tool_calls tcs = Ok calls ->
                  Forall2 (fun tc b =>
                             exists input,
                               loads (function_arguments tc) = Ok input
                               /\ b = ToolUse (function_name tc) input
                                        (call_id tc)) tcs calls).
  { induction tcs as [|tc tcs [IH1 IH2]].
    - split; [reflexivity|]. intros calls H. injection H as <-. constructor.
    - cbn [normalise_tool_calls forallb].
      destruct (loads (function_arguments tc)) as [input|x] eqn:Hl.
      + destruct (normalise_tool_calls tcs) as [bs|y].
        * split; [cbn in *; exact IH1|].
          intros calls H. injection H as <-. constructor.
          -- exists input. split; [exact Hl|reflexivity].
          -- apply IH2. reflexivity.
        * split; [cbn in *; exact IH1|]. discriminate.
      + split; [reflexivity|discriminate]. }
  destruct (Hn tool_calls) as [H1 H2]. unfold response_contents.
  destruct (normalise_tool_calls tool_calls) as [calls|x].
  - split; [exact H1|]. intros blocks H. injection H as <-.
    exists calls. split; [reflexivity|]. apply H2. reflexivity.
  - split; [exact H1|discriminate].
Qed.

End StepFurther.

Lemma run_is_bounded_by_the_cap_example :
  exists output st j e',
    StepExecutor.process_input_with_agent_loop (CO := Examples.scripted)
      Examples.example_self "plan my day" StepExecutor.ANTHROPIC "user-1"
      None None (Some Examples.empty_state) 25
      (mkEnv Examples.reuse_script [])
    = Ok ((output, st, j), e')
    /\ dispatches (trace e') <= dispatches [] + Z.to_nat 25
    /\ model_calls (trace e') <= model_calls [] + 1 + Z.to_nat 25
    /\ (0 <= j)%Z /\ (j <= Z.max 0 25)%Z.
Proof.
  match goal with
  | |- exists output st j e', ?run = _ /\ _ =>
      destruct run as [[[[output st] j] e']|x] eqn:Hrun;
        [|vm_compute in Hrun; discriminate Hrun]
  end.
  exists output, st, j, e'. split; [reflexivity|].
  exact (run_is_bounded_by_the_cap (CO := Examples.scripted)
           StepExecutor.ANTHROPIC "user-1" None Examples.example_self
           "plan my day" None Examples.empty_state st 25 j
           (mkEnv Examples.reuse_script []) e' output Hrun).
Defined.

Lemma run_returns_when_collaborators_do_example :
  exists output st j e',
    StepExecutor.process_input_with_agent_loop (CO := Examples.eager)
      Examples.example_self "plan my day" StepExecutor.ANTHROPIC "user-1"
      None None (Some Examples.empty_state) 3 (mkEnv 0 [])
    = Ok ((output, st, j), e').
Proof.
  apply (run_returns_when_collaborators_do (CO := Examples.eager)
           StepExecutor.ANTHROPIC "user-1" None).
  - intros tools prompt msgs w. eexists _, _, _. split; reflexivity.
  - intros. eexists _, _, _, _. reflexivity.
  - intros. eexists _, _. reflexivity.
  - eexists. reflexivity.
Defined.

Lemma non_positive_cap_drops_the_first_response_example :
  exists output st j e',
    StepExecutor.process_input_with_agent_loop (CO := Examples.scripted)
      Examples.example_self "plan my day" StepExecutor.ANTHROPIC "user-1"
      None None (Some Examples.empty_state) 0
      (mkEnv Examples.reuse_script [])
    = Ok ((output, st, j), e')
    /\ output = [] /\ st = Examples.empty_state /\ j = 0%Z
    /\ model_calls (trace e') = model_calls [] + 1
    /\ dispatches (trace e') = dispatches [].
Proof.
  match goal with
  | |- exists output st j e', ?run = _ /\ _ =>
      destruct run as [[[[output st] j] e']|x] eqn:Hrun;
        [|vm_compute in Hrun; discriminate Hrun]
  end.
  exists output, st, j, e'. split; [reflexivity|].
  apply (non_positive_cap_drops_the_first_response (CO := Examples.scripted)
           StepExecutor.ANTHROPIC "user-1" None Examples.example_self
           "plan my day" None Examples.empty_state st 0 j
           (mkEnv Examples.reuse_script []) e' output);
    [lia|exact Hrun].
Defined.

Lemma response_without_tool_call_ends_the_run_example :
  let opening := [mkMessage user (Plain "say hello")] in
  let v :=
    StepExecutor.mkVars opening
      (StepExecutor.AnthropicResponse
         [Text "Hello."; OtherBlock "thinking"; Text "How can I help?"])
      ["[earlier fragment]"] Examples.empty_state in
  StepExecutor.while_loop (CO := Examples.scripted) StepExecutor.ANTHROPIC
    "user-1" None [] "You are a helpful assistant." 25 25 0 v
    (mkEnv [] [ModelCall opening])
  = Ok ((["[earlier fragment]"] ++ ["Hello."; "How can I help?"],
         Examples.empty_state, 0%Z),
        mkEnv [] [ModelCall opening]).
Proof.
  cbn zeta.
  apply (response_without_tool_call_ends_the_run (CO := Examples.scripted)
           StepExecutor.ANTHROPIC "user-1" None []
           "You are a helpful assistant." 24 25 0
           (StepExecutor.mkVars [mkMessage user (Plain "say hello")]
              (StepExecutor.AnthropicResponse
                 [Text "Hello."; OtherBlock "thinking";
                  Text "How can I help?"])
              ["[earlier fragment]"] Examples.empty_state)
           (mkEnv [] [ModelCall [mkMessage user (Plain "say hello")]])
           [Text "Hello."; OtherBlock "thinking"; Text "How can I help?"]).
  - lia.
  - reflexivity.
  - reflexivity.
Defined.

Lemma tool_result_is_memoized_example :
  let opening := [mkMessage user (Plain "what is on the agenda?")] in
  let call := ToolUse "Search.Web" Examples.first_args "toolu_1" in
  let earlier : gmap string (string * string) :=
    {[ "toolu_0" := ("Calendar.List", "three meetings") ]} in
  let v :=
    StepExecutor.mkVars opening (StepExecutor.AnthropicResponse [call]) []
      (StepExecutor.mkState None None (Some earlier)) in
  exists v' cache' e',
    StepExecutor.tool_use_branch (CO := Examples.scripted)
      StepExecutor.ANTHROPIC "user-1" None []
      "You are a helpful assistant." call "Search.Web" Examples.first_args
      "toolu_1" [] v
      (mkEnv [StepExecutor.AnthropicResponse [Text "Here it is."]] [])
    = Ok (StepExecutor.Broke v', e')
    /\ StepExecutor.tool_results (StepExecutor.state v') = Some cache'
    /\ cache' !! "toolu_1"
       = Some ("Search.Web",
               Examples.example_result "Search.Web" Examples.first_args
                 (StepExecutor.mkState None None (Some earlier)))
    /\ cache' !! "toolu_0" = earlier !! "toolu_0".
Proof.
  cbn zeta.
  destruct (tool_result_is_memoized (CO := Examples.scripted)
              StepExecutor.ANTHROPIC "user-1" None []
              "You are a helpful assistant."
              (ToolUse "Search.Web" Examples.first_args "toolu_1")
              "Search.Web" Examples.first_args "toolu_1" []
              (StepExecutor.mkVars
                 [mkMessage user (Plain "what is on the agenda?")]
                 (StepExecutor.AnthropicResponse
                    [ToolUse "Search.Web" Examples.first_args "toolu_1"])
                 []
                 (StepExecutor.mkState None None
                    (Some {[ "toolu_0" :=
                               ("Calendar.List", "three meetings") ]})))
              (mkEnv [StepExecutor.AnthropicResponse [Text "Here it is."]]
                 [])
              _ _ _ _ [] (StepExecutor.AnthropicResponse [Text "Here it is."])
              {[ "toolu_0" := ("Calendar.List", "three meetings") ]}
              eq_refl)
    as (v' & cache' & Hb & _ & _ & Hc & Hid & Hother).
  - vm_compute. discriminate.
  - vm_compute. reflexivity.
  - discriminate.
  - discriminate.
  - reflexivity.
  - reflexivity.
  - exists v', cache'. eexists. split; [exact Hb|]. split; [exact Hc|].
    split; [exact Hid|]. apply Hother. discriminate.
Defined.


Lemma function_calls_become_tool_use_blocks_example :
  let calls :=
    [StepExecutor.mkToolCall "call_1" "Search_Web" "{}";
     StepExecutor.mkToolCall "call_2" "Calendar_List" "[1, 2]"] in
  exists blocks,
    StepExecutor.response_contents StepExecutor.OPENAI
      (StepExecutor.OpenAIResponse (Some "Two lookups.") calls)
    = Ok blocks
    /\ exists tool_uses,
         blocks = [Text "Two lookups."] ++ tool_uses
         /\ Forall2 (fun tc b =>
                       exists input,
                         loads (StepExecutor.function_arguments tc) = Ok input
                         /\ b = ToolUse (StepExecutor.function_name tc) input
                                  (StepExecutor.call_id tc))
              calls tool_uses.
Proof.
  cbn zeta.
  match goal with
  | |- exists blocks, ?r = _ /\ _ =>
      destruct r as [blocks|x] eqn:Hr; [|vm_compute in Hr; discriminate Hr]
  end.
  exists blocks. split; [reflexivity|].
  exact (proj2 (function_calls_become_tool_use_blocks (Some "Two lookups.")
                  [StepExecutor.mkToolCall "call_1" "Search_Web" "{}";
                   StepExecutor.mkToolCall "call_2" "Calendar_List" "[1, 2]"])
           blocks Hr).
Defined.

(** * Further properties of [MCPHost] *)

(** ** The map from tool names to clients *)

Section HostCatalog.
Context `{PB : Builtins} {W : Type} {CO : MCPHost.Collaborators W}.
Import MCPHost.

Lemma listed_name_dec (listed : list Tool) (name : string) :
  {exists t, t ∈ listed /\ tool_name t = name}
  + {~ exists t, t ∈ listed /\ tool_name t = name}.
Proof.
  destruct (decide (name ∈ tool_name <$> listed)) as [Hin|Hout].
  - left. apply list_elem_of_fmap in Hin as (t & -> & Ht).
    exists t. split; [exact Ht|reflexivity].
  - right. intros (t & Ht & <-). apply Hout.
    apply list_elem_of_fmap. exists t. split; [reflexivity|exact Ht].
Qed.

(** The map after the tools [listed] by [client] have been entered. *)
Lemma enter_tools (client : string) (listed : list Tool)
    (m : gmap string string) :
  let m' := fold_left (fun m tool => <[tool_name tool := client]> m) listed m in
  (forall t, t ∈ listed -> m' !! tool_name t = Some client)
  /\ (forall name, (forall t, t ∈ listed -> tool_name t <> name) ->
                   m' !! name = m !! name).
Proof.
  revert m. induction listed as [|t0 listed IH]; intros m; cbn zeta.
  - split; [intros t Ht; inversion Ht|reflexivity].
  - cbn [fold_left].
    destruct (IH (<[tool_name t0 := client]> m)) as [IH1 IH2].
    cbn zeta in IH1, IH2. split.
    + intros t Ht. apply elem_of_cons in Ht as [->|Ht]; [|apply IH1, Ht].
      destruct (listed_name_dec listed (tool_name t0))
        as [(t & Ht & Heq)|Hno].
      * pose proof (IH1 t Ht) as H1. rewrite Heq in H1. exact H1.
      * rewrite IH2; [apply lookup_insert_eq|].
        intros t Ht Heq. apply Hno. exists t. split; assumption.
    + intros name Hname. rewrite IH2.
      * apply lookup_insert_ne. apply Hname. left.
      * intros t Ht. apply Hname. right. exact Ht.
Qed.

Lemma collect_tools_app (clients clients' : list string) (tools : list Tool)
    (m : gmap string string) (e : Env W) :
  collect_tools (clients ++ clients') tools m e
  = match collect_tools clients tools m e with
    | Ok ((tools1, m1), e1) => collect_tools clients' tools1 m1 e1
    | Raise x => Raise x
    end.
Proof.
  revert tools m e. induction clients as [|c clients IH]; intros tools m e.
  - reflexivity.
  - cbn [app collect_tools]. unfold bind.
    destruct (external (list_tools c) e) as [[listed e1]|x]; [|reflexivity].
    apply IH.
Qed.

(** What [collect_tools] leaves: the tools gained, in the order of the
    clients; a name that was mapped stays mapped, to its client or to one
    of [clients]; every tool gained is mapped to one of [clients]; and
    every entry is an old one or belongs to a tool gained. *)
Lemma collect_tools_spec (clients : list string) :
  forall (tools : list Tool) (m : gmap string string) (e e' : Env W)
         (tools' : list Tool) (m' : gmap string string),
    collect_tools clients tools m e = Ok ((tools', m'), e') ->
    exists added,
      tools' = tools ++ added
      /\ trace e' = trace e
      /\ (forall name c, m !! name = Some c ->
            exists c', m' !! name = Some c' /\ (c' = c \/ c' ∈ clients))
      /\ (forall t, t ∈ added ->
            exists c, c ∈ clients /\ m' !! tool_name t = Some c)
      /\ (forall name c, m' !! name = Some c ->
            m !! name = Some c
            \/ (c ∈ clients /\ exists t, t ∈ added /\ tool_name t = name)).
Proof.
  induction clients as [|client clients IH];
    intros tools m e e' tools' m' H.
  - cbn in H. injection H as <- <- <-. exists [].
    rewrite app_nil_r. repeat split; try reflexivity.
    + intros name c Hc. exists c. split; [exact Hc|left; reflexivity].
    + intros t Ht. inversion Ht.
    + intros name c Hc. left. exact Hc.
  - cbn [collect_tools] in H.
    apply bind_ok in H as (listed & e1 & Hl & H).
    apply external_inv in Hl as [_ Ht1].
    apply IH in H as (added & -> & Htr & Hkeep & Hadded & Horigin).
    destruct (enter_tools client listed m) as [Hin Hout]. cbn zeta in Hin, Hout.
    exists (listed ++ added). rewrite app_assoc.
    split; [reflexivity|]. split; [congruence|]. split; [|split].
    + intros name c Hc.
      destruct (listed_name_dec listed name)
        as [(t & Htl & <-)|Hno].
      * destruct (Hkeep _ _ (Hin t Htl)) as (c' & Hc' & [->|Hin']).
        -- exists client. split; [exact Hc'|right; left].
        -- exists c'. split; [exact Hc'|right; right; exact Hin'].
      * assert (Hsame : fold_left
                          (fun m tool => <[tool_name tool := client]> m)
                          listed m !! name = Some c).
        { rewrite Hout; [exact Hc|].
          intros t Htl Heq. apply Hno. exists t. split; assumption. }
        destruct (Hkeep _ _ Hsame) as (c' & Hc' & [->|Hin']).
        -- exists c. split; [exact Hc'|left; reflexivity].
        -- exists c'. split; [exact Hc'|right; right; exact Hin'].
    + intros t Ht. apply elem_of_app in Ht as [Htl|Hta].
      * destruct (Hkeep _ _ (Hin t Htl)) as (c' & Hc' & [->|Hin']).
        -- exists client. split; [left|exact Hc'].
        -- exists c'. split; [right; exact Hin'|exact Hc'].
      * destruct (Hadded t Hta) as (c & Hc & Hm).
        exists c. split; [right; exact Hc|exact Hm].
    + intros name c Hc.
      destruct (Horigin _ _ Hc) as [Hold|(Hin' & t & Hta & Heq)].
      * destruct (listed_name_dec listed name)
          as [(t & Htl & <-)|Hno].
        -- rewrite (Hin t Htl) in Hold. injection Hold as <-.
           right. split; [left|]. exists t.
           split; [apply elem_of_app; left; exact Htl|reflexivity].
        -- left. rewrite Hout in Hold; [exact Hold|].
           intros t Htl Heq. apply Hno. exists t. split; assumption.
      * right. split; [right; exact Hin'|]. exists t.
        split; [apply elem_of_app; right; exact Hta|exact Heq].
Qed.

(** X8. After [get_all_tools_from_servers] the map from tool names to
    clients covers exactly the tools that the enabled clients listed:
    every listed tool is mapped to an enabled client, every key of the map
    is the name of a listed tool, and the map is the one stored in
    [self]; the other attributes of [self] and the trace are unchanged. *)
Theorem tool_map_covers_the_listed_tools
    (self self' : Self) (e e' : Env W) (tools : list Tool)
    (m : gmap string string) :
  get_all_tools_from_servers self e = Ok ((tools, m, self'), e') ->
  (forall t, t ∈ tools ->
     exists c, c ∈ mcp_clients self /\ m !! tool_name t = Some c)
  /\ (forall name c, m !! name = Some c ->
        c ∈ mcp_clients self /\ exists t, t ∈ tools /\ tool_name t = name)
  /\ tool_to_client_map self' = m
  /\ mcp_clients self' = mcp_clients self
  /\ system_prompt self' = system_prompt self
  /\ trace e' = trace e.
Proof.
  unfold get_all_tools_from_servers. intros H.
  apply bind_ok in H as ([tools0 m0] & e1 & Hc & H).
  cbn [ret] in H. injection H as <- <- <- <-.
  apply collect_tools_spec in Hc as (added & -> & Ht & _ & Hadded & Horigin).
  cbn [app]. repeat split; try reflexivity; try assumption.
  - destruct (Horigin _ _ H) as [Hold|[Hin _]]; [|exact Hin].
    rewrite lookup_empty in Hold. discriminate.
  - destruct (Horigin _ _ H) as [Hold|[_ Ht']]; [|exact Ht'].
    rewrite lookup_empty in Hold. discriminate.
Qed.

(** X9. When two enabled clients list a tool of the same name, the later
    one takes the name: after [collect_tools] on clients that end with
    [client], every tool that [client] listed is mapped to [client], and
    the names that it did not list are mapped as the earlier clients left
    them. *)
Theorem last_client_takes_the_name
    (clients : list string) (client : string) (tools0 tools : list Tool)
    (m0 m : gmap string string) (e e' : Env W) :
  collect_tools (clients ++ [client]) tools0 m0 e = Ok ((tools, m), e') ->
  exists tools1 m1 e1 listed,
    collect_tools clients tools0 m0 e = Ok ((tools1, m1), e1)
    /\ list_tools client (world e1) = Ok (listed, world e')
    /\ tools = tools1 ++ listed
    /\ (forall t, t ∈ listed -> m !! tool_name t = Some client)
    /\ (forall name, (forall t, t ∈ listed -> tool_name t <> name) ->
                     m !! name = m1 !! name).
Proof.
  rewrite collect_tools_app. intros H.
  destruct (collect_tools clients tools0 m0 e) as [[[tools1 m1] e1]|x];
    [|discriminate].
  cbn [collect_tools] in H.
  apply bind_ok in H as (listed & e2 & Hl & H).
  apply external_inv in Hl as [Hl _].
  cbn [ret] in H. injection H as <- <- <-.
  exists tools1, m1, e1, listed. split; [reflexivity|]. split; [exact Hl|].
  split; [reflexivity|]. apply enter_tools.
Qed.

(** X10. A tool that an enabled client listed can be dispatched: with the
    map that [get_all_tools_from_servers] stored, a call to such a tool
    (whose name is none of the host's own two) reaches the backend of the
    client it is mapped to, and when the backend answers, the answer is
    the result of the call, unchanged; the output gains the line that
    announces the call. The lookup of the client cannot fail. *)
Theorem listed_tool_reaches_its_backend
    (self self' : Self) (e0 e1 e : Env W) (tools : list Tool)
    (m : gmap string string) (t : Tool) (tool_args : json)
    (tool_id : string) (content : Block) (amc : list Block)
    (messages : list Message) (ctx : gmap string ResultContent) :
  get_all_tools_from_servers self e0 = Ok ((tools, m, self'), e1) ->
  t ∈ tools ->
  tool_name t <> "reference_tool_output" ->
  tool_name t <> "access_resource" ->
  exists client,
    m !! tool_name t = Some client
    /\ client ∈ mcp_clients self
    /\ forall reply w',
         call_tool client (tool_name t) tool_args (world e) = Ok (reply, w') ->
         let line :=
           "Calling tool " +:+ tool_name t +:+ " with args "
           +:+ py_str tool_args +:+ " via client " +:+ client in
         _process_tool_call self' (tool_name t) tool_args tool_id content
           amc messages ctx e
         = Ok ((with_tool_exchange messages (amc ++ [content]) tool_id
                  (RMcp reply), RMcp reply, ["[" +:+ line +:+ "]"]),
               mkEnv w' (trace e ++ [Printed line])).
Proof.
  intros Hget Hin Hn1 Hn2.
  unfold get_all_tools_from_servers in Hget.
  apply bind_ok in Hget as ([tools0 m0] & e2 & Hc & Hget).
  cbn [ret] in Hget. injection Hget as <- <- <- <-.
  apply collect_tools_spec in Hc as (added & -> & _ & _ & Hadded & _).
  destruct (Hadded t Hin) as (client & Hclient & Hm).
  exists client. split; [exact Hm|]. split; [exact Hclient|].
  intros reply w' Hcall line.
  unfold _process_tool_call.
  apply String.eqb_neq in Hn1, Hn2. rewrite Hn1, Hn2.
  unfold _handle_standard_tool, set_tool_to_client_map.
  cbn [tool_to_client_map]. rewrite Hm.
  assert (Hen : bool_decide
                  (client ∈ mcp_clients
                     (mkSelf (enabled_clients self) (system_prompt self)
                        (user_context self) m0)) = true).
  { apply bool_decide_eq_true. exact Hclient. }
  rewrite Hen. unfold bind at 1, bind at 1. unfold print. rewrite emit_ok.
  unfold bind at 1.
  erewrite external_ok by (cbn [world]; exact Hcall).
  reflexivity.
Qed.

(** The tools that [collect_tools] gains are the ones that the clients
    list, in the order of the clients. *)
Lemma collect_tools_listing (clients : list string) :
  forall (tools : list Tool) (m : gmap string string) (e e' : Env W)
         (tools' : list Tool) (m' : gmap string string),
    collect_tools clients tools m e = Ok ((tools', m'), e') ->
    exists added,
      listings clients (world e) = Ok (added, world e')
      /\ tools' = tools ++ added.
Proof.
  induction clients as [|client clients IH];
    intros tools m e e' tools' m' H.
  - cbn in H. injection H as <- <- <-. exists [].
    rewrite app_nil_r. split; reflexivity.
  - cbn [collect_tools] in H.
    apply bind_ok in H as (listed & e1 & Hl & H).
    apply external_inv in Hl as [Hl _].
    apply IH in H as (added & Hrest & ->).
    exists (listed ++ added). cbn [listings]. rewrite Hl, Hrest.
    rewrite app_assoc. split; reflexivity.
Qed.

(** X11. The catalog that [get_all_tools] gives to the model holds one
    descriptor (name, description, input schema) for every tool that the
    enabled clients list, in the order of the clients and of their
    listings, followed by the host's own two tools, [access_resource] and
    then [reference_tool_output]; and every listed tool in it can be
    routed: the map stored in [self] by the same call sends its name to an
    enabled client. *)
Theorem catalog_offers_only_routable_tools
    (self self' : Self) (e e' : Env W) (catalog : list json) :
  get_all_tools self e = Ok ((catalog, self'), e') ->
  exists tools,
    listings (mcp_clients self) (world e) = Ok (tools, world e')
    /\ catalog
       = map (fun t =>
                JDict [("name", JStr (tool_name t));
                       ("description",
                        match tool_description t with
                        | Some d => JStr d
                        | None => JNull
                        end);
                       ("input_schema", inputSchema t)]) tools
         ++ [resource_access_tool; reference_tool_output]
    /\ map (StepExecutor.descriptor_name StepExecutor.ANTHROPIC) catalog
       = map (fun t => Some (tool_name t)) tools
         ++ [Some "access_resource"; Some "reference_tool_output"]
    /\ (forall t, t ∈ tools ->
          exists c, tool_to_client_map self' !! tool_name t = Some c
                    /\ c ∈ mcp_clients self')
    /\ trace e' = trace e.
Proof.
  unfold get_all_tools. intros H.
  apply bind_ok in H as ([[tools m] self1] & e1 & Hget & H).
  cbn [ret] in H. injection H as <- <- <-.
  unfold get_all_tools_from_servers in Hget.
  apply bind_ok in Hget as ([tools0 m0] & e2 & Hc & Hget).
  cbn [ret] in Hget. injection Hget as <- <- <- <-.
  destruct (collect_tools_listing _ _ _ _ _ _ _ Hc) as (listed & Hl & Heq).
  apply collect_tools_spec in Hc as (added & -> & Ht & _ & Hadded & _).
  cbn [app] in Heq. subst listed.
  exists added. cbn [app]. split; [exact Hl|]. split; [reflexivity|].
  split; [rewrite List.map_app, List.map_map; reflexivity|].
  split; [|exact Ht].
  intros t Hin. destruct (Hadded t Hin) as (c & Hc & Hm). exists c.
  split; [exact Hm|exact Hc].
Qed.

End HostCatalog.

Lemma tool_map_covers_the_listed_tools_example :
  exists tools m self' e',
    MCPHost.get_all_tools_from_servers (CO := Examples.host_eager)
      Examples.two_backends_self (mkEnv 0 [])
    = Ok ((tools, m, self'), e')
    /\ (forall t, t ∈ tools ->
          exists c, c ∈ MCPHost.mcp_clients Examples.two_backends_self
                    /\ m !! MCPHost.tool_name t = Some c)
    /\ (forall name c, m !! name = Some c ->
          c ∈ MCPHost.mcp_clients Examples.two_backends_self
          /\ exists t, t ∈ tools /\ MCPHost.tool_name t = name)
    /\ MCPHost.tool_to_client_map self' = m.
Proof.
  match goal with
  | |- exists tools m self' e', ?run = _ /\ _ =>
      destruct run as [[[[tools m] self'] e']|x] eqn:Hrun;
        [|vm_compute in Hrun; discriminate Hrun]
  end.
  exists tools, m, self', e'. split; [reflexivity|].
  destruct (tool_map_covers_the_listed_tools (CO := Examples.host_eager)
              Examples.two_backends_self self' (mkEnv 0 []) e' tools m Hrun)
    as (Hlisted & Hkeys & Hself & _).
  split; [exact Hlisted|]. split; [exact Hkeys|exact Hself].
Defined.

Lemma last_client_takes_the_name_example :
  exists tools m e',
    MCPHost.collect_tools (CO := Examples.host_eager) (["Gmail"] ++ ["Exa"])
      [] ∅ (mkEnv 0 [])
    = Ok ((tools, m), e')
    /\ m !! "search" = Some "Exa"
    /\ m !! "send_email" = Some "Gmail".
Proof.
  match goal with
  | |- exists tools m e', ?run = _ /\ _ =>
      destruct run as [[[tools m] e']|x] eqn:Hrun;
        [|vm_compute in Hrun; discriminate Hrun]
  end.
  exists tools, m, e'. split; [reflexivity|].
  destruct (last_client_takes_the_name (CO := Examples.host_eager)
              ["Gmail"] "Exa" [] tools ∅ m (mkEnv 0 []) e' Hrun)
    as (tools1 & m1 & e1 & listed & Hfirst & Hlist & _ & Hin & Hout).
  vm_compute in Hfirst. injection Hfirst as <- <- <-.
  vm_compute in Hlist. injection Hlist as <- _.
  split.
  - apply (Hin (Examples.search_tool "Search the web")). left.
  - rewrite (Hout "send_email"); [vm_compute; reflexivity|].
    intros t Ht. apply list_elem_of_singleton in Ht as ->. discriminate.
Defined.

Lemma listed_tool_reaches_its_backend_example :
  let call_args := JDict [("query", JStr "agenda")] in
  let call := ToolUse "search" call_args "toolu_1" in
  let m : gmap string string :=
    <["search" := "Exa"]>
      (<["search" := "Gmail"]> (<["send_email" := "Gmail"]> ∅)) in
  let self' := MCPHost.set_tool_to_client_map Examples.two_backends_self m in
  exists client,
    m !! "search" = Some client
    /\ client ∈ MCPHost.mcp_clients Examples.two_backends_self
    /\ MCPHost._process_tool_call (CO := Examples.host_eager) self' "search"
         call_args "toolu_1" call [] [] ∅ (mkEnv 0 [])
       = Ok ((MCPHost.with_tool_exchange [] [call] "toolu_1"
                (RMcp [TextContent (client +:+ " ran search")]),
              RMcp [TextContent (client +:+ " ran search")],
              ["[Calling tool search with args " +:+ py_str call_args
               +:+ " via client " +:+ client +:+ "]"]),
             mkEnv 0 [Printed ("Calling tool search with args "
                               +:+ py_str call_args +:+ " via client "
                               +:+ client)]).
Proof.
  cbn zeta.
  destruct (listed_tool_reaches_its_backend (CO := Examples.host_eager)
              Examples.two_backends_self
              (MCPHost.set_tool_to_client_map Examples.two_backends_self
                 (<["search" := "Exa"]>
                    (<["search" := "Gmail"]>
                       (<["send_email" := "Gmail"]> ∅))))
              (mkEnv 0 []) (mkEnv 0 []) (mkEnv 0 [])
              [MCPHost.mkTool "send_email" (Some "Send an email")
                 (JDict [("type", JStr "object")]);
               Examples.search_tool "Search the mailbox";
               Examples.search_tool "Search the web"]
              (<["search" := "Exa"]>
                 (<["search" := "Gmail"]> (<["send_email" := "Gmail"]> ∅)))
              (Examples.search_tool "Search the web")
              (JDict [("query", JStr "agenda")]) "toolu_1"
              (ToolUse "search" (JDict [("query", JStr "agenda")]) "toolu_1")
              [] [] ∅)
    as (client & Hm & Hin & Hcall).
  - vm_compute. reflexivity.
  - right. right. left.
  - discriminate.
  - discriminate.
  - exists client. split; [exact Hm|]. split; [exact Hin|].
    apply (Hcall [TextContent (client +:+ " ran search")] 0). reflexivity.
Defined.

Lemma catalog_offers_only_routable_tools_example :
  let schema := JDict [("type", JStr "object")] in
  let described name description :=
    JDict [("name", JStr name); ("description", JStr description);
           ("input_schema", schema)] in
  exists self' e',
    MCPHost.get_all_tools (CO := Examples.host_eager)
      Examples.two_backends_self (mkEnv 0 [])
    = Ok (([described "send_email" "Send an email";
            described "search" "Search the mailbox";
            described "search" "Search the web";
            MCPHost.resource_access_tool; MCPHost.reference_tool_output],
           self'), e')
    /\ MCPHost.tool_to_client_map self' !! "search" = Some "Exa"
    /\ MCPHost.tool_to_client_map self' !! "send_email" = Some "Gmail".
Proof.
  cbn zeta.
  destruct (MCPHost.get_all_tools (CO := Examples.host_eager)
              Examples.two_backends_self (mkEnv 0 []))
    as [[[catalog self'] e']|x] eqn:Hrun;
    [|vm_compute in Hrun; discriminate Hrun].
  destruct (catalog_offers_only_routable_tools (CO := Examples.host_eager)
              Examples.two_backends_self self' (mkEnv 0 []) e' catalog Hrun)
    as (tools & Hl & Hcat & _ & _ & _).
  cbn in Hl. injection Hl as <- _. cbn in Hcat. subst catalog.
  exists self', e'. split; [reflexivity|].
  vm_compute in Hrun. injection Hrun as <- _.
  split; vm_compute; reflexivity.
Defined.

(** ** The resources attached to the query *)

Section HostResources.
Context `{PB : Builtins} {W : Type} {CO : MCPHost.Collaborators W}.
Import MCPHost.

Lemma model_calls_printed (new : list Event) :
  forallb is_printed new = true -> model_calls new = 0.
Proof.
  unfold model_calls. induction new as [|ev new IH]; [reflexivity|].
  cbn [forallb]. intros H. apply andb_prop in H as [Hev H].
  destruct ev; try discriminate Hev. cbn. exact (IH H).
Qed.

Lemma dispatches_printed (new : list Event) :
  forallb is_printed new = true -> dispatches new = 0.
Proof.
  unfold dispatches. induction new as [|ev new IH]; [reflexivity|].
  cbn [forallb]. intros H. apply andb_prop in H as [Hev H].
  destruct ev; try discriminate Hev. cbn. exact (IH H).
Qed.

Lemma printed_map (lines : list string) :
  forallb is_printed (map Printed lines) = true.
Proof. induction lines as [|l lines IH]; [reflexivity|exact IH]. Qed.

(** With a session, [get_resources_info] returns whatever the two
    listing calls do; all it adds to the trace are printed lines. *)
Lemma get_resources_info_ok (client : string) (e : Env W) :
  has_session client (world e) = true ->
  exists info e' lines,
    get_resources_info client e = Ok (info, e')
    /\ trace e' = trace e ++ map Printed lines
    /\ (forall x y w1 w2,
          list_resources client (world e) = (Raise x, w1) ->
          list_resource_templates client w1 = (Raise y, w2) ->
          info = EmptyString /\ world e' = w2
          /\ lines = ["Error getting resources: " +:+ exn_str x;
                      "Error getting resource templates: " +:+ exn_str y])
    /\ (forall w1 w2,
          list_resources client (world e) = (Ok [], w1) ->
          list_resource_templates client w1 = (Ok [], w2) ->
          info = EmptyString /\ world e' = w2 /\ lines = []).
Proof.
  intros Hs. unfold get_resources_info. rewrite Hs.
  unfold bind at 1. unfold listed_or_empty at 1.
  destruct (list_resources client (world e)) as [[rs|x] w1] eqn:H1;
    unfold bind at 1; unfold listed_or_empty at 1; cbn [world trace];
    destruct (list_resource_templates client w1) as [[ts|y] w2] eqn:H2.
  - destruct rs as [|r rs], ts as [|t ts].
    + exists EmptyString, (mkEnv w2 (trace e)), [].
      cbn [map]. rewrite app_nil_r.
      split; [reflexivity|]. split; [reflexivity|].
      split; [intros; congruence|].
      intros w1' w2' Hx Hy. injection Hx as <-.
      rewrite H2 in Hy. injection Hy as <-.
      repeat split; reflexivity.
    + eexists _, _, [_]. split; [reflexivity|]. split; [reflexivity|].
      split; intros; congruence.
    + eexists _, _, [_]. split; [reflexivity|]. split; [reflexivity|].
      split; intros; congruence.
    + eexists _, _, [_]. split; [reflexivity|]. split; [reflexivity|].
      split; intros; congruence.
  - destruct rs as [|r rs].
    + eexists _, _, [_]. split; [reflexivity|]. split; [reflexivity|].
      split; intros; congruence.
    + eexists _, _, [_; _]. split; [reflexivity|].
      split; [cbn [trace map]; rewrite <- app_assoc; reflexivity|].
      split; intros; congruence.
  - destruct ts as [|t ts].
    + eexists _, _, [_]. split; [reflexivity|]. split; [reflexivity|].
      split; intros; congruence.
    + eexists _, _, [_; _]. split; [reflexivity|].
      split; [cbn [trace map]; rewrite <- app_assoc; reflexivity|].
      split; intros; congruence.
  - eexists _, _, [_; _]. split; [reflexivity|].
    split; [cbn [trace map]; rewrite <- app_assoc; reflexivity|].
    split; [|intros; congruence].
    intros x' y' w1' w2' Hx Hy. injection Hx as <- <-.
    rewrite H2 in Hy. injection Hy as <- <-.
    repeat split; reflexivity.
Qed.

(** X12. A failure of a listing call does not escape from
    [get_resources_info]: for a client that has a session the call always
    returns, and all it adds to the trace are printed lines. When both
    listings fail, the result is the empty text and the two errors are
    printed; when both are empty, the result is the empty text and nothing
    is printed. *)
Theorem resource_listing_failures_do_not_escape (client : string)
    (e : Env W) :
  has_session client (world e) = true ->
  exists info e' lines,
    get_resources_info client e = Ok (info, e')
    /\ trace e' = trace e ++ map Printed lines
    /\ (forall x y w1 w2,
          list_resources client (world e) = (Raise x, w1) ->
          list_resource_templates client w1 = (Raise y, w2) ->
          info = EmptyString /\ world e' = w2
          /\ lines = ["Error getting resources: " +:+ exn_str x;
                      "Error getting resource templates: " +:+ exn_str y])
    /\ (forall w1 w2,
          list_resources client (world e) = (Ok [], w1) ->
          list_resource_templates client w1 = (Ok [], w2) ->
          info = EmptyString /\ world e' = w2 /\ lines = []).
Proof. exact (get_resources_info_ok client e). Qed.

(** The loop over the clients: it returns one text per client, or raises
    [UninitializedSession]. *)
Lemma resources_of_cases (clients : list string) :
  forall e : Env W,
    resources_of clients e = Raise UninitializedSession
    \/ exists infos e' lines,
         resources_of clients e = Ok (infos, e')
         /\ length infos = length clients
         /\ trace e' = trace e ++ map Printed lines.
Proof.
  induction clients as [|c clients IH]; intros e.
  - right. exists [], e, []. cbn. rewrite app_nil_r. repeat split.
  - cbn [resources_of].
    destruct (has_session c (world e)) eqn:Hs.
    + destruct (get_resources_info_ok c e Hs)
        as (info & e1 & lines1 & H1 & Ht1 & _).
      destruct (IH e1) as [Hr|(infos & e2 & lines2 & H2 & Hlen & Ht2)].
      * left. unfold bind at 1. rewrite H1. cbv beta iota.
        unfold bind at 1. rewrite Hr. reflexivity.
      * right. exists (info :: infos), e2, (lines1 ++ lines2).
        unfold bind at 1. rewrite H1. cbv beta iota.
        unfold bind at 1. rewrite H2. cbn [ret length].
        split; [reflexivity|]. split; [congruence|].
        rewrite Ht2, Ht1, List.map_app, app_assoc. reflexivity.
    + left. unfold bind at 1, get_resources_info. rewrite Hs. reflexivity.
Qed.

Lemma resources_of_without_session (client : string)
    (clients : list string) :
  client ∈ clients ->
  (forall w, has_session client w = false) ->
  forall e : Env W, resources_of clients e = Raise UninitializedSession.
Proof.
  intros Hin Hno.
  induction clients as [|c clients IH]; intros e; [inversion Hin|].
  cbn [resources_of].
  destruct (has_session c (world e)) eqn:Hs.
  - assert (Hin' : client ∈ clients).
    { apply elem_of_cons in Hin as [->|Hin]; [|exact Hin].
      rewrite Hno in Hs. discriminate. }
    destruct (get_resources_info_ok c e Hs)
      as (info & e1 & lines1 & H1 & _).
    unfold bind at 1. rewrite H1. cbv beta iota.
    unfold bind at 1. rewrite (IH Hin' e1). reflexivity.
  - unfold bind at 1, get_resources_info. rewrite Hs. reflexivity.
Qed.

(** X13. When an enabled client has no session, a run raises
    [UninitializedSession], whatever the provider and the backends do,
    also when they would raise themselves: the resources are listed
    before the tools and before the first call to the model. *)
Theorem missing_session_fails_the_run
    (fuel : nat) (self : Self) (query : string)
    (system_prompt : option string) (state : option State)
    (client : string) (e : Env W) :
  client ∈ mcp_clients self ->
  (forall w, has_session client w = false) ->
  process_input_with_agent_loop fuel self query system_prompt state e
  = Raise UninitializedSession.
Proof.
  intros Hin Hno.
  unfold process_input_with_agent_loop, _prepare_query,
    get_all_resources_info.
  unfold bind at 1, bind at 1, bind at 1.
  rewrite (resources_of_without_session client _ Hin Hno e). reflexivity.
Qed.

Lemma resources_of_entries (clients : list string) :
  forall (e e' : Env W) (infos : list string),
    resources_of clients e = Ok (infos, e') ->
    client_entries clients e infos e'.
Proof.
  induction clients as [|c clients IH]; intros e e' infos H.
  - cbn in H. injection H as <- <-. constructor.
  - cbn [resources_of] in H.
    apply bind_ok in H as (info & e1 & H1 & H).
    apply bind_ok in H as (rest & e2 & H2 & H).
    cbn [ret] in H. injection H as <- <-.
    econstructor; [exact H1|]. apply IH. exact H2.
Qed.

(** What [_prepare_query] returns, and what it adds to the trace. *)
Lemma prepare_query_inv
    (self : Self) (query enriched : string) (e e' : Env W) :
  _prepare_query self query e = Ok (enriched, e') ->
  exists infos lines,
    client_entries (mcp_clients self) e infos e'
    /\ enriched = query +:+ nl +:+ nl +:+ RESOURCES_HEADER +:+ join nl infos
    /\ length infos = length (mcp_clients self)
    /\ trace e' = trace e ++ map Printed lines.
Proof.
  unfold _prepare_query, get_all_resources_info. intros H.
  apply bind_ok in H as (info & e1 & H & Hret).
  cbn [ret] in Hret. injection Hret as <- <-.
  apply bind_ok in H as (infos & e2 & H & Hret).
  cbn [ret] in Hret. injection Hret as <- <-.
  pose proof (resources_of_entries _ _ _ _ H) as Hentries.
  destruct (resources_of_cases (mcp_clients self) e)
    as [Hr|(infos' & e3 & lines & Hok & Hlen & Ht)]; [congruence|].
  rewrite Hok in H. injection H as <- <-.
  exists infos', lines. split; [exact Hentries|].
  split; [reflexivity|]. split; [exact Hlen|exact Ht].
Qed.

(** X14. The query that the model receives is the user's query, a blank
    line, the header of the resources and one entry per enabled client:
    the entries are what [get_resources_info] gives for the clients, taken
    in the order of the clients, and they are separated by line feeds. The
    header is there also when no client has a resource. Preparing the
    query adds only printed lines to the trace. *)
Theorem query_is_followed_by_the_resources
    (self : Self) (query enriched : string) (e e' : Env W) :
  _prepare_query self query e = Ok (enriched, e') ->
  exists infos lines,
    client_entries (mcp_clients self) e infos e'
    /\ enriched = query +:+ nl +:+ nl +:+ RESOURCES_HEADER +:+ join nl infos
    /\ length infos = length (mcp_clients self)
    /\ trace e' = trace e ++ map Printed lines.
Proof. exact (prepare_query_inv self query enriched e e'). Qed.

End HostResources.

Lemma resource_listing_failures_do_not_escape_example :
  MCPHost.get_resources_info (CO := Examples.host_eager) "Exa" (mkEnv 0 [])
  = Ok (EmptyString,
        mkEnv 0 [Printed "Error getting resources: connection closed";
                 Printed "Error getting resource templates: connection closed"]).
Proof.
  destruct (resource_listing_failures_do_not_escape
              (CO := Examples.host_eager) "Exa" (mkEnv 0 []) eq_refl)
    as (info & e' & lines & H & Ht & Hfail & _).
  destruct (Hfail (External "connection closed")
              (External "connection closed") 0 0 eq_refl eq_refl)
    as (-> & Hw & ->).
  rewrite H. destruct e' as [w t]. cbn in Hw, Ht. subst w t. reflexivity.
Defined.

Lemma missing_session_fails_the_run_example :
  MCPHost.process_input_with_agent_loop (CO := Examples.host_eager) 5
    (MCPHost.mkSelf ["Gmail"; "Slack"] "You are a helpful assistant."
       EmptyString ∅)
    "What is new?" None None (mkEnv 0 [])
  = Raise UninitializedSession.
Proof.
  apply (missing_session_fails_the_run (CO := Examples.host_eager) 5
           (MCPHost.mkSelf ["Gmail"; "Slack"] "You are a helpful assistant."
              EmptyString ∅)
           "What is new?" None None "Slack" (mkEnv 0 [])).
  - apply (bool_decide_unpack _). vm_compute. exact I.
  - intros w. reflexivity.
Defined.

Lemma query_is_followed_by_the_resources_example :
  let gmail :=
    "### Available resources for Client Gmail:" +:+ nl
    +:+ "Name: inbox, Description: Unread mail, URI: gmail://inbox" +:+ nl in
  exists e',
    MCPHost._prepare_query (CO := Examples.host_eager)
      Examples.two_backends_self "What is new?" (mkEnv 0 [])
    = Ok ("What is new?" +:+ nl +:+ nl +:+ RESOURCES_HEADER
          +:+ gmail +:+ nl +:+ EmptyString, e')
    /\ client_entries (CO := Examples.host_eager) ["Gmail"; "Exa"]
         (mkEnv 0 []) [gmail; EmptyString] e'.
Proof.
  cbn zeta.
  destruct (MCPHost._prepare_query (CO := Examples.host_eager)
              Examples.two_backends_self "What is new?" (mkEnv 0 []))
    as [[enriched e']|x] eqn:Hrun;
    [|vm_compute in Hrun; discriminate Hrun].
  destruct (query_is_followed_by_the_resources (CO := Examples.host_eager)
              Examples.two_backends_self "What is new?" enriched
              (mkEnv 0 []) e' Hrun)
    as (infos & lines & Hentries & -> & _ & _).
  change (MCPHost.mcp_clients Examples.two_backends_self)
    with ["Gmail"; "Exa"] in Hentries.
  inversion Hentries as [|c cs info1 rest1 e0 e1 e2 H1 Hrest]; subst.
  inversion Hrest as [|c cs info2 rest2 e0 e3 e4 H2 Hnil]; subst.
  inversion Hnil; subst.
  vm_compute in H1. injection H1 as <- <-.
  vm_compute in H2. injection H2 as <- <-.
  eexists. split; [reflexivity|].
  econstructor; [vm_compute; reflexivity|].
  econstructor; [vm_compute; reflexivity|]. constructor.
Defined.

(** ** The unbounded loop *)

Section HostRun.
Context `{PB : Builtins} {W : Type} {CO : MCPHost.Collaborators W}.
Import MCPHost.

Variables (self : Self) (available_tools : list json)
          (current_system_prompt : string).

Local Abbreviation host_loop :=
  (while_loop self available_tools current_system_prompt).
Local Abbreviation host_scan :=
  (scan self available_tools current_system_prompt).
Local Abbreviation host_branch :=
  (tool_use_branch self available_tools current_system_prompt).
Local Abbreviation host_ask msgs :=
  (messages_create "claude-3-5-sonnet-20241022" 4096 current_system_prompt
     msgs available_tools).

Lemma host_scan_no_tool_use (contents amc : list Block) (v : Vars)
    (e : Env W) :
  no_tool_use contents = true ->
  host_scan contents amc v e
  = Ok (NoToolCalls (final_text v ++ texts_of contents), e).
Proof.
  intros Hno.
  rewrite <- (app_nil_r contents) at 1.
  rewrite host_scan_prefix by exact Hno. reflexivity.
Qed.

(** X15. A response without a tool call ends the run, and its leading
    text is put out twice: the output is the buffer, the texts of the
    response in their order, and then once more the text of the first
    block if that block is a text. The result cache and the trace stay as
    they are. *)
Theorem leading_text_of_the_last_response_is_repeated
    (fuel : nat) (v : Vars) (e : Env W) :
  no_tool_use (response v) = true ->
  host_loop (S fuel) v e
  = Ok ((final_text v ++ texts_of (response v)
         ++ leading_text (response v),
         tool_results_context v), e).
Proof.
  intros Hno. cbn [while_loop]. unfold bind at 1.
  rewrite host_scan_no_tool_use by exact Hno. cbv beta iota.
  destruct (response v) as [|[t|n a i|ty] rest]; cbn [leading_text ret];
    rewrite ?app_nil_r, <- ?app_assoc; reflexivity.
Qed.

(** A call to a backend tool returns when the map of the tools only
    names enabled clients and the backends answer. *)
Lemma standard_tool_returns (name : string) (args : json) (id : string)
    (content : Block) (amc : list Block) (msgs : list Message)
    (ctx : gmap string ResultContent) (e : Env W) :
  name <> "reference_tool_output" ->
  name <> "access_resource" ->
  (forall c, tool_to_client_map self !! name = Some c ->
             c ∈ mcp_clients self) ->
  (forall c w, exists reply w', call_tool c name args w = Ok (reply, w')) ->
  exists h e',
    _process_tool_call self name args id content amc msgs ctx e
    = Ok (h, e').
Proof.
  intros Hn1 Hn2 Hmap Hback. unfold _process_tool_call.
  apply String.eqb_neq in Hn1, Hn2. rewrite Hn1, Hn2.
  unfold _handle_standard_tool.
  destruct (tool_to_client_map self !! name) as [c|] eqn:Hm.
  - rewrite (bool_decide_eq_true_2 _ (Hmap c eq_refl)).
    destruct (Hback c (world e)) as (reply & w' & Hcall).
    unfold bind at 1, bind at 1. unfold print. rewrite emit_ok.
    unfold bind at 1. erewrite external_ok by (cbn [world]; exact Hcall).
    eexists _, _. reflexivity.
  - eexists _, _. reflexivity.
Qed.

(** X16. Nothing bounds the rounds of the host: when every response of
    the provider asks for a tool of a backend, the map of the tools only
    names enabled clients and the backends answer, the loop does not end,
    whatever the number of rounds it is given. *)
Theorem loop_has_no_cap :
  (forall name c, tool_to_client_map self !! name = Some c ->
                  c ∈ mcp_clients self) ->
  (forall c name args w, exists reply w',
      call_tool c name args w = Ok (reply, w')) ->
  (forall msgs w, exists blocks w',
      host_ask msgs w = Ok (blocks, w') /\ requests_backend_tool blocks) ->
  forall (fuel : nat) (v : Vars) (e : Env W),
    requests_backend_tool (response v) ->
    host_loop fuel v e = Raise Diverged.
Proof.
  intros Hmap Hback Hmodel.
  induction fuel as [|fuel IH]; intros v e Hreq; [reflexivity|].
  destruct Hreq as (pre & name & args & id & rest & Hresp & Hpre & Hn1 & Hn2).
  cbn [while_loop]. unfold bind at 1.
  rewrite Hresp, host_scan_prefix by exact Hpre. cbn [scan].
  destruct (standard_tool_returns name args id (ToolUse name args id)
              ([] ++ text_blocks pre) (messages (host_after_texts v pre))
              (tool_results_context (host_after_texts v pre))
              (mkEnv (world e) (trace e ++ [Dispatch name id]))
              Hn1 Hn2 (Hmap name) (fun c => Hback c name args))
    as ([[updated rc] appended] & e1 & Hcall).
  destruct (Hmodel updated (world e1)) as (blocks & w' & Hask & Hnext).
  rewrite (host_branch_broke _ _ _ _ _ _ _ _ _ _ _ _ _ _ _ _ Hcall Hask).
  apply IH. exact Hnext.
Qed.

(** Every round adds one dispatch and one call to the model. *)
Lemma host_loop_calls (fuel : nat) :
  forall (v : Vars) (e e' : Env W) (output : list string)
         (ctx : gmap string ResultContent),
    host_loop fuel v e = Ok ((output, ctx), e') ->
    model_calls (trace e') + dispatches (trace e)
    = model_calls (trace e) + dispatches (trace e').
Proof.
  induction fuel as [|fuel IH]; intros v e e' output ctx H; [discriminate|].
  cbn [while_loop] in H.
  apply bind_ok in H as (outcome & e1 & Hscan & H).
  apply host_scan_inv in Hscan
    as [(-> & -> & _)|(pre & n & a & i & rest & _ & _ & Hb)].
  - cbn [ret] in H. injection H as <- <- <-. lia.
  - apply host_branch_trace in Hb as (v' & lines & -> & Ht & _).
    apply IH in H. rewrite Ht in H.
    rewrite !model_calls_app, !dispatches_app in H.
    rewrite (model_calls_printed _ (printed_map lines)) in H.
    rewrite (dispatches_printed _ (printed_map lines)) in H.
    cbn in H. lia.
Qed.

(** X17. The loop catches no exception of the dispatcher: when the
    handler of the first tool call of a response raises, the run ends
    with that exception, after the texts before the call have been
    scanned and before the model is called again. *)
Theorem dispatcher_failure_ends_the_run
    (fuel : nat) (v : Vars) (e : Env W) (pre rest : list Block)
    (name : string) (args : json) (id : string) (x : exn) :
  response v = pre ++ ToolUse name args id :: rest ->
  no_tool_use pre = true ->
  _process_tool_call self name args id (ToolUse name args id)
    (text_blocks pre) (messages v) (tool_results_context v)
    (mkEnv (world e) (trace e ++ [Dispatch name id]))
  = Raise x ->
  host_loop (S fuel) v e = Raise x.
Proof.
  intros Hresp Hpre Hcall.
  cbn [while_loop]. unfold bind at 1.
  rewrite Hresp, host_scan_prefix by exact Hpre. cbn [scan app].
  rewrite (host_branch_raises _ _ _ _ _ _ _ _ _ _ x); [reflexivity|].
  exact Hcall.
Qed.

(** X18. A round that reads a resource: the result of the call is the
    texts and blobs of the resource joined by line feeds, the output
    gains [[Accessing resource <uri>]], nothing is printed, and the
    result is memoized under the call id exactly when it is not the
    empty text. *)
Theorem resource_round_memoizes_a_non_empty_text
    (content : Block) (pairs : list (string * json)) (uri : json)
    (client id : string) (amc : list Block) (v : Vars) (e : Env W)
    (contents : list ResourceContents) (w1 w2 : W)
    (response' : list Block) :
  dict_get pairs "uri" = Some uri ->
  dict_get pairs "client" = Some (JStr client) ->
  client ∈ mcp_clients self ->
  read_resource client uri (world e) = Ok (contents, w1) ->
  let text := _format_resource_content contents in
  let updated :=
    with_tool_exchange (messages v) (amc ++ [content]) id (RStr text) in
  host_ask updated w1 = Ok (response', w2) ->
  exists v',
    host_branch content "access_resource" (JDict pairs) id amc v e
    = Ok (Broke v',
          mkEnv w2 (trace e ++ [Dispatch "access_resource" id;
                                ModelCall updated]))
    /\ messages v' = updated
    /\ response v' = response'
    /\ final_text v'
       = final_text v ++ ["[Accessing resource " +:+ py_str uri +:+ "]"]
    /\ tool_results_context v' !! id
       = (if str_bool text then Some (RStr text)
          else tool_results_context v !! id)
    /\ forall k, k <> id ->
         tool_results_context v' !! k = tool_results_context v !! k.
Proof.
  intros Huri Hclient Hin Hread text updated Hask.
  assert (Hcall :
    _process_tool_call self "access_resource" (JDict pairs) id content amc
      (messages v) (tool_results_context v)
      (mkEnv (world e) (trace e ++ [Dispatch "access_resource" id]))
    = Ok ((updated, RStr text,
           ["[Accessing resource " +:+ py_str uri +:+ "]"]),
          mkEnv w1 (trace e ++ [Dispatch "access_resource" id]))).
  { unfold _process_tool_call.
    cbn [String.eqb Ascii.eqb Bool.eqb].
    unfold _handle_resource_access. cbn [getitem]. rewrite Huri, Hclient.
    unfold bind at 1. cbn [lift]. unfold bind at 1. cbn [lift].
    unfold client_of. rewrite (bool_decide_eq_true_2 _ Hin).
    unfold bind at 1. cbn [lift]. unfold bind at 1.
    erewrite external_ok by (cbn [world]; exact Hread).
    reflexivity. }
  eexists. split.
  - rewrite (host_branch_broke _ _ _ _ _ _ _ _ _ _ _ _ _ _ _ _ Hcall Hask).
    cbn [trace]. rewrite <- app_assoc. reflexivity.
  - cbn [messages response final_text tool_results_context result_bool].
    repeat split.
    + destruct (str_bool text); [apply lookup_insert_eq|reflexivity].
    + intros k Hk. destruct (str_bool text); [|reflexivity].
      apply lookup_insert_ne. congruence.
Qed.

End HostRun.

(** ** The handlers of the dispatcher *)

Section HostHandlers.
Context `{PB : Builtins} {W : Type} {CO : MCPHost.Collaborators W}.
Import MCPHost.

(** X19. A reference without a path gives back what the cache holds,
    unchanged: when the referenced id is a key of the cache and
    [extract_path] is absent, [None] or empty, the handler returns the
    history followed by the assistant message and by a tool result block
    whose content is the cached result itself, be it a text or the content
    list of a backend reply. The call leaves nothing to memoize, adds
    nothing to the output, reaches no backend and prints nothing. *)
Theorem reference_returns_the_cached_result
    (self : Self) (pairs : list (string * json))
    (referenced tool_id : string) (content : Block) (amc : list Block)
    (msgs : list Message) (ctx : gmap string ResultContent)
    (cached : ResultContent) (e : Env W) :
  dict_get pairs "tool_id" = Some (JStr referenced) ->
  truthy (default JNull (dict_get pairs "extract_path")) = false ->
  ctx !! referenced = Some cached ->
  let history :=
    msgs
    ++ [mkMessage assistant (Blocks (map Echo (amc ++ [content])));
        mkMessage user (Blocks [ToolResult tool_id cached])] in
  _extract_reference_data cached
    (default JNull (dict_get pairs "extract_path")) = Ok cached
  /\ _handle_reference_tool tool_id (JDict pairs) content amc msgs ctx
     = Ok (history, RNone)
  /\ _process_tool_call self "reference_tool_output" (JDict pairs) tool_id
       content amc msgs ctx e
     = Ok ((history, RNone, []), e).
Proof.
  intros Hid Hpath Hcached history.
  assert (Hx : _extract_reference_data cached
                 (default JNull (dict_get pairs "extract_path")) = Ok cached).
  { unfold _extract_reference_data. rewrite Hpath. reflexivity. }
  assert (Hhandler :
    _handle_reference_tool tool_id (JDict pairs) content amc msgs ctx
    = Ok (history, RNone)).
  { unfold _handle_reference_tool. cbn [getitem get_or_none].
    rewrite Hid. cbn [lookup_reference]. rewrite Hcached, Hx.
    reflexivity. }
  split; [exact Hx|]. split; [exact Hhandler|].
  unfold _process_tool_call. cbn [String.eqb Ascii.eqb Bool.eqb].
  rewrite Hhandler. reflexivity.
Qed.

(** X20. A path cannot be taken into the result of a backend tool, nor
    into a cached text that holds a JSON number, boolean or [null]: with
    a non-empty [extract_path], a reference to the content list of a
    backend reply raises the [TypeError] of [json.loads], and a reference
    to such a text raises the [TypeError] of the [in] test. The handler
    catches neither. *)
Theorem path_into_a_reply_or_a_scalar_raises
    (self : Self) (pairs : list (string * json))
    (referenced tool_id : string) (content : Block) (amc : list Block)
    (msgs : list Message) (ctx : gmap string ResultContent)
    (path : string) (e : Env W) :
  dict_get pairs "tool_id" = Some (JStr referenced) ->
  dict_get pairs "extract_path" = Some (JStr path) ->
  path <> EmptyString ->
  let run :=
    _process_tool_call self "reference_tool_output" (JDict pairs) tool_id
      content amc msgs ctx e in
  (forall item items,
      ctx !! referenced = Some (RMcp (item :: items)) ->
      run = Raise (TypeError
                     "the JSON object must be str, bytes or bytearray"))
  /\ (forall text data,
        ctx !! referenced = Some (RStr text) ->
        loads text = Ok data ->
        match data with
        | JNull | JBool _ | JInt _ | JFloat _ => True
        | _ => False
        end ->
        run = Raise (TypeError "argument is not iterable")).
Proof.
  intros Hid Hpath Hne run. subst run.
  unfold _process_tool_call, _handle_reference_tool.
  cbn [String.eqb Ascii.eqb Bool.eqb getitem get_or_none].
  rewrite Hid, Hpath. cbn [lookup_reference].
  change (default JNull (Some (JStr path))) with (JStr path).
  destruct path as [|c path]; [congruence|].
  split.
  - intros item items Hc. rewrite Hc. reflexivity.
  - intros text data Hc Hloads Hscalar. rewrite Hc.
    unfold _extract_reference_data.
    destruct text as [|c' text]; [rewrite loads_empty in Hloads; discriminate|].
    cbn [truthy str_bool result_bool negb orb]. rewrite Hloads.
    destruct (split "." (String c path)) as [|part parts] eqn:Hsplit.
    + exfalso. clear -Hsplit. cbn [split] in Hsplit.
      destruct (Ascii.eqb c "."); [discriminate|].
      destruct (split "." path); discriminate.
    + destruct data; try contradiction; reflexivity.
Qed.

(** X21. Arguments that lack a required key, or name a client that is
    not enabled, make the handlers raise [KeyError]: a reference without
    [tool_id], a resource access without [uri] or without [client], and a
    resource access whose client is a text that names no enabled client.
    No backend is reached in any of these cases. *)
Theorem missing_arguments_raise_key_error
    (self : Self) (pairs : list (string * json)) (tool_id : string)
    (content : Block) (amc : list Block) (msgs : list Message)
    (ctx : gmap string ResultContent) (e : Env W) :
  (dict_get pairs "tool_id" = None ->
   _process_tool_call self "reference_tool_output" (JDict pairs) tool_id
     content amc msgs ctx e = Raise (KeyError "tool_id"))
  /\ (dict_get pairs "uri" = None ->
      _process_tool_call self "access_resource" (JDict pairs) tool_id
        content amc msgs ctx e = Raise (KeyError "uri"))
  /\ (is_Some (dict_get pairs "uri") ->
      dict_get pairs "client" = None ->
      _process_tool_call self "access_resource" (JDict pairs) tool_id
        content amc msgs ctx e = Raise (KeyError "client"))
  /\ (forall client,
        is_Some (dict_get pairs "uri") ->
        dict_get pairs "client" = Some (JStr client) ->
        client ∉ mcp_clients self ->
        _process_tool_call self "access_resource" (JDict pairs) tool_id
          content amc msgs ctx e = Raise (KeyError client)).
Proof.
  unfold _process_tool_call, _handle_reference_tool, _handle_resource_access.
  cbn [String.eqb Ascii.eqb Bool.eqb getitem].
  repeat split.
  - intros ->. reflexivity.
  - intros ->. reflexivity.
  - intros [uri ->] ->. reflexivity.
  - intros client [uri ->] -> Hout.
    unfold bind at 1. cbn [lift]. unfold bind at 1. cbn [lift].
    unfold bind at 1, client_of.
    rewrite (bool_decide_eq_false_2 _ Hout). reflexivity.
Qed.

End HostHandlers.

Lemma leading_text_of_the_last_response_is_repeated_example :
  let v :=
    MCPHost.mkVars [mkMessage user (Plain "say goodbye")]
      [Text "Done."; OtherBlock "thinking"; Text "Bye."]
      ["[earlier fragment]"] ∅ in
  MCPHost.while_loop (CO := Examples.host_scripted) Examples.host_self []
    "You are a helpful assistant." 1 v (mkEnv [] [])
  = Ok ((["[earlier fragment]"; "Done."; "Bye."; "Done."], ∅),
        mkEnv [] []).
Proof.
  cbn zeta.
  apply (leading_text_of_the_last_response_is_repeated
           (CO := Examples.host_scripted) Examples.host_self []
           "You are a helpful assistant." 0
           (MCPHost.mkVars [mkMessage user (Plain "say goodbye")]
              [Text "Done."; OtherBlock "thinking"; Text "Bye."]
              ["[earlier fragment]"] ∅)
           (mkEnv [] [])).
  reflexivity.
Defined.

Lemma loop_has_no_cap_example :
  MCPHost.while_loop (CO := Examples.host_eager) Examples.two_backends_self
    [] "You are a helpful assistant." 40
    (MCPHost.mkVars [mkMessage user (Plain "book a flight")]
       (Examples.host_eager_response 0) [] ∅)
    (mkEnv 1 [])
  = Raise Diverged.
Proof.
  assert (Hasks : forall n,
             requests_backend_tool (Examples.host_eager_response n)).
  { intros n.
    exists [Text "Let me check."], "book_flight",
           (JDict [("to", JStr "Oslo")]),
           ("toolu_" +:+ int_str (Z.of_nat n)), [].
    split; [reflexivity|]. split; [reflexivity|]. split; discriminate. }
  apply (loop_has_no_cap (CO := Examples.host_eager)
           Examples.two_backends_self [] "You are a helpful assistant.").
  - intros name c H. unfold Examples.two_backends_self in H.
    cbn [MCPHost.tool_to_client_map] in H.
    rewrite lookup_empty in H. discriminate H.
  - intros c name args w. eexists _, _. reflexivity.
  - intros msgs w. eexists _, _. split; [reflexivity|]. apply Hasks.
  - apply Hasks.
Defined.

Lemma dispatcher_failure_ends_the_run_example :
  let args :=
    JDict [("uri", JStr "notion://page"); ("client", JStr "Notion")] in
  MCPHost.while_loop (CO := Examples.host_scripted) Examples.host_self []
    "You are a helpful assistant." 3
    (MCPHost.mkVars [mkMessage user (Plain "read my notes")]
       [Text "Reading the page."; ToolUse "access_resource" args "toolu_1"]
       [] ∅)
    (mkEnv [[Text "unreached"]] [])
  = Raise (KeyError "Notion").
Proof.
  cbn zeta.
  apply (dispatcher_failure_ends_the_run (CO := Examples.host_scripted)
           Examples.host_self [] "You are a helpful assistant." 2
           (MCPHost.mkVars [mkMessage user (Plain "read my notes")]
              [Text "Reading the page.";
               ToolUse "access_resource"
                 (JDict [("uri", JStr "notion://page");
                         ("client", JStr "Notion")]) "toolu_1"]
              [] ∅)
           (mkEnv [[Text "unreached"]] [])
           [Text "Reading the page."] [] "access_resource"
           (JDict [("uri", JStr "notion://page"); ("client", JStr "Notion")])
           "toolu_1" (KeyError "Notion")).
  - reflexivity.
  - reflexivity.
  - vm_compute. reflexivity.
Defined.

Lemma resource_round_memoizes_a_non_empty_text_example :
  let args :=
    JDict [("uri", JStr "gmail://inbox"); ("client", JStr "Gmail")] in
  let call := ToolUse "access_resource" args "toolu_1" in
  exists v' e',
    MCPHost.tool_use_branch (CO := Examples.host_eager)
      Examples.two_backends_self [] "You are a helpful assistant." call
      "access_resource" args "toolu_1" []
      (MCPHost.mkVars [mkMessage user (Plain "any mail?")] [call] [] ∅)
      (mkEnv 1 [])
    = Ok (MCPHost.Broke v', e')
    /\ MCPHost.final_text v' = ["[Accessing resource gmail://inbox]"]
    /\ MCPHost.tool_results_context v' !! "toolu_1"
       = Some (RStr ("3 unread" +:+ nl +:+ "b'\x00'")).
Proof.
  cbn zeta.
  destruct (resource_round_memoizes_a_non_empty_text
              (CO := Examples.host_eager) Examples.two_backends_self []
              "You are a helpful assistant."
              (ToolUse "access_resource"
                 (JDict [("uri", JStr "gmail://inbox");
                         ("client", JStr "Gmail")]) "toolu_1")
              [("uri", JStr "gmail://inbox"); ("client", JStr "Gmail")]
              (JStr "gmail://inbox") "Gmail" "toolu_1" []
              (MCPHost.mkVars [mkMessage user (Plain "any mail?")]
                 [ToolUse "access_resource"
                    (JDict [("uri", JStr "gmail://inbox");
                            ("client", JStr "Gmail")]) "toolu_1"] [] ∅)
              (mkEnv 1 [])
              [MCPHost.TextResourceContents "3 unread";
               MCPHost.OtherResourceContents;
               MCPHost.BlobResourceContents "b'\x00'"]
              1 2 (Examples.host_eager_response 1))
    as (v' & Hb & _ & _ & Hft & Hctx & _).
  - reflexivity.
  - reflexivity.
  - apply (bool_decide_unpack _). vm_compute. exact I.
  - reflexivity.
  - reflexivity.
  - exists v'. eexists. split; [exact Hb|]. split; [exact Hft|exact Hctx].
Defined.

Lemma reference_returns_the_cached_result_example :
  let reply := RMcp [TextContent "three meetings"] in
  let call :=
    ToolUse "reference_tool_output" (JDict [("tool_id", JStr "toolu_1")])
      "toolu_2" in
  MCPHost._process_tool_call (CO := Examples.host_scripted)
    Examples.host_self "reference_tool_output"
    (JDict [("tool_id", JStr "toolu_1")]) "toolu_2" call [] []
    {[ "toolu_1" := reply ]} (mkEnv [] [])
  = Ok (([mkMessage assistant (Blocks [Echo call]);
          mkMessage user (Blocks [ToolResult "toolu_2" reply])],
         RNone, []),
        mkEnv [] []).
Proof.
  cbn zeta.
  apply (reference_returns_the_cached_result (CO := Examples.host_scripted)
           Examples.host_self [("tool_id", JStr "toolu_1")] "toolu_1"
           "toolu_2"
           (ToolUse "reference_tool_output"
              (JDict [("tool_id", JStr "toolu_1")]) "toolu_2")
           [] [] {[ "toolu_1" := RMcp [TextContent "three meetings"] ]}
           (RMcp [TextContent "three meetings"]) (mkEnv [] [])).
  - reflexivity.
  - reflexivity.
  - vm_compute. reflexivity.
Defined.

Lemma path_into_a_reply_or_a_scalar_raises_example :
  let ctx : gmap string ResultContent :=
    {[ "toolu_1" := RMcp [TextContent "three meetings"];
       "toolu_2" := RStr "42" ]} in
  let run referenced :=
    MCPHost._process_tool_call (CO := Examples.host_scripted)
      Examples.host_self "reference_tool_output"
      (JDict [("tool_id", JStr referenced); ("extract_path", JStr "count")])
      "toolu_3" (Text "unused") [] [] ctx (mkEnv [] []) in
  run "toolu_1"
  = Raise (TypeError "the JSON object must be str, bytes or bytearray")
  /\ run "toolu_2" = Raise (TypeError "argument is not iterable").
Proof.
  cbn zeta. split.
  - apply (proj1 (path_into_a_reply_or_a_scalar_raises
                    (CO := Examples.host_scripted) Examples.host_self
                    [("tool_id", JStr "toolu_1");
                     ("extract_path", JStr "count")]
                    "toolu_1" "toolu_3" (Text "unused") [] []
                    {[ "toolu_1" := RMcp [TextContent "three meetings"];
                       "toolu_2" := RStr "42" ]}
                    "count" (mkEnv [] []) eq_refl eq_refl
                    ltac:(discriminate))
             (TextContent "three meetings") []).
    vm_compute. reflexivity.
  - apply (proj2 (path_into_a_reply_or_a_scalar_raises
                    (CO := Examples.host_scripted) Examples.host_self
                    [("tool_id", JStr "toolu_2");
                     ("extract_path", JStr "count")]
                    "toolu_2" "toolu_3" (Text "unused") [] []
                    {[ "toolu_1" := RMcp [TextContent "three meetings"];
                       "toolu_2" := RStr "42" ]}
                    "count" (mkEnv [] []) eq_refl eq_refl
                    ltac:(discriminate))
             "42" (JInt 42)).
    + vm_compute. reflexivity.
    + vm_compute. reflexivity.
    + exact I.
Defined.

Lemma missing_arguments_raise_key_error_example :
  let run name pairs :=
    MCPHost._process_tool_call (CO := Examples.host_scripted)
      Examples.host_self name (JDict pairs) "toolu_1" (Text "unused") [] []
      ∅ (mkEnv [] []) in
  run "reference_tool_output" [("extract_path", JStr "a")]
  = Raise (KeyError "tool_id")
  /\ run "access_resource" [("client", JStr "Gmail")]
     = Raise (KeyError "uri")
  /\ run "access_resource" [("uri", JStr "gmail://inbox")]
     = Raise (KeyError "client")
  /\ run "access_resource"
       [("uri", JStr "notion://page"); ("client", JStr "Notion")]
     = Raise (KeyError "Notion").
Proof.
  cbn zeta. split; [|split; [|split]].
  - apply (proj1 (missing_arguments_raise_key_error
                    (CO := Examples.host_scripted) Examples.host_self
                    [("extract_path", JStr "a")] "toolu_1" (Text "unused")
                    [] [] ∅ (mkEnv [] []))).
    reflexivity.
  - apply (proj1 (proj2 (missing_arguments_raise_key_error
                    (CO := Examples.host_scripted) Examples.host_self
                    [("client", JStr "Gmail")] "toolu_1" (Text "unused")
                    [] [] ∅ (mkEnv [] [])))).
    reflexivity.
  - apply (proj1 (proj2 (proj2 (missing_arguments_raise_key_error
                    (CO := Examples.host_scripted) Examples.host_self
                    [("uri", JStr "gmail://inbox")] "toolu_1"
                    (Text "unused") [] [] ∅ (mkEnv [] []))))).
    + eexists. reflexivity.
    + reflexivity.
  - apply (proj2 (proj2 (proj2 (missing_arguments_raise_key_error
                    (CO := Examples.host_scripted) Examples.host_self
                    [("uri", JStr "notion://page");
                     ("client", JStr "Notion")] "toolu_1"
                    (Text "unused") [] [] ∅ (mkEnv [] []))))
             "Notion").
    + eexists. reflexivity.
    + reflexivity.
    + apply (bool_decide_eq_false_1 _). vm_compute. reflexivity.
Defined.

(** ** A whole run of the host *)

Section HostWholeRun.
Context `{PB : Builtins} {W : Type} {CO : MCPHost.Collaborators W}.
Import MCPHost.

Lemma servers_trace (self self' : Self) (e e' : Env W) (tools : list Tool)
    (m : gmap string string) :
  get_all_tools_from_servers self e = Ok ((tools, m, self'), e') ->
  trace e' = trace e.
Proof.
  unfold get_all_tools_from_servers. intros H.
  apply bind_ok in H as ([tools0 m0] & e1 & Hc & H).
  cbn [ret] in H. injection H as _ _ _ <-.
  apply collect_tools_spec in Hc as (added & _ & Ht & _). exact Ht.
Qed.

(** What the part of [process_input_with_agent_loop] before the loop
    does: it prepares the query, lists the tools and makes the first call
    to the model, on the prepared query alone. *)
Lemma host_run_prelude (fuel : nat) (self : Self) (query : string)
    (system_prompt : option string) (state : option State)
    (e e' : Env W) (output : string) (st : option State) :
  process_input_with_agent_loop fuel self query system_prompt state e
  = Ok ((output, st), e') ->
  exists enriched self' catalog response0 e1 lines final ctx,
    trace e1 = trace e ++ map Printed lines
                       ++ [ModelCall [mkMessage user (Plain enriched)]]
    /\ while_loop self' catalog (prompt_or_default self system_prompt) fuel
         (mkVars [mkMessage user (Plain enriched)] response0 [] ∅) e1
       = Ok ((final, ctx), e')
    /\ output = join nl final
    /\ st = update_state state ctx.
Proof.
  unfold process_input_with_agent_loop. intros H.
  apply bind_ok in H as (enriched & e0 & Hq & H).
  apply prepare_query_inv in Hq as (infos & lines & _ & _ & _ & Ht0).
  apply bind_ok in H as ([[tools1 m1] self1] & e1 & Hs & H).
  apply servers_trace in Hs.
  apply bind_ok in H as ([catalog self2] & e2 & Hg & H).
  unfold get_all_tools in Hg.
  apply bind_ok in Hg as ([[tools2 m2] self3] & e3 & Hs2 & Hg).
  cbn [ret] in Hg. injection Hg as <- <- <-.
  apply servers_trace in Hs2.
  apply bind_ok in H as (response0 & e4 & Hask & H).
  unfold _create_claude_message in Hask.
  apply bind_ok in Hask as ([] & e5 & Hemit & Hask).
  rewrite emit_ok in Hemit. injection Hemit as <-.
  apply external_inv in Hask as [_ Ht4]. cbn [trace] in Ht4.
  apply bind_ok in H as ([final ctx] & e6 & Hloop & H).
  cbn [ret] in H. injection H as <- <- <-.
  exists enriched, self3,
         (map server_tool tools2
          ++ [resource_access_tool; reference_tool_output]),
         response0, e4, lines, final, ctx.
  split; [rewrite Ht4, Hs2, Hs, Ht0, <- app_assoc; reflexivity|].
  split; [exact Hloop|]. split; reflexivity.
Qed.

(** X22. In a run of the host that returns, the model is called once
    before the loop and once after every tool call: the run has made one
    call to the model more than it has dispatched tool calls. *)
Theorem host_run_alternates_dispatches_and_model_calls
    (fuel : nat) (self : Self) (query : string)
    (system_prompt : option string) (state : option State)
    (e e' : Env W) (output : string) (st : option State) :
  process_input_with_agent_loop fuel self query system_prompt state e
  = Ok ((output, st), e') ->
  model_calls (trace e') + dispatches (trace e)
  = model_calls (trace e) + dispatches (trace e') + 1.
Proof.
  intros H.
  apply host_run_prelude in H
    as (enriched & self' & catalog & r0 & e1 & lines & final & ctx
        & Ht & Hloop & _).
  apply host_loop_calls in Hloop. rewrite Ht in Hloop.
  rewrite !model_calls_app, !dispatches_app in Hloop.
  rewrite (model_calls_printed _ (printed_map lines)) in Hloop.
  rewrite (dispatches_printed _ (printed_map lines)) in Hloop.
  cbn in Hloop. lia.
Qed.

(** The steps of [process_input_with_agent_loop], one after the other:
    the prepared query, the two listings of the tools, the first call to
    the model, the loop and the update of the state. *)
Lemma host_run_steps (fuel : nat) (self : Self) (query : string)
    (system_prompt : option string) (state : option State)
    (e e' : Env W) (output : string) (st : option State) :
  process_input_with_agent_loop fuel self query system_prompt state e
  = Ok ((output, st), e') ->
  let prompt := prompt_or_default self system_prompt in
  exists enriched e0 listed m self1 e1 catalog self2 e2 response0 w3
         final ctx,
    let opening := [mkMessage user (Plain enriched)] in
    _prepare_query self query e = Ok (enriched, e0)
    /\ get_all_tools_from_servers self e0 = Ok ((listed, m, self1), e1)
    /\ get_all_tools self1 e1 = Ok ((catalog, self2), e2)
    /\ messages_create "claude-3-5-sonnet-20241022" 4096 prompt opening
         catalog (world e2)
       = Ok (response0, w3)
    /\ while_loop self2 catalog prompt fuel
         (mkVars opening response0 [] ∅)
         (mkEnv w3 (trace e2 ++ [ModelCall opening]))
       = Ok ((final, ctx), e')
    /\ output = join nl final
    /\ st = update_state state ctx.
Proof.
  intros H. cbv zeta. unfold process_input_with_agent_loop in H.
  apply bind_ok in H as (enriched & e0 & Hq & H).
  apply bind_ok in H as ([[tools1 m1] self1] & e1 & Hs & H).
  apply bind_ok in H as ([catalog self2] & e2 & Hg & H).
  apply bind_ok in H as (response0 & e4 & Hask & H).
  unfold _create_claude_message in Hask.
  change (prompt_or_default self2
            (Some (prompt_or_default self system_prompt)))
    with (prompt_or_default self system_prompt) in Hask.
  cbn [default] in Hask.
  apply bind_ok in Hask as ([] & e5 & Hemit & Hask).
  rewrite emit_ok in Hemit. injection Hemit as <-.
  apply external_inv in Hask as [Hask Ht4]. cbn [world trace] in Hask, Ht4.
  apply bind_ok in H as ([final ctx] & e6 & Hloop & H).
  cbn [ret] in H. injection H as <- <- <-.
  exists enriched, e0, tools1, m1, self1, e1, catalog, self2, e2, response0,
         (world e4), final, ctx.
  split; [exact Hq|]. split; [exact Hs|]. split; [exact Hg|].
  split; [exact Hask|]. split; [|split; reflexivity].
  rewrite <- Ht4. destruct e4. exact Hloop.
Qed.

(** In the loop of the host, the result of the first tool call of the
    current response is what the cache holds under the call id at the end
    of the run, when the result is truthy and no later call of the run
    carries the id. *)
Lemma host_loop_keeps_the_round_result (self : Self) (tools : list json)
    (prompt : string) (fuel : nat) (v : Vars) (e e' : Env W)
    (pre rest : list Block) (name : string) (args : json) (id : string)
    (final : list string) (ctx : gmap string ResultContent) :
  response v = pre ++ ToolUse name args id :: rest ->
  no_tool_use pre = true ->
  while_loop self tools prompt (S fuel) v e = Ok ((final, ctx), e') ->
  exists updated rc appended e1 later,
    _process_tool_call self name args id (ToolUse name args id)
      (text_blocks pre) (messages v) (tool_results_context v)
      (mkEnv (world e) (trace e ++ [Dispatch name id]))
    = Ok ((updated, rc, appended), e1)
    /\ trace e' = trace e1 ++ [ModelCall updated] ++ later
    /\ (id ∉ dispatched_ids later ->
        ctx !! id = if result_bool rc then Some rc
                    else tool_results_context v !! id)
    /\ (forall k, k <> id -> k ∉ dispatched_ids later ->
          ctx !! k = tool_results_context v !! k).
Proof.
  intros Hresp Hpre H.
  cbn [while_loop] in H.
  apply bind_ok in H as (outcome & e1 & Hscan & H).
  rewrite Hresp, host_scan_prefix in Hscan by exact Hpre.
  cbn [scan app] in Hscan.
  apply host_branch_inv in Hscan
    as (updated & rc & appended & e2 & response' & Hcall & _ & -> & Ht).
  unfold host_after_texts in Hcall.
  cbn [messages tool_results_context world trace] in Hcall.
  exists updated, rc, appended, e2.
  assert (Hlater : exists later, trace e' = trace e1 ++ later).
  { destruct (host_loop_cache self tools prompt EmptyString _ _ _ _ _ _ H)
      as (later & Hl & _).
    exists later. exact Hl. }
  destruct Hlater as (later & Hlater). exists later.
  split; [exact Hcall|].
  split; [rewrite Hlater, Ht, <- app_assoc; reflexivity|].
  assert (Hkeep : forall k, k ∉ dispatched_ids later ->
            ctx !! k
            = (if result_bool rc
               then <[id := rc]> (tool_results_context v)
               else tool_results_context v) !! k).
  { intros k Hk.
    destruct (host_loop_cache self tools prompt k _ _ _ _ _ _ H)
      as (later' & Hl' & Hkeep).
    assert (later' = later) as ->.
    { rewrite Hlater in Hl'. apply app_inv_head in Hl'. congruence. }
    rewrite (Hkeep Hk). unfold host_after_texts.
    cbn [tool_results_context]. reflexivity. }
  split.
  - intros Hk. rewrite (Hkeep id Hk).
    destruct (result_bool rc); [apply lookup_insert_eq|reflexivity].
  - intros k Hne Hk. rewrite (Hkeep k Hk).
    destruct (result_bool rc); [|reflexivity].
    apply lookup_insert_ne. congruence.
Qed.

(** X23. What a run leaves in the session state. The run prepares the
    query, lists the tools twice, asks the model and runs the loop from an
    empty cache; with [ctx] the cache that the loop returns, a state that
    has a result cache comes back with that cache updated by [ctx]: under
    every id the merged cache holds the entry of [ctx] when [ctx] has one,
    so that the results of the run win over the entries that the state
    had, and the state's own entry otherwise. Hence it keeps every entry
    whose id no tool call of the run carries, and each of its entries is
    either an entry it had before or the truthy result of a tool call
    dispatched in this run. A state that is [None] or has no result cache
    is returned as it is. And the cache of the loop does hold the results
    of the run: the truthy result that the dispatcher gives for the first
    tool call of a response is found under the call id in the cache that
    the loop returns, unless a later call of the run carries that id. *)
Theorem run_merges_its_results_into_the_session_state :
  (forall (fuel : nat) (self : Self) (query : string)
          (system_prompt : option string) (state : option State)
          (e e' : Env W) (output : string) (st : option State),
      process_input_with_agent_loop fuel self query system_prompt state e
      = Ok ((output, st), e') ->
      let prompt := prompt_or_default self system_prompt in
      exists enriched e0 listed m self1 e1 catalog self2 e2 response0 w3
             final ctx new,
        let opening := [mkMessage user (Plain enriched)] in
        _prepare_query self query e = Ok (enriched, e0)
        /\ get_all_tools_from_servers self e0 = Ok ((listed, m, self1), e1)
        /\ get_all_tools self1 e1 = Ok ((catalog, self2), e2)
        /\ messages_create "claude-3-5-sonnet-20241022" 4096 prompt opening
             catalog (world e2)
           = Ok (response0, w3)
        /\ while_loop self2 catalog prompt fuel
             (mkVars opening response0 [] ∅)
             (mkEnv w3 (trace e2 ++ [ModelCall opening]))
           = Ok ((final, ctx), e')
        /\ output = join nl final
        /\ trace e' = trace e ++ new
        /\ match state with
           | Some (mkState (Some results)) =>
               exists merged,
                 st = Some (mkState (Some merged))
                 /\ forall k,
                      merged !! k
                      = match ctx !! k with
                        | Some r => Some r
                        | None => results !! k
                        end
                      /\ (k ∉ dispatched_ids new ->
                          merged !! k = results !! k)
                      /\ forall r, merged !! k = Some r ->
                           results !! k = Some r
                           \/ (result_bool r = true
                               /\ k ∈ dispatched_ids new)
           | other => st = other
           end)
  /\ (forall (self : Self) (tools : list json) (prompt : string)
             (fuel : nat) (v : Vars) (e e' : Env W)
             (pre rest : list Block) (name : string) (args : json)
             (id : string) (final : list string)
             (ctx : gmap string ResultContent),
         response v = pre ++ ToolUse name args id :: rest ->
         no_tool_use pre = true ->
         while_loop self tools prompt (S fuel) v e
         = Ok ((final, ctx), e') ->
         exists updated rc appended e1 later,
           _process_tool_call self name args id (ToolUse name args id)
             (text_blocks pre) (messages v) (tool_results_context v)
             (mkEnv (world e) (trace e ++ [Dispatch name id]))
           = Ok ((updated, rc, appended), e1)
           /\ trace e' = trace e1 ++ [ModelCall updated] ++ later
           /\ (id ∉ dispatched_ids later ->
               ctx !! id = if result_bool rc then Some rc
                           else tool_results_context v !! id)
           /\ (forall k, k <> id -> k ∉ dispatched_ids later ->
                 ctx !! k = tool_results_context v !! k)).
Proof.
  split; [|intros; eapply host_loop_keeps_the_round_result; eassumption].
  intros fuel self query system_prompt state e e' output st H. cbv zeta.
  pose proof (host_run_prelude _ _ _ _ _ _ _ _ _ H)
    as (enriched' & self' & catalog' & r0 & e1' & lines & final' & ctx'
        & Ht & Hloop' & _ & Hst').
  pose proof (host_run_steps _ _ _ _ _ _ _ _ _ H) as Hsteps.
  cbv zeta in Hsteps.
  destruct Hsteps
    as (enriched & e0 & listed & m & self1 & e1 & catalog & self2 & e2
        & response0 & w3 & final & ctx & Hq & Hs & Hg & Hask & Hloop
        & Hout & Hst).
  set (opening := [mkMessage user (Plain enriched')]) in *.
  assert (Hnew : exists new1, trace e' = trace e1' ++ new1).
  { destruct (host_loop_cache self' catalog' _ EmptyString _ _ _ _ _ _ Hloop')
      as (new1 & Hnew1 & _).
    exists new1. exact Hnew1. }
  destruct Hnew as (new1 & Hnew1).
  assert (Hids : dispatched_ids (map Printed lines ++ [ModelCall opening]
                                 ++ new1)
                 = dispatched_ids new1).
  { rewrite !dispatched_ids_app, dispatched_ids_printed. reflexivity. }
  exists enriched, e0, listed, m, self1, e1, catalog, self2, e2, response0,
         w3, final, ctx,
         (map Printed lines ++ [ModelCall opening] ++ new1).
  split; [exact Hq|]. split; [exact Hs|]. split; [exact Hg|].
  split; [exact Hask|]. split; [exact Hloop|]. split; [exact Hout|].
  split; [rewrite Hnew1, Ht, <- !app_assoc; reflexivity|].
  destruct state as [[[results|]]|]; try exact Hst.
  cbn [update_state] in Hst, Hst'.
  exists (ctx ∪ results). split; [exact Hst|].
  assert (Hsame : ctx' ∪ results = ctx ∪ results) by congruence.
  intros k. rewrite Hids. split; [|rewrite <- Hsame; split].
  - destruct (ctx !! k) as [r|] eqn:Hk.
    + apply lookup_union_Some_l. exact Hk.
    + apply lookup_union_r. exact Hk.
  - destruct (host_loop_cache self' catalog' _ k _ _ _ _ _ _ Hloop')
      as (new2 & Hnew2 & Hkeep).
    assert (new2 = new1) as ->.
    { rewrite Hnew1 in Hnew2. apply app_inv_head in Hnew2. congruence. }
    cbn [tool_results_context] in Hkeep.
    intros Hk. apply Hkeep in Hk. rewrite lookup_empty in Hk.
    apply lookup_union_r. exact Hk.
  - destruct (host_loop_cache self' catalog' _ k _ _ _ _ _ _ Hloop')
      as (new2 & Hnew2 & Hkeep).
    assert (new2 = new1) as ->.
    { rewrite Hnew1 in Hnew2. apply app_inv_head in Hnew2. congruence. }
    cbn [tool_results_context] in Hkeep.
    intros r Hr. apply lookup_union_Some_raw in Hr as [Hr|[_ Hr]].
    + right. split.
      * refine (host_cache_holds_truthy self' catalog' _ _ _ _ _ _ _ Hloop' _
                  k r Hr).
        cbn [tool_results_context]. intros k' x Hk'.
        rewrite lookup_empty in Hk'. discriminate.
      * destruct (decide (k ∈ dispatched_ids new1)) as [Hin|Hout'];
          [exact Hin|].
        apply Hkeep in Hout'. rewrite lookup_empty in Hout'. congruence.
    + left. exact Hr.
Qed.

(** Nothing in the host reads [self.user_context]. *)
Lemma host_loop_ignores_user_context (enabled : list string)
    (prompt context context' : string) (m : gmap string string)
    (tools : list json) (current : string) (fuel : nat) :
  forall (v : Vars) (e : Env W),
    while_loop (mkSelf enabled prompt context m) tools current fuel v e
    = while_loop (mkSelf enabled prompt context' m) tools current fuel v e.
Proof.
  assert (Hscan : forall contents amc v e,
    scan (mkSelf enabled prompt context m) tools current contents amc v e
    = scan (mkSelf enabled prompt context' m) tools current contents amc v e).
  { induction contents as [|b contents IH]; intros amc v e; [reflexivity|].
    destruct b as [t|n a i|ty]; cbn [scan]; [apply IH|reflexivity|apply IH]. }
  induction fuel as [|fuel IH]; intros v e; [reflexivity|].
  cbn [while_loop]. unfold bind. rewrite Hscan.
  destruct (scan (mkSelf enabled prompt context' m) tools current
              (response v) [] v e) as [[[v'|ft] e1]|x];
    [apply IH|reflexivity|reflexivity].
Qed.

(** X24. The user context of the host only ever reaches the system
    prompt that [__init__] builds: a run does not read
    [self.user_context], so two hosts that differ in nothing else behave
    alike, and a user context given without a default system prompt has
    no effect at all. *)
Theorem host_user_context_is_not_read
    (enabled : list string) (prompt context context' : string)
    (m : gmap string string) (fuel : nat) (query : string)
    (given : option string) (state : option State) (e : Env W) :
  process_input_with_agent_loop fuel (mkSelf enabled prompt context m)
    query given state e
  = process_input_with_agent_loop fuel (mkSelf enabled prompt context' m)
      query given state e
  /\ forall default_prompt selection,
       (default_prompt = None \/ default_prompt = Some EmptyString) ->
       __init__ default_prompt (Some context) selection
       = mkSelf (enabled_clients (__init__ default_prompt None selection))
           "You are a helpful assistant." context ∅.
Proof.
  split.
  - unfold process_input_with_agent_loop, _prepare_query,
      get_all_resources_info, get_all_tools, get_all_tools_from_servers,
      set_tool_to_client_map, _create_claude_message, prompt_or_default,
      mcp_clients.
    cbn [enabled_clients system_prompt user_context tool_to_client_map].
    unfold bind, ret. cbv beta iota zeta.
    destruct (resources_of _ e) as [[infos e0]|x]; [|reflexivity].
    cbv beta iota zeta.
    destruct (collect_tools _ [] ∅ e0) as [[[tools1 m1] e1]|x];
      [|reflexivity].
    cbv beta iota zeta.
    cbn [enabled_clients system_prompt user_context tool_to_client_map].
    destruct (collect_tools _ [] ∅ e1) as [[[tools2 m2] e2]|x];
      [|reflexivity].
    cbv beta iota zeta.
    cbn [enabled_clients system_prompt user_context tool_to_client_map].
    unfold emit. cbv beta iota.
    destruct (external _ _) as [[response0 e3]|x]; [|reflexivity].
    rewrite (host_loop_ignores_user_context enabled prompt context context').
    reflexivity.
  - intros default_prompt selection [->| ->]; unfold __init__;
      destruct context; reflexivity.
Qed.

(** X25. Which clients a host talks to. The enabled clients are the
    default clients that the selection names; a selection that is absent
    or empty enables every default client, and a name that is no default
    client is ignored. A new host has an empty map of the tools. *)
Theorem selection_picks_among_the_default_clients
    (default_prompt context : option string)
    (selection : option (list string)) :
  let self := __init__ default_prompt context selection in
  (forall c,
      c ∈ mcp_clients self
      <-> c ∈ DEFAULT_CLIENTS
          /\ match selection with
             | Some (x :: xs) => c ∈ x :: xs
             | _ => True
             end)
  /\ (match selection with
      | Some (_ :: _) => True
      | _ => mcp_clients self = DEFAULT_CLIENTS
      end)
  /\ tool_to_client_map self = ∅.
Proof.
  cbn zeta. split; [|split; [|reflexivity]].
  - intros c. unfold mcp_clients.
    rewrite list_elem_of_In, List.filter_In, bool_decide_eq_true,
      <- list_elem_of_In.
    destruct selection as [[|x xs]|]; cbn [__init__ enabled_clients].
    + split; [intros [H _]|intros [H _]]; split; auto.
    + split; intros [H1 H2]; split; assumption.
    + split; [intros [H _]|intros [H _]]; split; auto.
  - destruct selection as [[|x xs]|]; [reflexivity|exact I|reflexivity].
Qed.

(** X26. The system prompt of a host is never empty: it is the default
    prompt joined with the user context when both are given and not
    empty, the default prompt alone when only it is, and otherwise the
    fixed text [You are a helpful assistant.]. *)
Theorem host_system_prompt_is_never_empty
    (default_prompt context : option string)
    (selection : option (list string)) :
  let self := __init__ default_prompt context selection in
  let given (o : option string) := default EmptyString o in
  system_prompt self <> EmptyString
  /\ system_prompt self
     = (if str_bool (given default_prompt)
        then if str_bool (given context)
             then prompt_with_user_context (given default_prompt)
                    (given context)
             else given default_prompt
        else "You are a helpful assistant.")
  /\ user_context self = given context.
Proof.
  cbn zeta. unfold __init__. cbn [system_prompt user_context].
  destruct default_prompt as [[|a p]|], context as [[|b u]|];
    cbn [str_bool andb default from_option id];
    repeat split; try reflexivity; discriminate.
Qed.

End HostWholeRun.

Lemma host_run_alternates_dispatches_and_model_calls_example :
  exists output st e',
    MCPHost.process_input_with_agent_loop (CO := Examples.host_scripted) 5
      Examples.host_self "send both mails" None None
      (mkEnv Examples.host_reuse_script [])
    = Ok ((output, st), e')
    /\ model_calls (trace e') + dispatches []
       = model_calls [] + dispatches (trace e') + 1.
Proof.
  match goal with
  | |- exists output st e', ?run = _ /\ _ =>
      destruct run as [[[output st] e']|x] eqn:Hrun;
        [|vm_compute in Hrun; discriminate Hrun]
  end.
  exists output, st, e'. split; [reflexivity|].
  exact (host_run_alternates_dispatches_and_model_calls
           (CO := Examples.host_scripted) 5 Examples.host_self
           "send both mails" None None
           (mkEnv Examples.host_reuse_script []) e' output st Hrun).
Defined.

Lemma run_merges_its_results_into_the_session_state_example :
  let results : gmap string ResultContent :=
    <[ "toolu_dup" := RStr "a stale result" ]>
      (<[ "toolu_0" := RStr "an earlier result" ]> ∅) in
  exists output e' merged,
    MCPHost.process_input_with_agent_loop (CO := Examples.host_scripted) 5
      Examples.host_self "send both mails" None
      (Some (MCPHost.mkState (Some results)))
      (mkEnv Examples.host_reuse_script [])
    = Ok ((output, Some (MCPHost.mkState (Some merged))), e')
    /\ merged !! "toolu_dup"
       = Some (RMcp [TextContent
                       ("send_email returned "
                        +:+ dumps Examples.second_args)])
    /\ merged !! "toolu_0" = Some (RStr "an earlier result").
Proof.
  cbn zeta.
  match goal with
  | |- exists output e' merged, ?run = _ /\ _ =>
      destruct run as [[[output st] e']|x] eqn:Hrun;
        [|vm_compute in Hrun; discriminate Hrun]
  end.
  pose proof (proj1 (run_merges_its_results_into_the_session_state
                       (CO := Examples.host_scripted)) _ _ _ _ _ _ _ _ _ Hrun)
    as H.
  cbv zeta in H.
  destruct H as (enriched & e0 & listed & m & self1 & e1 & catalog & self2
                 & e2 & response0 & w3 & final & ctx & new & Hq & Hs & Hg
                 & Hask & Hloop & _ & _ & merged & -> & Hm).
  vm_compute in Hq. injection Hq as <- <-.
  vm_compute in Hs. injection Hs as <- <- <- <-.
  vm_compute in Hg. injection Hg as <- <- <-.
  vm_compute in Hask. injection Hask as <- <-.
  vm_compute in Hloop. injection Hloop as _ <- _.
  exists output, e', merged. split; [reflexivity|].
  split.
  - rewrite (proj1 (Hm "toolu_dup")). vm_compute. reflexivity.
  - rewrite (proj1 (Hm "toolu_0")). vm_compute. reflexivity.
Defined.

Lemma host_user_context_is_not_read_example :
  MCPHost.__init__ None (Some "I am David, the CTO.") (Some ["Gmail"])
  = MCPHost.mkSelf ["Gmail"] "You are a helpful assistant."
      "I am David, the CTO." ∅.
Proof.
  apply (proj2 (host_user_context_is_not_read (CO := Examples.host_scripted)
                  [] EmptyString "I am David, the CTO." EmptyString ∅ 0
                  EmptyString None None (mkEnv [] []))
           None (Some ["Gmail"])).
  left. reflexivity.
Defined.

(** * Further properties of [StepExecutor]: the start of a run *)

Section StepStart.
Context `{PB : Builtins} {W : Type} {CO : StepExecutor.Collaborators W}.
Import StepExecutor.

Variables (provider : ModelProvider) (user_id : string)
          (langfuse_session_id : option string).

(** A run of the loop only adds to the trace. *)
Lemma step_loop_extends (tools : list json) (prompt : string) (fuel : nat)
    (max_iterations : Z) :
  forall (i : Z) (v : Vars) (e e' : Env W)
         (result : list string * State * Z),
    while_loop provider user_id langfuse_session_id tools prompt fuel
      max_iterations i v e = Ok (result, e') ->
    exists new, trace e' = trace e ++ new.
Proof.
  induction fuel as [|fuel IH]; intros i v e e' result H.
  - cbn [while_loop] in H. destruct (i <? max_iterations)%Z; [discriminate|].
    cbn in H. injection H as <- <-. exists []. rewrite app_nil_r. reflexivity.
  - destruct (Z.ltb_spec i max_iterations) as [Hlt|Hge].
    2:{ rewrite loop_exit in H by lia. injection H as <- <-.
        exists []. rewrite app_nil_r. reflexivity. }
    destruct (response_contents provider (response v)) as [contents|x] eqn:Hc.
    2:{ cbn [while_loop] in H.
        replace (i <? max_iterations)%Z with true in H by (symmetry; lia).
        cbn [negb] in H. unfold bind at 1 in H. rewrite Hc in H.
        discriminate. }
    rewrite (loop_round _ _ _ _ _ _ _ _ _ _ _ Hlt Hc) in H.
    match type of H with
    | match ?sc with _ => _ end = _ =>
        destruct sc as [[outcome e1]|x] eqn:Hscan; [|discriminate]
    end.
    pose proof (scan_trace _ _ _ _ _ _ _ _ _ _ _ Hscan) as Ht.
    destruct outcome as [ft st'|v'|ft].
    + injection H as <- <-. destruct Ht as (n & id & ->). eexists. reflexivity.
    + apply IH in H as (new & Hnew). destruct Ht as (n & id & Ht).
      destruct (i + 1 =? max_iterations)%Z; cbn [trace] in Hnew;
        rewrite Hnew, Ht, <- ?app_assoc; eexists; reflexivity.
    + injection H as <- <-. rewrite Ht. exists []. rewrite app_nil_r.
      reflexivity.
Qed.

(** X27. The first thing a run does that an observer can see is the
    call to the model on a single user message: the input, followed by a
    blank line, the line [USER CONTEXT:] and the user context when
    [self.user_context] is not empty, and the input alone when it is. *)
Theorem first_message_carries_the_user_context
    (self : Self) (input_action : string) (given : option string)
    (st0 : State) (max_iterations : Z) (e e' : Env W)
    (result : list string * State * Z) :
  process_input_with_agent_loop self input_action provider user_id
    given langfuse_session_id (Some st0) max_iterations e
  = Ok (result, e') ->
  let sent :=
    if str_bool (user_context self)
    then input_action +:+ nl +:+ nl +:+ "USER CONTEXT:" +:+ nl
         +:+ user_context self
    else input_action in
  exists new,
    trace e' = trace e ++ ModelCall [mkMessage user (Plain sent)] :: new.
Proof.
  intros H sent. subst sent. unfold process_input_with_agent_loop in H.
  apply bind_ok in H as (catalog & e0 & Hcat & H).
  apply bind_ok in H as (response0 & e1 & Hask & H).
  unfold call_model in Hask.
  apply bind_ok in Hask as ([] & e2 & Hemit & Hask).
  rewrite emit_ok in Hemit. injection Hemit as <-.
  apply external_inv in Hask as [_ Ht]. cbn [trace] in Ht.
  assert (Ht0 : trace e0 = trace e).
  { destruct (tools st0) as [[|t ts]|].
    - unfold get_all_tools in Hcat.
      apply bind_ok in Hcat as (l & e3 & Hreg & Hcat).
      apply external_inv in Hreg as [_ Ht3]. cbn [ret] in Hcat.
      injection Hcat as _ <-. exact Ht3.
    - cbn [ret] in Hcat. injection Hcat as _ <-. reflexivity.
    - unfold get_all_tools in Hcat.
      apply bind_ok in Hcat as (l & e3 & Hreg & Hcat).
      apply external_inv in Hreg as [_ Ht3]. cbn [ret] in Hcat.
      injection Hcat as _ <-. exact Ht3. }
  apply step_loop_extends in H as (new & Hnew).
  exists new. rewrite Hnew, Ht, Ht0, <- app_assoc. reflexivity.
Qed.

(** X28. Where the catalog of a run comes from. With [state=None], the
    default of the parameter, the run raises [TypeError] at the test
    ["tools" in state]. When the state carries a non-empty tool list,
    that list is the catalog and the registry is not consulted: the run is
    the same with any other registry in its place, also one that raises.
    When the state has no tools, or an empty list of them, the registry
    is consulted before the model is called, and its failure is the
    failure of the run. *)
Theorem catalog_comes_from_the_state_or_the_registry
    (self : Self) (input_action : string) (given : option string)
    (max_iterations : Z) (e : Env W) :
  process_input_with_agent_loop self input_action provider user_id
    given langfuse_session_id None max_iterations e
  = Raise (TypeError "argument of type 'NoneType' is not iterable")
  /\ (forall st0 t ts registry,
        tools st0 = Some (t :: ts) ->
        process_input_with_agent_loop (CO := with_registry CO registry)
          self input_action provider user_id given langfuse_session_id
          (Some st0) max_iterations e
        = process_input_with_agent_loop self input_action provider user_id
            given langfuse_session_id (Some st0) max_iterations e)
  /\ (forall st0 x,
        tools st0 = None \/ tools st0 = Some [] ->
        get_toolkits_from_arcade provider (enabled_toolkits self) (world e)
        = Raise x ->
        process_input_with_agent_loop self input_action provider user_id
          given langfuse_session_id (Some st0) max_iterations e
        = Raise x).
Proof.
  split; [reflexivity|]. split.
  - intros st0 t ts registry Htools.
    unfold process_input_with_agent_loop. rewrite Htools. reflexivity.
  - intros st0 x Htools Hreg.
    assert (Hcat : get_all_tools self provider e = Raise x).
    { unfold get_all_tools, bind, external. rewrite Hreg. reflexivity. }
    unfold process_input_with_agent_loop.
    destruct Htools as [-> | ->]; unfold bind at 1; rewrite Hcat;
      reflexivity.
Qed.

End StepStart.

Lemma first_message_carries_the_user_context_example :
  exists result e' new,
    StepExecutor.process_input_with_agent_loop (CO := Examples.scripted)
      (StepExecutor.mkSelf (Some ["Google"]) "You are a helpful assistant."
         "I am David, the CTO.")
      "plan my day" StepExecutor.ANTHROPIC "user-1" None None
      (Some Examples.empty_state) 25 (mkEnv Examples.reuse_script [])
    = Ok (result, e')
    /\ trace e'
       = ModelCall [mkMessage user
                      (Plain ("plan my day" +:+ nl +:+ nl +:+ "USER CONTEXT:"
                              +:+ nl +:+ "I am David, the CTO."))] :: new.
Proof.
  match goal with
  | |- exists result e' new, ?run = _ /\ _ =>
      destruct run as [[result e']|x] eqn:Hrun;
        [|vm_compute in Hrun; discriminate Hrun]
  end.
  destruct (first_message_carries_the_user_context (CO := Examples.scripted)
              StepExecutor.ANTHROPIC "user-1" None
              (StepExecutor.mkSelf (Some ["Google"])
                 "You are a helpful assistant." "I am David, the CTO.")
              "plan my day" None Examples.empty_state 25
              (mkEnv Examples.reuse_script []) e' result Hrun)
    as (new & Hnew).
  exists result, e', new. split; [reflexivity|exact Hnew].
Defined.

Lemma catalog_comes_from_the_state_or_the_registry_example :
  let down : StepExecutor.ModelProvider -> option (list string) ->
             list StepExecutor.Response ->
             result (list json * list StepExecutor.Response) :=
    fun _ _ _ => Raise (External "registry down") in
  let with_tools :=
    StepExecutor.mkState None
      (Some (Examples.example_toolkit StepExecutor.ANTHROPIC)) (Some ∅) in
  let run (CO : StepExecutor.Collaborators (list StepExecutor.Response))
          (st : StepExecutor.State) :=
    StepExecutor.process_input_with_agent_loop (CO := CO)
      Examples.example_self "plan my day" StepExecutor.ANTHROPIC "user-1"
      None None (Some st) 25 (mkEnv Examples.reuse_script []) in
  run (with_registry Examples.scripted down) with_tools
  = run Examples.scripted with_tools
  /\ run (with_registry Examples.scripted down) Examples.empty_state
     = Raise (External "registry down").
Proof.
  cbn zeta. split.
  - apply (proj1 (proj2 (catalog_comes_from_the_state_or_the_registry
                           (CO := Examples.scripted) StepExecutor.ANTHROPIC
                           "user-1" None Examples.example_self "plan my day"
                           None 25 (mkEnv Examples.reuse_script [])))
             (StepExecutor.mkState None
                (Some (Examples.example_toolkit StepExecutor.ANTHROPIC))
                (Some ∅))
             (JDict [("name", JStr "Google.SendEmail");
                     ("description", JStr "Send an email");
                     ("input_schema", JDict [("type", JStr "object")])])
             []).
    reflexivity.
  - apply (proj2 (proj2 (catalog_comes_from_the_state_or_the_registry
                           (CO := with_registry Examples.scripted
                                    (fun _ _ _ =>
                                       Raise (External "registry down")))
                           StepExecutor.ANTHROPIC "user-1" None
                           Examples.example_self "plan my day" None 25
                           (mkEnv Examples.reuse_script [])))
             Examples.empty_state (External "registry down")).
    + left. reflexivity.
    + reflexivity.
Defined.

(** * Further properties of [StepExecutor]: [__init__] *)

Section StepInit.
Context `{PB : Builtins} {W : Type} {CN : StepExecutor.Constructors W}.
Import StepExecutor.

Lemma client_if_key_eq {A : Type} (key : string)
    (make : option string -> W -> result (A * W)) (e : Env W) :
  client_if_key key make e
  = match client_for key make (world e) with
    | Ok (client, w') => Ok (client, mkEnv w' (trace e))
    | Raise x => Raise x
    end.
Proof.
  destruct e as [w t].
  unfold client_if_key, client_for, os_getenv, bind, external, key_bool.
  cbn [world trace ret].
  destruct (getenv key w) as [k|] eqn:Hk; [|reflexivity].
  destruct (str_bool k); [|reflexivity].
  cbn [world trace]. rewrite Hk.
  destruct (make (Some k) w) as [[client w']|x]; reflexivity.
Qed.

(** The system prompt that [__init__] stores is the one that the host
    stores for the same arguments, and it is not empty. *)
Lemma init_prompt (default_prompt context : option string) :
  let given :=
    match default_prompt, context with
    | Some p, Some u =>
        if str_bool p && str_bool u
        then Some (prompt_with_user_context p u)
        else default_prompt
    | _, _ => default_prompt
    end in
  let prompt :=
    match given with
    | Some p => if str_bool p then p else "You are a helpful assistant."
    | None => "You are a helpful assistant."
    end in
  prompt = MCPHost.system_prompt (MCPHost.__init__ default_prompt context None)
  /\ prompt <> EmptyString.
Proof.
  cbn zeta. split.
  - destruct default_prompt as [[|a p]|], context as [[|b u]|]; reflexivity.
  - destruct default_prompt as [[|a p]|], context as [[|b u]|]; discriminate.
Qed.

(** X29. [__init__] builds its clients before anything else: the registry
    client from [ARCADE_API_KEY], the tool processor on that client, then
    the client of each provider whose key is set and not empty, and the
    message creator on those two. When all of them are built, it returns
    them with the toolkits as given, the system prompt that the host
    builds from the same arguments, which is never the empty text, and
    the user context or the empty text; on the way it prints a warning
    exactly when no toolkit is enabled. A constructor that raises makes
    [__init__] raise the same exception. *)
Theorem step_init_warns_without_toolkits
    (default_prompt context : option string)
    (toolkits : option (list string)) (e : Env W) :
  let warning :=
    match toolkits with
    | Some (_ :: _) => []
    | _ => [Printed NO_TOOLKITS_WARNING]
    end in
  let run := __init__ default_prompt context toolkits e in
  let arcade := Arcade (getenv "ARCADE_API_KEY" (world e)) (world e) in
  let prompt :=
    MCPHost.system_prompt (MCPHost.__init__ default_prompt context None) in
  (forall arcade_client w1 tool_processor w2 anthropic_client w3
          openai_client w4 message_creator w5,
      arcade = Ok (arcade_client, w1) ->
      ToolProcessor arcade_client w1 = Ok (tool_processor, w2) ->
      client_for "ANTHROPIC_API_KEY" Anthropic w2
      = Ok (anthropic_client, w3) ->
      client_for "OPENAI_API_KEY" OpenAI w3 = Ok (openai_client, w4) ->
      LLMMessageCreator anthropic_client openai_client w4
      = Ok (message_creator, w5) ->
      run = Ok (mkAttributes
                  (mkSelf toolkits prompt (default EmptyString context))
                  arcade_client tool_processor message_creator,
                mkEnv w5 (trace e ++ warning))
      /\ prompt <> EmptyString)
  /\ (forall x, arcade = Raise x -> run = Raise x)
  /\ (forall arcade_client w1 x,
         arcade = Ok (arcade_client, w1) ->
         ToolProcessor arcade_client w1 = Raise x ->
         run = Raise x)
  /\ (forall arcade_client w1 tool_processor w2 x,
         arcade = Ok (arcade_client, w1) ->
         ToolProcessor arcade_client w1 = Ok (tool_processor, w2) ->
         client_for "ANTHROPIC_API_KEY" Anthropic w2 = Raise x ->
         run = Raise x)
  /\ (forall arcade_client w1 tool_processor w2 anthropic_client w3 x,
         arcade = Ok (arcade_client, w1) ->
         ToolProcessor arcade_client w1 = Ok (tool_processor, w2) ->
         client_for "ANTHROPIC_API_KEY" Anthropic w2
         = Ok (anthropic_client, w3) ->
         client_for "OPENAI_API_KEY" OpenAI w3 = Raise x ->
         run = Raise x)
  /\ (forall arcade_client w1 tool_processor w2 anthropic_client w3
             openai_client w4 x,
         arcade = Ok (arcade_client, w1) ->
         ToolProcessor arcade_client w1 = Ok (tool_processor, w2) ->
         client_for "ANTHROPIC_API_KEY" Anthropic w2
         = Ok (anthropic_client, w3) ->
         client_for "OPENAI_API_KEY" OpenAI w3 = Ok (openai_client, w4) ->
         LLMMessageCreator anthropic_client openai_client w4 = Raise x ->
         run = Raise x).
Proof.
  intros warning run arcade prompt.
  destruct (init_prompt default_prompt context) as [Hprompt Hne].
  fold prompt in Hprompt, Hne.
  assert (Hwarn : forall w,
    (match toolkits return M W unit with
     | Some (_ :: _) => ret tt
     | _ => print NO_TOOLKITS_WARNING
     end) (mkEnv w (trace e))
    = Ok (tt, mkEnv w (trace e ++ warning))).
  { intros w. subst warning. destruct toolkits as [[|t ts]|];
      unfold print, ret; rewrite ?emit_ok; cbn [world trace];
      rewrite ?app_nil_r; reflexivity. }
  repeat split.
  - subst run. unfold __init__, os_getenv.
    unfold bind at 1. erewrite external_ok by reflexivity.
    cbv beta iota. unfold bind at 1.
    erewrite external_ok by (cbn [world]; exact H).
    cbv beta iota. unfold bind at 1.
    erewrite external_ok by (cbn [world]; exact H0).
    cbv beta iota. unfold bind at 1. cbn [trace]. rewrite Hwarn.
    cbv beta iota. unfold bind at 1. rewrite client_if_key_eq.
    cbn [world trace]. rewrite H1. cbv beta iota.
    unfold bind at 1. rewrite client_if_key_eq.
    cbn [world trace]. rewrite H2. cbv beta iota.
    unfold bind at 1.
    erewrite external_ok by (cbn [world]; exact H3).
    cbv beta iota zeta. cbn [trace ret]. rewrite <- Hprompt.
    destruct context as [[|b u]|]; reflexivity.
  - exact Hne.
  - intros x H. subst run. unfold __init__, os_getenv.
    unfold bind at 1. erewrite external_ok by reflexivity.
    cbv beta iota. unfold bind at 1. unfold external at 1.
    cbn [world]. fold arcade. rewrite H. reflexivity.
  - intros arcade_client w1 x H H0. subst run. unfold __init__, os_getenv.
    unfold bind at 1. erewrite external_ok by reflexivity.
    cbv beta iota. unfold bind at 1.
    erewrite external_ok by (cbn [world]; exact H).
    cbv beta iota. unfold bind at 1. unfold external at 1.
    cbn [world]. rewrite H0. reflexivity.
  - intros arcade_client w1 tool_processor w2 x H H0 H1.
    subst run. unfold __init__, os_getenv.
    unfold bind at 1. erewrite external_ok by reflexivity.
    cbv beta iota. unfold bind at 1.
    erewrite external_ok by (cbn [world]; exact H).
    cbv beta iota. unfold bind at 1.
    erewrite external_ok by (cbn [world]; exact H0).
    cbv beta iota. unfold bind at 1. cbn [trace]. rewrite Hwarn.
    cbv beta iota. unfold bind at 1. rewrite client_if_key_eq.
    cbn [world trace]. rewrite H1. reflexivity.
  - intros arcade_client w1 tool_processor w2 anthropic_client w3 x
           H H0 H1 H2.
    subst run. unfold __init__, os_getenv.
    unfold bind at 1. erewrite external_ok by reflexivity.
    cbv beta iota. unfold bind at 1.
    erewrite external_ok by (cbn [world]; exact H).
    cbv beta iota. unfold bind at 1.
    erewrite external_ok by (cbn [world]; exact H0).
    cbv beta iota. unfold bind at 1. cbn [trace]. rewrite Hwarn.
    cbv beta iota. unfold bind at 1. rewrite client_if_key_eq.
    cbn [world trace]. rewrite H1. cbv beta iota.
    unfold bind at 1. rewrite client_if_key_eq.
    cbn [world trace]. rewrite H2. reflexivity.
  - intros arcade_client w1 tool_processor w2 anthropic_client w3
           openai_client w4 x H H0 H1 H2 H3.
    subst run. unfold __init__, os_getenv.
    unfold bind at 1. erewrite external_ok by reflexivity.
    cbv beta iota. unfold bind at 1.
    erewrite external_ok by (cbn [world]; exact H).
    cbv beta iota. unfold bind at 1.
    erewrite external_ok by (cbn [world]; exact H0).
    cbv beta iota. unfold bind at 1. cbn [trace]. rewrite Hwarn.
    cbv beta iota. unfold bind at 1. rewrite client_if_key_eq.
    cbn [world trace]. rewrite H1. cbv beta iota.
    unfold bind at 1. rewrite client_if_key_eq.
    cbn [world trace]. rewrite H2. cbv beta iota.
    unfold bind at 1. unfold external at 1.
    cbn [world]. rewrite H3. reflexivity.
Qed.

End StepInit.

Lemma step_init_warns_without_toolkits_example :
  let environ :=
    [("ARCADE_API_KEY", "arc-1"); ("ANTHROPIC_API_KEY", "sk-ant-1");
     ("OPENAI_API_KEY", EmptyString)] in
  StepExecutor.__init__ (CN := Examples.from_environment)
    (Some "Be brief.") None (Some []) (mkEnv environ [])
  = Ok (StepExecutor.mkAttributes (CN := Examples.from_environment)
          (StepExecutor.mkSelf (Some []) "Be brief." EmptyString)
          "arc-1" "arc-1" (Some "sk-ant-1", None),
        mkEnv environ [Printed StepExecutor.NO_TOOLKITS_WARNING])
  /\ StepExecutor.__init__ (CN := Examples.from_environment)
       (Some "Be brief.") None (Some ["Google"]) (mkEnv [] [])
     = Raise (External "The api_key client option must be set").
Proof.
  cbn zeta. split.
  - pose proof (proj1 (step_init_warns_without_toolkits
                         (CN := Examples.from_environment)
                         (Some "Be brief.") None (Some [])
                         (mkEnv [("ARCADE_API_KEY", "arc-1");
                                 ("ANTHROPIC_API_KEY", "sk-ant-1");
                                 ("OPENAI_API_KEY", EmptyString)] [])))
      as H.
    cbv zeta in H.
    destruct (H "arc-1" _ "arc-1" _ (Some "sk-ant-1") _ None _
                (Some "sk-ant-1", None) _
                eq_refl eq_refl eq_refl eq_refl eq_refl) as [Hrun _].
    exact Hrun.
  - apply (proj1 (proj2 (step_init_warns_without_toolkits
                           (CN := Examples.from_environment)
                           (Some "Be brief.") None (Some ["Google"])
                           (mkEnv [] [])))).
    reflexivity.
Defined.
